(** * obsbot.cogs.public.utils.github — GitHubHelper

    A shallow embedding of [GitHubHelper] (webhook formatting, the
    bounded-retry fetcher, the author cache and the nightly-build slots)
    together with the properties its specification states about it.

    Conventions of the embedding
    - Python values that travel through JSON are [pyval]; a JSON object is
      an association list with string keys (keys are unique, as produced
      by a JSON parser), a JSON array is a list.  Floats are not part of
      the model: numbers are integers and [time.time()] reads whole ticks.
    - A Python [str] is a [string] whose characters are code points below
      256.
    - A [datetime] is a number of whole seconds on one time line.
    - Exceptions are explicit: pure operations return [res], effectful
      ones run in the monad [M] over the state of the helper object and
      of its collaborators (HTTP session, clock, event loop, logger). *)

From Stdlib Require Import ZArith String Ascii List DecimalString Lia Bool.
From stdpp Require Import gmap strings list.

Local Open Scope Z_scope.
Set Warnings "-register-all".

(** ** Python strings *)

Module PyStr.

Definition nl : ascii := ascii_of_nat 10.
Definition cr : ascii := ascii_of_nat 13.
Definition NL : string := String nl EmptyString.

(** [sep.join(l)] *)
Fixpoint join (sep : string) (l : list string) : string :=
  match l with
  | [] => EmptyString
  | [x] => x
  | x :: rest => x +:+ sep +:+ join sep rest
  end.

(** [s.startswith(p)] *)
Definition startswith (p s : string) : bool := String.prefix p s.

(** [needle in hay] for two strings *)
Fixpoint contains (needle hay : string) : bool :=
  String.prefix needle hay ||
  match hay with
  | EmptyString => false
  | String _ t => contains needle t
  end.

(** [s.split(c)] for a one-character separator: never the empty list. *)
Fixpoint split (c : ascii) (s : string) : list string :=
  match s with
  | EmptyString => [EmptyString]
  | String a t =>
      if Ascii.eqb a c then EmptyString :: split c t
      else match split c t with
           | [] => [String a EmptyString]
           | w :: ws => String a w :: ws
           end
  end.

(** [s.rpartition(c)]: the parts around the last occurrence of [c];
    [('', '', s)] when there is none. *)
Fixpoint rfind_split (c : ascii) (s : string) : option (string * string) :=
  match s with
  | EmptyString => None
  | String a t =>
      match rfind_split c t with
      | Some (before, after) => Some (String a before, after)
      | None => if Ascii.eqb a c then Some (EmptyString, t) else None
      end
  end.

Definition rpartition (c : ascii) (s : string) : string * string * string :=
  match rfind_split c s with
  | Some (before, after) => (before, String c EmptyString, after)
  | None => (EmptyString, EmptyString, s)
  end.

(** Line boundaries of [str.splitlines]: LF, VT, FF, CR (and CR LF), FS,
    GS, RS, NEL. *)
Definition is_linebreak (a : ascii) : bool :=
  let n := nat_of_ascii a in
  existsb (Nat.eqb n) [10; 11; 12; 13; 28; 29; 30; 133]%nat.

(** Pieces between line boundaries; [after_cr] records that the previous
    character was a CR, so that a following LF belongs to the same
    boundary. *)
Fixpoint line_pieces (after_cr : bool) (s : string) : list string :=
  match s with
  | EmptyString => [EmptyString]
  | String a t =>
      if after_cr && Ascii.eqb a nl then line_pieces false t
      else if is_linebreak a then EmptyString :: line_pieces (Ascii.eqb a cr) t
      else match line_pieces false t with
           | [] => [String a EmptyString]
           | w :: ws => String a w :: ws
           end
  end.

Fixpoint drop_last_empty (l : list string) : list string :=
  match l with
  | [] => []
  | [x] => if String.eqb x EmptyString then [] else [x]
  | x :: rest => x :: drop_last_empty rest
  end.

(** [s.splitlines()] *)
Definition splitlines (s : string) : list string :=
  drop_last_empty (line_pieces false s).

(** [str.isspace] on one character. *)
Definition is_space (a : ascii) : bool :=
  let n := nat_of_ascii a in
  existsb (Nat.eqb n) [9; 10; 11; 12; 13; 28; 29; 30; 31; 32; 133; 160]%nat.

Fixpoint lstrip (s : string) : string :=
  match s with
  | EmptyString => EmptyString
  | String a t => if is_space a then lstrip t else s
  end.

Fixpoint rstrip (s : string) : string :=
  match s with
  | EmptyString => EmptyString
  | String a t =>
      match rstrip t with
      | EmptyString => if is_space a then EmptyString else String a EmptyString
      | t' => String a t'
      end
  end.

(** [s.strip()] *)
Definition strip (s : string) : string := rstrip (lstrip s).

(** [str(n)] for an integer *)
Definition of_Z (z : Z) : string := NilZero.string_of_int (Z.to_int z).

End PyStr.

(** ** Python values *)

Inductive pyval : Type :=
| PNone
| PBool (b : bool)
| PInt (z : Z)
| PStr (s : string)
| PList (l : list pyval)
| PDict (d : list (string * pyval)).

Inductive exn : Type :=
| KeyError | TypeError | IndexError | AttributeError | ValueError | ClientError.

Inductive res (A : Type) : Type :=
| Ok (a : A)
| Raise (e : exn).
Arguments Ok {A} a.
Arguments Raise {A} e.

Module Py.

(** Lookup in a JSON object. *)
Fixpoint assoc (k : string) (d : list (string * pyval)) : option pyval :=
  match d with
  | [] => None
  | (k', v) :: rest => if String.eqb k k' then Some v else assoc k rest
  end.

(** [d[k] = v] on a JSON object: replaces in place or appends. *)
Fixpoint assoc_set (k : string) (v : pyval) (d : list (string * pyval))
  : list (string * pyval) :=
  match d with
  | [] => [(k, v)]
  | (k', v') :: rest =>
      if String.eqb k k' then (k, v) :: rest else (k', v') :: assoc_set k v rest
  end.

(** [bool(v)] *)
Definition truthy (v : pyval) : bool :=
  match v with
  | PNone => false
  | PBool b => b
  | PInt z => negb (z =? 0)
  | PStr s => negb (String.eqb s EmptyString)
  | PList l => match l with [] => false | _ => true end
  | PDict d => match d with [] => false | _ => true end
  end.

(** [a == b].  Booleans are integers; objects compare by content
    whatever the order of their keys. *)
Fixpoint eqb (a b : pyval) {struct a} : bool :=
  match a, b with
  | PNone, PNone => true
  | PBool x, PBool y => Bool.eqb x y
  | PBool x, PInt y => Z.b2z x =? y
  | PInt x, PBool y => x =? Z.b2z y
  | PInt x, PInt y => x =? y
  | PStr x, PStr y => String.eqb x y
  | PList xs, PList ys =>
      (fix go (xs ys : list pyval) : bool :=
         match xs, ys with
         | [], [] => true
         | x :: xs', y :: ys' => eqb x y && go xs' ys'
         | _, _ => false
         end) xs ys
  | PDict xs, PDict ys =>
      Nat.eqb (length xs) (length ys) &&
      (fix go (xs : list (string * pyval)) : bool :=
         match xs with
         | [] => true
         | (k, v) :: xs' =>
             match assoc k ys with
             | Some w => eqb v w
             | None => false
             end && go xs'
         end) xs
  | _, _ => false
  end.

(** [v[key]] with a string key. *)
Definition getitem (v : pyval) (key : string) : res pyval :=
  match v with
  | PDict d => match assoc key d with
               | Some x => Ok x
               | None => Raise KeyError
               end
  | _ => Raise TypeError
  end.

(** [v.get(key, default)] *)
Definition get (v : pyval) (key : string) (default : pyval) : res pyval :=
  match v with
  | PDict d => Ok (match assoc key d with Some x => x | None => default end)
  | _ => Raise AttributeError
  end.

(** [v[key] = x] with a string key. *)
Definition setitem (v : pyval) (key : string) (x : pyval) : res pyval :=
  match v with
  | PDict d => Ok (PDict (assoc_set key x d))
  | _ => Raise TypeError
  end.

(** The payload positions that the module iterates or indexes by
    position hold JSON arrays; any other value is reported as
    [TypeError]. *)
Definition as_list (v : pyval) : res (list pyval) :=
  match v with
  | PList l => Ok l
  | _ => Raise TypeError
  end.

(** A value on which a [str] method is called. *)
Definition as_str (v : pyval) : res string :=
  match v with
  | PStr s => Ok s
  | _ => Raise AttributeError
  end.

(** [l[i]] for a list and a possibly negative index. *)
Definition index (l : list pyval) (i : Z) : res pyval :=
  let n := Z.of_nat (length l) in
  let j := if i <? 0 then i + n else i in
  if (j <? 0) || (n <=? j) then Raise IndexError
  else match nth_error l (Z.to_nat j) with
       | Some x => Ok x
       | None => Raise IndexError
       end.

(** [l[-1:]] *)
Definition last_slice (l : list pyval) : list pyval :=
  skipn (length l - 1)%nat l.

(** [needle in v] for a string literal [needle]. *)
Definition contains (needle : string) (v : pyval) : res bool :=
  match v with
  | PStr s => Ok (PyStr.contains needle s)
  | PList l => Ok (existsb (eqb (PStr needle)) l)
  | PDict d => Ok (match assoc needle d with Some _ => true | None => false end)
  | _ => Raise TypeError
  end.

(** [now - v] for a clock reading [now]. *)
Definition sub_from (now : Z) (v : pyval) : res Z :=
  match v with
  | PInt z => Ok (now - z)
  | PBool b => Ok (now - Z.b2z b)
  | _ => Raise TypeError
  end.

(** [sep.join(l)]: every item must be a [str]. *)
Fixpoint strings_of (l : list pyval) : res (list string) :=
  match l with
  | [] => Ok []
  | PStr s :: rest =>
      match strings_of rest with
      | Ok ss => Ok (s :: ss)
      | Raise e => Raise e
      end
  | _ :: _ => Raise TypeError
  end.

Definition join (sep : string) (l : list pyval) : res string :=
  match strings_of l with
  | Ok ss => Ok (PyStr.join sep ss)
  | Raise e => Raise e
  end.

(** [hash(v)] succeeds. *)
Definition hashable (v : pyval) : bool :=
  match v with
  | PList _ | PDict _ => false
  | _ => true
  end.

Definition hex_digit (n : nat) : ascii :=
  ascii_of_nat (if (n <? 10)%nat then 48 + n else 87 + n).

(** One character of [repr(s)] inside the quotes [q]: the backslash and
    the quote are escaped, and so is every character that is not
    printable (below 0x20, from 0x7f to 0xa0, and 0xad). *)
Definition repr_char (q : ascii) (a : ascii) : string :=
  let n := nat_of_ascii a in
  if Ascii.eqb a "\"%char then "\\"%string
  else if Ascii.eqb a q then String "\"%char (String q EmptyString)
  else if (n =? 10)%nat then "\n"%string
  else if (n =? 13)%nat then "\r"%string
  else if (n =? 9)%nat then "\t"%string
  else if (n <? 32)%nat || ((127 <=? n)%nat && (n <=? 160)%nat) || (n =? 173)%nat then
    String "\"%char (String "x"%char
      (String (hex_digit (n / 16)) (String (hex_digit (n mod 16)) EmptyString)))
  else String a EmptyString.

Fixpoint concat_map (f : ascii -> string) (s : string) : string :=
  match s with
  | EmptyString => EmptyString
  | String a t => f a +:+ concat_map f t
  end.

(** [repr(s)] of a string: single quotes unless the string has a single
    quote and no double quote. *)
Definition repr_str (s : string) : string :=
  let q := if PyStr.contains "'"%string s
              && negb (PyStr.contains (String (ascii_of_nat 34) EmptyString) s)
           then ascii_of_nat 34 else "'"%char in
  String q (concat_map (repr_char q) s) +:+ String q EmptyString.

(** [repr(v)] *)
Fixpoint repr (v : pyval) : string :=
  match v with
  | PNone => "None"
  | PBool true => "True"
  | PBool false => "False"
  | PInt z => PyStr.of_Z z
  | PStr s => repr_str s
  | PList l =>
      "[" +:+ PyStr.join ", " (map repr l) +:+ "]"
  | PDict d =>
      "{" +:+ PyStr.join ", "
                (map (fun kv => repr_str (fst kv) +:+ ": " +:+ repr (snd kv)) d)
          +:+ "}"
  end.

(** [str(v)], which is what an f-string field interpolates. *)
Definition str (v : pyval) : string :=
  match v with
  | PStr s => s
  | _ => repr v
  end.

End Py.

(** ** The helper object and its collaborators *)

(** One outbound [session.get(url, params=..., headers={Authorization: ..})]. *)
Record request : Type := {
  req_url : pyval;
  req_params : option (list (string * pyval));
  req_auth : pyval
}.

(** What the HTTP session answers: no response at all, or a status with a
    body that parses as JSON or does not. *)
Inductive response : Type :=
| ConnError
| Resp (status : Z) (body : option pyval).

Inductive log_level : Type := LogWarning | LogError.

(** Observable actions, oldest first. *)
Inductive event : Type :=
| EvGet (r : request)
| EvSleep (seconds : Z)
| EvLog (lvl : log_level) (msg : string).

(** [self.config] *)
Record Config : Type := {
  github_api_auth : pyval;
  commit_truncation_limit : Z;
  workflow_id : pyval;
  emotes_passed : pyval;
  emotes_partial : pyval;
  emotes_failed : pyval
}.

(** The surroundings of one helper: its configuration, the answer of the
    network to the [n]-th request, the [n]-th reading of [time.time()] and
    [dateutil.parser.parse] (seconds on a common time line). *)
Record Env : Type := {
  config : Config;
  http : nat -> request -> response;
  clock : nat -> Z;
  dateutil_parse : string -> option Z
}.

(** The mutable part: [self.user_cache], [self.state], and how much of the
    network and of the clock has been consumed. *)
Record world : Type := {
  user_cache : list (pyval * pyval);
  state : gmap string pyval;
  n_get : nat;
  n_time : nat;
  trace : list event
}.

Definition M (A : Type) : Type := world -> res A * world.

Definition ret {A} (a : A) : M A := fun w => (Ok a, w).

Definition bind {A B} (m : M A) (k : A -> M B) : M B :=
  fun w => match m w with
           | (Ok a, w') => k a w'
           | (Raise e, w') => (Raise e, w')
           end.

Definition lift {A} (r : res A) : M A := fun w => (r, w).

(** [try: m except Exception as e: ...] hands the outcome to the caller. *)
Definition attempt {A} (m : M A) : M (res A) :=
  fun w => let (r, w') := m w in (Ok r, w').

Notation "x <- m ;; k" := (bind m (fun x => k))
  (at level 100, m at next level, right associativity).
Notation "m ;; k" := (bind m (fun _ => k))
  (at level 100, right associativity).

Definition emit (ev : event) : M unit :=
  fun w => (Ok tt, {| user_cache := user_cache w; state := state w;
                      n_get := n_get w; n_time := n_time w;
                      trace := trace w ++ [ev] |}).

(** [logger.warning(msg)], [logger.error(msg)]; the text of the exception
    that some messages interpolate is left out of [msg]. *)
Definition logger (lvl : log_level) (msg : string) : M unit := emit (EvLog lvl msg).

(** [await asyncio.sleep(seconds)] *)
Definition asyncio_sleep (seconds : Z) : M unit := emit (EvSleep seconds).

Fixpoint for_each {A B} (f : A -> M B) (l : list A) : M (list B) :=
  match l with
  | [] => ret []
  | x :: rest => y <- f x ;; ys <- for_each f rest ;; ret (y :: ys)
  end.

(** [discord.Embed] *)
Record embed_author : Type := {
  author_name : pyval;
  author_url : option pyval;
  author_icon_url : option pyval
}.

Record Embed : Type := {
  title : string;
  colour : Z;
  url : pyval;
  timestamp : option Z;
  description : option string;
  author : option embed_author;
  footer : option string;
  fields : list (string * pyval * bool)
}.

Definition new_embed (t : string) (c : Z) (u : pyval) (ts : option Z)
                     (d : option string) : Embed :=
  {| title := t; colour := c; url := u; timestamp := ts; description := d;
     author := None; footer := None; fields := [] |}.

Definition set_description (d : string) (e : Embed) : Embed :=
  {| title := title e; colour := colour e; url := url e; timestamp := timestamp e;
     description := Some d; author := author e; footer := footer e;
     fields := fields e |}.

Definition set_author (name : pyval) (u icon : option pyval) (e : Embed) : Embed :=
  {| title := title e; colour := colour e; url := url e; timestamp := timestamp e;
     description := description e;
     author := Some {| author_name := name; author_url := u; author_icon_url := icon |};
     footer := footer e; fields := fields e |}.

Definition set_footer (text : string) (e : Embed) : Embed :=
  {| title := title e; colour := colour e; url := url e; timestamp := timestamp e;
     description := description e; author := author e; footer := Some text;
     fields := fields e |}.

Definition add_field (name : string) (value : pyval) (inline : bool) (e : Embed) : Embed :=
  {| title := title e; colour := colour e; url := url e; timestamp := timestamp e;
     description := description e; author := author e; footer := footer e;
     fields := fields e ++ [(name, value, inline)] |}.

(** ** class GitHubHelper *)

Module GitHubHelper.
Section Helper.

Variable E : Env.

Definition _commit_colour : Z := 0xffffff.
Definition _skipped_commit_colour : Z := 0x9b9b9b.
Definition _pull_request_colour : Z := 0x366d6.
Definition _issue_colour : Z := 0x2CBE4E.
Definition _ci_failed_colour : Z := 0xd0021b.
Definition _ci_some_failed_colour : Z := 0xF5A623.
Definition _ci_passed_colour : Z := 0x7ED321.

Definition user_cache_max_age : Z := 3600 * 24 * 7.

(** [time.time()] *)
Definition time_time : M Z :=
  fun w => (Ok (clock E (n_time w)),
            {| user_cache := user_cache w; state := state w; n_get := n_get w;
               n_time := S (n_time w); trace := trace w |}).

(** [async with self.session.get(...) as r]: a transport failure raises. *)
Definition session_get (rq : request) : M (Z * option pyval) :=
  fun w =>
    let w' := {| user_cache := user_cache w; state := state w;
                 n_get := S (n_get w); n_time := n_time w;
                 trace := trace w ++ [EvGet rq] |} in
    match http E (n_get w) rq with
    | ConnError => (Raise ClientError, w')
    | Resp st body => (Ok (st, body), w')
    end.

(** [r.raise_for_status()] *)
Definition raise_for_status (r : Z * option pyval) : res unit :=
  if 400 <=? fst r then Raise ClientError else Ok tt.

(** [await r.json()] *)
Definition json (r : Z * option pyval) : res pyval :=
  match snd r with
  | Some v => Ok v
  | None => Raise ValueError
  end.

Definition default_retries : nat := 5.
Definition default_retry_interval : Z := 5.

Fixpoint get_with_retry (url : pyval) (params : option (list (string * pyval)))
         (retries : nat) (retry_interval : Z) : M pyval :=
  match retries with
  | O =>
      logger LogError "Retries exhausted!" ;;
      ret PNone
  | S remaining =>
      outcome <- attempt (
        r <- session_get {| req_url := url; req_params := params;
                            req_auth := github_api_auth (config E) |} ;;
        lift (raise_for_status r) ;;
        lift (json r)) ;;
      match outcome with
      | Ok v => ret v
      | Raise e =>
          logger LogWarning "Github API request failed, retrying" ;;
          asyncio_sleep retry_interval ;;
          get_with_retry url params remaining retry_interval
      end
  end.

(** *** The author cache *)

(** A Python [dict] keyed by whatever the payload gave as username. *)
Fixpoint cache_find (k : pyval) (c : list (pyval * pyval)) : option pyval :=
  match c with
  | [] => None
  | (k', v) :: rest => if Py.eqb k k' then Some v else cache_find k rest
  end.

Fixpoint cache_put (k v : pyval) (c : list (pyval * pyval)) : list (pyval * pyval) :=
  match c with
  | [] => [(k, v)]
  | (k', v') :: rest =>
      if Py.eqb k k' then (k', v) :: rest else (k', v') :: cache_put k v rest
  end.

(** [username in self.user_cache] *)
Definition user_cache_contains (username : pyval) : M bool :=
  fun w =>
    if Py.hashable username
    then (Ok (match cache_find username (user_cache w) with
              | Some _ => true
              | None => false
              end), w)
    else (Raise TypeError, w).

(** [self.user_cache[username]] *)
Definition user_cache_getitem (username : pyval) : M pyval :=
  fun w =>
    if Py.hashable username
    then match cache_find username (user_cache w) with
         | Some v => (Ok v, w)
         | None => (Raise KeyError, w)
         end
    else (Raise TypeError, w).

(** [self.user_cache.get(username, None)] *)
Definition user_cache_get (username : pyval) : M pyval :=
  fun w =>
    if Py.hashable username
    then match cache_find username (user_cache w) with
         | Some v => (Ok v, w)
         | None => (Ok PNone, w)
         end
    else (Raise TypeError, w).

(** [self.user_cache[username] = v] *)
Definition user_cache_setitem (username v : pyval) : M unit :=
  fun w =>
    if Py.hashable username
    then (Ok tt, {| user_cache := cache_put username v (user_cache w);
                    state := state w; n_get := n_get w; n_time := n_time w;
                    trace := trace w |})
    else (Raise TypeError, w).

Definition get_author_info (username : pyval) : M pyval :=
  cached <- user_cache_contains username ;;
  stale <- (if cached : bool then
              now <- time_time ;;
              entry <- user_cache_getitem username ;;
              fetched_at <- lift (Py.get entry "_timestamp" (PInt 0)) ;;
              age <- lift (Py.sub_from now fetched_at) ;;
              ret (age >? user_cache_max_age)
            else ret false) ;;
  if stale : bool then user_cache_getitem username
  else
    outcome <- attempt (
      r <- session_get {| req_url := PStr ("https://api.github.com/users/"
                                           +:+ Py.str username);
                          req_params := None;
                          req_auth := github_api_auth (config E) |} ;;
      author <- lift (json r) ;;
      user_cache_setitem username author ;;
      now <- time_time ;;
      entry <- user_cache_getitem username ;;
      entry' <- lift (Py.setitem entry "_timestamp" (PInt now)) ;;
      user_cache_setitem username entry') ;;
    match outcome with
    | Ok _ => user_cache_getitem username
    | Raise e =>
        logger LogWarning "Fetching github userdata failed" ;;
        user_cache_get username
    end.

(** *** Push events *)

(** [dateutil.parser.parse(v)] *)
Definition parse (v : pyval) : res Z :=
  match v with
  | PStr s => match dateutil_parse E s with
              | Some t => Ok t
              | None => Raise ValueError
              end
  | _ => Raise TypeError
  end.

(** The body of [for commit in commits]. *)
Definition format_commit (project : pyval) (branch : string) (brief : bool)
           (commit : pyval) : M (Embed * pyval) :=
  a <- lift (Py.getitem commit "author") ;;
  author_username <- lift (Py.get a "username" PNone) ;;
  a <- lift (Py.getitem commit "author") ;;
  author_name <- lift (Py.get a "name" PNone) ;;
  ts <- lift (Py.getitem commit "timestamp") ;;
  timestamp <- lift (parse ts) ;;
  msg <- lift (Py.getitem commit "message") ;;
  msg <- lift (Py.as_str msg) ;;
  let commit_message := PyStr.split PyStr.nl msg in
  commit_url <- lift (Py.getitem commit "url") ;;
  let embed := new_embed (hd EmptyString commit_message) _commit_colour commit_url
                         (Some timestamp) None in
  let embed :=
    if (2 <? length commit_message)%nat && negb brief
    then set_description (PyStr.join PyStr.NL (skipn 2 commit_message)) embed
    else embed in
  author <- get_author_info author_username ;;
  embed <- (if Py.truthy author then
              name <- lift (Py.getitem author "name") ;;
              differs <- (if Py.truthy name then
                            name <- lift (Py.getitem author "name") ;;
                            login <- lift (Py.getitem author "login") ;;
                            ret (negb (Py.eqb name login))
                          else ret false) ;;
              author_name <- (if differs : bool then
                                name <- lift (Py.getitem author "name") ;;
                                login <- lift (Py.getitem author "login") ;;
                                ret (PStr (Py.str name +:+ " (" +:+ Py.str login +:+ ")"))
                              else lift (Py.getitem author "login")) ;;
              html_url <- lift (Py.getitem author "html_url") ;;
              avatar_url <- lift (Py.getitem author "avatar_url") ;;
              ret (set_author author_name (Some html_url) (Some avatar_url) embed)
            else if Py.truthy author_name then
              ret (set_author author_name None None embed)
            else
              ret (set_author (PStr "<No Name>") None None embed)) ;;
  let embed := set_footer "Commit" embed in
  let embed := add_field "Repository" project true embed in
  let embed := add_field "Branch" (PStr branch) true embed in
  commit_id <- lift (Py.getitem commit "id") ;;
  ret (embed, commit_id).

Definition get_commit_messages (event_body : pyval) (brief : bool)
  : M (list (Embed * pyval)) :=
  ref <- lift (Py.getitem event_body "ref") ;;
  ref <- lift (Py.as_str ref) ;;
  let branch := snd (PyStr.rpartition "/" ref) in
  repository <- lift (Py.getitem event_body "repository") ;;
  project <- lift (Py.getitem repository "full_name") ;;
  commits <- lift (Py.getitem event_body "commits") ;;
  commits <- lift (Py.as_list commits) ;;
  truncated <-
    (if brief && (commit_truncation_limit (config E) <? Z.of_nat (length commits))
     then
       c <- lift (Py.index commits 0) ;;
       first_hash <- lift (Py.getitem c "id") ;;
       c <- lift (Py.index commits (-2)) ;;
       last_hash <- lift (Py.getitem c "id") ;;
       let compare_url := "https://github.com/" +:+ Py.str project +:+ "/compare/"
                          +:+ Py.str first_hash +:+ "^..." +:+ Py.str last_hash in
       let embed := new_embed ("Skipped " +:+ PyStr.of_Z (Z.of_nat (length commits) - 1)
                               +:+ " commits... (click link for diff)")
                              _skipped_commit_colour (PStr compare_url) None None in
       ret ([(embed, PNone)], Py.last_slice commits)
     else ret ([], commits)) ;;
  formatted <- for_each (format_commit project branch brief) (snd truncated) ;;
  ret (fst truncated ++ formatted).

(** *** Pull requests and issues *)

(** ['\n'.join(l.strip() for l in body.splitlines() if not l.startswith('<!-'))] *)
Definition filter_template_comments (body : string) : string :=
  PyStr.join PyStr.NL
    (map PyStr.strip
         (List.filter (fun l => negb (PyStr.startswith "<!-" l))
                      (PyStr.splitlines body))).

(** Returns [(brief_embed, embed)] and, third, the payload as the call
    leaves it: its body text is rewritten in place. *)
Definition get_pr_messages (event_body : pyval) : M (Embed * Embed * pyval) :=
  pr_number <- lift (Py.getitem event_body "number") ;;
  pr <- lift (Py.getitem event_body "pull_request") ;;
  pr_title <- lift (Py.getitem pr "title") ;;
  created_at <- lift (Py.getitem pr "created_at") ;;
  timestamp <- lift (parse created_at) ;;
  html_url <- lift (Py.getitem pr "html_url") ;;
  let embed := new_embed ("#" +:+ Py.str pr_number +:+ ": " +:+ Py.str pr_title)
                         _pull_request_colour html_url (Some timestamp) None in
  user <- lift (Py.getitem pr "user") ;;
  login <- lift (Py.getitem user "login") ;;
  user_url <- lift (Py.getitem user "html_url") ;;
  avatar_url <- lift (Py.getitem user "avatar_url") ;;
  let embed := set_author login (Some user_url) (Some avatar_url) embed in
  let embed := set_footer "Pull Request" embed in
  repository <- lift (Py.getitem event_body "repository") ;;
  full_name <- lift (Py.getitem repository "full_name") ;;
  let embed := add_field "Repository" full_name true embed in
  let brief_embed := embed in
  body <- lift (Py.getitem pr "body") ;;
  body <- lift (Py.as_str body) ;;
  let body := filter_template_comments body in
  pr <- lift (Py.setitem pr "body" (PStr body)) ;;
  event_body <- lift (Py.setitem event_body "pull_request" pr) ;;
  let embed := set_description body embed in
  ret (brief_embed, embed, event_body).

Definition get_issue_messages (event_body : pyval) : M (Embed * Embed * pyval) :=
  issue <- lift (Py.getitem event_body "issue") ;;
  issue_number <- lift (Py.getitem issue "number") ;;
  issue_title <- lift (Py.getitem issue "title") ;;
  created_at <- lift (Py.getitem issue "created_at") ;;
  timestamp <- lift (parse created_at) ;;
  html_url <- lift (Py.getitem issue "html_url") ;;
  let embed := new_embed ("#" +:+ Py.str issue_number +:+ ": " +:+ Py.str issue_title)
                         _issue_colour html_url (Some timestamp) None in
  user <- lift (Py.getitem issue "user") ;;
  login <- lift (Py.getitem user "login") ;;
  user_url <- lift (Py.getitem user "html_url") ;;
  avatar_url <- lift (Py.getitem user "avatar_url") ;;
  let embed := set_author login (Some user_url) (Some avatar_url) embed in
  let embed := set_footer "Issue" embed in
  repository <- lift (Py.getitem event_body "repository") ;;
  full_name <- lift (Py.getitem repository "full_name") ;;
  let embed := add_field "Repository" full_name true embed in
  let brief_embed := embed in
  body <- lift (Py.getitem issue "body") ;;
  body <- lift (Py.as_str body) ;;
  let body := filter_template_comments body in
  issue <- lift (Py.setitem issue "body" (PStr body)) ;;
  event_body <- lift (Py.setitem event_body "issue" issue) ;;
  let embed := set_description body embed in
  ret (brief_embed, embed, event_body).

(** *** Check suites *)

(** [for run in runs['workflow_runs']: if run['check_suite_id'] == id: break]
    with its [else] branch as [None]. *)
Fixpoint find_run (check_suite_id : pyval) (runs : list pyval) : res (option pyval) :=
  match runs with
  | [] => Ok None
  | run :: rest =>
      match Py.getitem run "check_suite_id" with
      | Ok c => if Py.eqb c check_suite_id then Ok (Some run)
                else find_run check_suite_id rest
      | Raise e => Raise e
      end
  end.

(** [sum(i['conclusion'] != 'success' for i in jobs)] *)
Fixpoint count_failed (jobs : list pyval) : res nat :=
  match jobs with
  | [] => Ok O
  | i :: rest =>
      match Py.getitem i "conclusion" with
      | Ok c =>
          match count_failed rest with
          | Ok n => Ok ((if negb (Py.eqb c (PStr "success")) then 1 else 0) + n)%nat
          | Raise e => Raise e
          end
      | Raise e => Raise e
      end
  end.

(** [[job['name'] for job in jobs if (job['conclusion'] == 'success') is want]] *)
Fixpoint job_names (want : bool) (jobs : list pyval) : res (list pyval) :=
  match jobs with
  | [] => Ok []
  | job :: rest =>
      match Py.getitem job "conclusion" with
      | Ok c =>
          if Bool.eqb (Py.eqb c (PStr "success")) want then
            match Py.getitem job "name" with
            | Ok n => match job_names want rest with
                      | Ok ns => Ok (n :: ns)
                      | Raise e => Raise e
                      end
            | Raise e => Raise e
            end
          else job_names want rest
      | Raise e => Raise e
      end
  end.

Record ci_summary : Type := {
  build_success : bool;
  ci_colour : Z;
  reaction_emote : pyval;
  build_result : string;
  message : list string
}.

Definition bind_res {A B} (r : res A) (k : A -> res B) : res B :=
  match r with
  | Ok a => k a
  | Raise e => Raise e
  end.

(** Lines 155 to 178: the overall status of a job list after a run of
    [minutes]m[seconds]s. *)
Definition summarise_jobs (jobs : list pyval) (minutes seconds : Z) : res ci_summary :=
  let total_jobs := length jobs in
  bind_res (count_failed jobs) (fun failed =>
  let after := " after " +:+ PyStr.of_Z minutes +:+ "m" +:+ PyStr.of_Z seconds +:+ "s" in
  let '(colour, emote, result, first_line) :=
    if (failed =? 0)%nat then
      (_ci_passed_colour, emotes_passed (config E), "succeeded",
       "All jobs succeeded" +:+ after)
    else if (failed <? total_jobs)%nat then
      (_ci_some_failed_colour, emotes_partial (config E), "partially failed",
       PyStr.of_Z (Z.of_nat failed) +:+ " out of " +:+ PyStr.of_Z (Z.of_nat total_jobs)
       +:+ " jobs failed" +:+ after)
    else
      (_ci_failed_colour, emotes_failed (config E), "failed",
       "All jobs failed" +:+ after) in
  bind_res (job_names true jobs) (fun succeeded =>
  bind_res (match succeeded with
            | [] => Ok [first_line]
            | _ => bind_res (Py.join ", " succeeded) (fun names =>
                     Ok [first_line; "**Succeeded:** " +:+ names])
            end) (fun msg =>
  bind_res (job_names false jobs) (fun failed_names =>
  bind_res (match failed_names with
            | [] => Ok msg
            | _ => bind_res (Py.join ", " failed_names) (fun names =>
                     Ok (msg ++ ["**Failed:** " +:+ names]))
            end) (fun msg =>
  Ok {| build_success := (failed =? 0)%nat; ci_colour := colour;
        reaction_emote := emote; build_result := result; message := msg |}))))).

(** [self.state[key] = v] *)
Definition state_setitem (key : string) (v : pyval) : M unit :=
  fun w => (Ok tt, {| user_cache := user_cache w; state := <[key := v]> (state w);
                      n_get := n_get w; n_time := n_time w; trace := trace w |}).

(** The body of [for artifact in artifacts['artifacts']]; the value is
    the entry appended to [artifacts_entries]. *)
Definition process_artifact (check_suite_id : pyval) (success : bool) (branch : pyval)
           (artifact : pyval) : M string :=
  artifact_id <- lift (Py.getitem artifact "id") ;;
  artifact <- lift (Py.setitem artifact "archive_download_url"
                      (PStr ("https://github.com/obsproject/obs-studio/suites/"
                             +:+ Py.str check_suite_id +:+ "/artifacts/"
                             +:+ Py.str artifact_id))) ;;
  (if success && Py.eqb branch (PStr "master") then
     name <- lift (Py.getitem artifact "name") ;;
     is_macos <- lift (Py.contains "macOS" name) ;;
     if is_macos : bool then state_setitem "nightly_macos" artifact
     else
       name <- lift (Py.getitem artifact "name") ;;
       is_win64 <- lift (Py.contains "win64" name) ;;
       if is_win64 : bool then state_setitem "nightly_windows" artifact
       else ret tt
   else ret tt) ;;
  name <- lift (Py.getitem artifact "name") ;;
  download_url <- lift (Py.getitem artifact "archive_download_url") ;;
  ret ("[" +:+ Py.str name +:+ "](" +:+ Py.str download_url +:+ ")").

Definition get_ci_results (event_body : pyval)
  : M (option (Embed * (pyval * string * pyval * pyval))) :=
  check_suite <- lift (Py.getitem event_body "check_suite") ;;
  check_suite_id <- lift (Py.getitem check_suite "id") ;;
  runs <- get_with_retry
            (PStr ("https://api.github.com/repos/obsproject/obs-studio/"
                   +:+ "actions/workflows/" +:+ Py.str (workflow_id (config E))
                   +:+ "/runs"))
            (Some [("event", PStr "push"); ("status", PStr "completed");
                   ("per_page", PInt 50)])
            default_retries default_retry_interval ;;
  if negb (Py.truthy runs) then
    logger LogError "Getting GitHub workflow runs failed." ;;
    ret None
  else
  workflow_runs <- lift (Py.getitem runs "workflow_runs") ;;
  workflow_runs <- lift (Py.as_list workflow_runs) ;;
  found <- lift (find_run check_suite_id workflow_runs) ;;
  match found with
  | None =>
      logger LogError "Could not find check suite id in workflow runs failed." ;;
      ret None
  | Some run =>
  commit_hash <- lift (Py.getitem run "head_sha") ;;
  updated_at <- lift (Py.getitem run "updated_at") ;;
  finished <- lift (parse updated_at) ;;
  created_at <- lift (Py.getitem run "created_at") ;;
  started <- lift (parse created_at) ;;
  let delta := (finished - started) mod 86400 in
  let seconds := delta mod 60 in
  let minutes := delta / 60 in
  repository <- lift (Py.getitem run "repository") ;;
  repo <- lift (Py.getitem repository "full_name") ;;
  branch <- lift (Py.getitem run "head_branch") ;;
  web_url <- lift (Py.getitem run "html_url") ;;
  jobs_url <- lift (Py.getitem run "jobs_url") ;;
  jobs <- get_with_retry jobs_url None default_retries default_retry_interval ;;
  if negb (Py.truthy jobs) then
    logger LogError "Getting GitHub workflow run jobs failed." ;;
    ret None
  else
  jobs <- lift (Py.getitem jobs "jobs") ;;
  jobs <- lift (Py.as_list jobs) ;;
  summary <- lift (summarise_jobs jobs minutes seconds) ;;
  artifacts_url <- lift (Py.getitem run "artifacts_url") ;;
  artifacts <- get_with_retry artifacts_url None default_retries default_retry_interval ;;
  if negb (Py.truthy artifacts) then
    logger LogError "Getting GitHub workflow run artifacts failed." ;;
    ret None
  else
  artifacts <- lift (Py.getitem artifacts "artifacts") ;;
  artifacts <- lift (Py.as_list artifacts) ;;
  artifacts_entries <-
    for_each (process_artifact check_suite_id (build_success summary) branch) artifacts ;;
  run_number <- lift (Py.getitem run "run_number") ;;
  let embed := new_embed ("Build " +:+ Py.str run_number +:+ " " +:+ build_result summary)
                         (ci_colour summary) web_url (Some finished)
                         (Some (PyStr.join PyStr.NL (message summary))) in
  let embed := set_author (PStr "GitHub Actions") None
                 (Some (PStr "https://cdn.rodney.io/stuff/obsbot/github_actions.png"))
                 embed in
  let embed := add_field "Project" repo true embed in
  let embed := add_field "Branch" branch true embed in
  let embed := add_field "Artifacts" (PStr (PyStr.join PyStr.NL artifacts_entries))
                         false embed in
  ret (Some (embed, (commit_hash, hd EmptyString (message summary),
                     reaction_emote summary, web_url)))
  end.

End Helper.
End GitHubHelper.

(** ** Vocabulary of the specification *)

(** The request [get_with_retry] sends on every attempt. *)
Definition retry_request (E : Env) (url : pyval)
           (params : option (list (string * pyval))) : request :=
  {| req_url := url; req_params := params; req_auth := github_api_auth (config E) |}.

(** What one answer of the network is worth to [get_with_retry]: the JSON
    value of a response below status 400, nothing otherwise. *)
Definition attempt_value (r : response) : option pyval :=
  match r with
  | ConnError => None
  | Resp st None => None
  | Resp st (Some v) => if st <? 400 then Some v else None
  end.

(** The observable actions of [k] failed attempts in a row. *)
Fixpoint failed_attempts (rq : request) (interval : Z) (k : nat) : list event :=
  match k with
  | O => []
  | S k' => EvGet rq :: EvLog LogWarning "Github API request failed, retrying"
              :: EvSleep interval :: failed_attempts rq interval k'
  end.

(** [w] after [k] more requests and the actions [evs]. *)
Definition advance (w : world) (k : nat) (evs : list event) : world :=
  {| user_cache := user_cache w; state := state w; n_get := n_get w + k;
     n_time := n_time w; trace := trace w ++ evs |}.

(** The value returned once the retries are exhausted. *)
Definition failure_signal : pyval := PNone.

(** The request [get_author_info] sends for [username]. *)
Definition profile_request (E : Env) (username : pyval) : request :=
  {| req_url := PStr ("https://api.github.com/users/" +:+ Py.str username);
     req_params := None; req_auth := github_api_auth (config E) |}.

(** Age of a cache entry at the clock reading [now], when it has one. *)
Definition entry_age (now : Z) (entry : pyval) : option Z :=
  match Py.get entry "_timestamp" (PInt 0) with
  | Ok fetched_at => match Py.sub_from now fetched_at with
                     | Ok age => Some age
                     | Raise _ => None
                     end
  | Raise _ => None
  end.

Definition is_ok {A} (r : res A) : bool :=
  match r with
  | Ok _ => true
  | Raise _ => false
  end.

(** The username and the raw name a push payload gives for the author of a
    commit; [None] when the payload omits them. *)
Definition commit_username (commit : pyval) : pyval :=
  match Py.getitem commit "author" with
  | Ok a => match Py.get a "username" PNone with
            | Ok u => u
            | Raise _ => PNone
            end
  | Raise _ => PNone
  end.

Definition commit_raw_name (commit : pyval) : pyval :=
  match Py.getitem commit "author" with
  | Ok a => match Py.get a "name" PNone with
            | Ok n => n
            | Raise _ => PNone
            end
  | Raise _ => PNone
  end.

(** A commit of a push payload that carries what the formatter reads: an
    author object, a timestamp that parses, a message text, a URL and a
    hash. *)
Definition well_formed_commit (E : Env) (commit : pyval) : bool :=
  match Py.getitem commit "author", Py.getitem commit "timestamp",
        Py.getitem commit "message", Py.getitem commit "url",
        Py.getitem commit "id" with
  | Ok (PDict _), Ok ts, Ok (PStr _), Ok _, Ok _ => is_ok (GitHubHelper.parse E ts)
  | _, _, _, _, _ => false
  end.

(** What a profile lookup may hand to the formatter: nothing, or an object
    with the four fields of a profile. *)
Definition usable_profile (p : pyval) : bool :=
  negb (Py.truthy p) ||
  match Py.getitem p "name", Py.getitem p "login",
        Py.getitem p "html_url", Py.getitem p "avatar_url" with
  | Ok _, Ok _, Ok _, Ok _ => true
  | _, _, _, _ => false
  end.

(** The author block of a commit whose profile lookup gave nothing. *)
Definition fallback_author (commit : pyval) : embed_author :=
  {| author_name := if Py.truthy (commit_raw_name commit) then commit_raw_name commit
                    else PStr "<No Name>";
     author_url := None; author_icon_url := None |}.

(** The synthetic entry that stands for the commits a brief push skips. *)
Definition skipped_commits_embed (project first_hash last_hash : pyval) (count : nat)
  : Embed :=
  new_embed ("Skipped " +:+ PyStr.of_Z (Z.of_nat count - 1)
             +:+ " commits... (click link for diff)")
            GitHubHelper._skipped_commit_colour
            (PStr ("https://github.com/" +:+ Py.str project +:+ "/compare/"
                   +:+ Py.str first_hash +:+ "^..." +:+ Py.str last_hash))
            None None.

(** The body text of a pull request or an issue as the code displays it:
    of the lines that [str.splitlines] gives, those that start with [<!-]
    are dropped, the others are stripped, and the result is joined by
    newlines. *)
Fixpoint without_comment_lines (lines : list string) : list string :=
  match lines with
  | [] => []
  | l :: rest =>
      if String.prefix "<!-" l then without_comment_lines rest
      else PyStr.strip l :: without_comment_lines rest
  end.

Definition displayed_body (body : string) : string :=
  PyStr.join PyStr.NL (without_comment_lines (PyStr.splitlines body)).

(** The same text in the words of the specification, which cuts the body
    at its newlines only.  [spec_trim] strips a line of surrounding white
    space: the white space in front goes, and so does the white space in
    front of the reversed rest. *)
Fixpoint drop_spaces (l : list ascii) : list ascii :=
  match l with
  | [] => []
  | a :: rest => if PyStr.is_space a then drop_spaces rest else l
  end.

Definition spec_trim (line : string) : string :=
  string_of_list_ascii
    (rev (drop_spaces (rev (drop_spaces (list_ascii_of_string line))))).

Definition spec_lines (body : string) : list string := PyStr.split PyStr.nl body.

Definition spec_displayed_body (body : string) : string :=
  PyStr.join PyStr.NL
    (map spec_trim
         (List.filter (fun line => negb (String.prefix "<!-" line)) (spec_lines body))).

(** [body] without its final newline, if it ends in one. *)
Fixpoint chomp (body : string) : string :=
  match body with
  | EmptyString => EmptyString
  | String a rest =>
      match rest with
      | EmptyString => if Ascii.eqb a PyStr.nl then EmptyString else body
      | String _ _ => String a (chomp rest)
      end
  end.

(** The lines of [body] end with a newline or with a carriage return and
    a newline: [body] has no other line boundary of [str.splitlines]. *)
Fixpoint plain_breaks (body : string) : bool :=
  match body with
  | EmptyString => true
  | String a rest =>
      (if Ascii.eqb a PyStr.cr
       then match rest with
            | String b _ => Ascii.eqb b PyStr.nl
            | EmptyString => false
            end
       else negb (PyStr.is_linebreak a) || Ascii.eqb a PyStr.nl)
      && plain_breaks rest
  end.

(** The pieces [qs] are the pieces [ps], some with a carriage return at
    their end, but not the last one. *)
Inductive pieces_match : list string -> list string -> Prop :=
| pieces_last p : pieces_match [p] [p]
| pieces_same p ps qs : pieces_match ps qs -> pieces_match (p :: ps) (p :: qs)
| pieces_crlf p ps qs :
    pieces_match ps qs ->
    pieces_match (p :: ps) ((p +:+ String PyStr.cr EmptyString) :: qs).

(** The fields common to the [pull_request] and [issue] objects. *)
Definition well_formed_item (E : Env) (item : pyval) : bool :=
  match Py.getitem item "title", Py.getitem item "created_at",
        Py.getitem item "html_url", Py.getitem item "user",
        Py.getitem item "body" with
  | Ok _, Ok created_at, Ok _, Ok user, Ok (PStr _) =>
      is_ok (GitHubHelper.parse E created_at) &&
      is_ok (Py.getitem user "login") && is_ok (Py.getitem user "html_url") &&
      is_ok (Py.getitem user "avatar_url")
  | _, _, _, _, _ => false
  end.

Definition has_repository (event_body : pyval) : bool :=
  match Py.getitem event_body "repository" with
  | Ok repository => is_ok (Py.getitem repository "full_name")
  | Raise _ => false
  end.

Definition well_formed_pr_event (E : Env) (event_body : pyval) : bool :=
  is_ok (Py.getitem event_body "number") && has_repository event_body &&
  match Py.getitem event_body "pull_request" with
  | Ok pr => well_formed_item E pr
  | Raise _ => false
  end.

Definition well_formed_issue_event (E : Env) (event_body : pyval) : bool :=
  has_repository event_body &&
  match Py.getitem event_body "issue" with
  | Ok issue => is_ok (Py.getitem issue "number") && well_formed_item E issue
  | Raise _ => false
  end.

(** The body text of the payload's [key] object. *)
Definition body_text (key : string) (event_body : pyval) : option string :=
  match Py.getitem event_body key with
  | Ok item => match Py.getitem item "body" with
               | Ok (PStr body) => Some body
               | _ => None
               end
  | Raise _ => None
  end.

(** A job of a workflow run, as the specification speaks of it. *)
Definition conclusion_of (job : pyval) : pyval :=
  match Py.getitem job "conclusion" with
  | Ok c => c
  | Raise _ => PNone
  end.

Definition name_of (job : pyval) : string :=
  match Py.getitem job "name" with
  | Ok (PStr s) => s
  | _ => EmptyString
  end.

Definition is_success (conclusion : pyval) : bool :=
  match conclusion with
  | PStr s => String.eqb s "success"
  | _ => false
  end.

Definition well_formed_job (job : pyval) : bool :=
  match Py.getitem job "conclusion", Py.getitem job "name" with
  | Ok _, Ok (PStr _) => true
  | _, _ => false
  end.

Definition succeeded_jobs (jobs : list pyval) : list pyval :=
  List.filter (fun job => is_success (conclusion_of job)) jobs.

Definition failed_jobs (jobs : list pyval) : list pyval :=
  List.filter (fun job => negb (is_success (conclusion_of job))) jobs.

(** The lines that follow the summary line. *)
Definition job_lines (jobs : list pyval) : list string :=
  match succeeded_jobs jobs with
  | [] => []
  | js => ["**Succeeded:** " +:+ PyStr.join ", " (map name_of js)]
  end ++
  match failed_jobs jobs with
  | [] => []
  | js => ["**Failed:** " +:+ PyStr.join ", " (map name_of js)]
  end.

Fixpoint has_char (c : ascii) (s : string) : bool :=
  match s with
  | EmptyString => false
  | String a t => Ascii.eqb a c || has_char c t
  end.

(** Some line of [msg] starts with [label]. *)
Definition has_line (label : string) (msg : list string) : bool :=
  existsb (String.prefix label) msg.

(** The summary line of a run of [minutes]m[seconds]s. *)
Definition summary_line (failed total : nat) (minutes seconds : Z) : string :=
  let after := " after " +:+ PyStr.of_Z minutes +:+ "m" +:+ PyStr.of_Z seconds +:+ "s" in
  if (failed =? 0)%nat then "All jobs succeeded" +:+ after
  else if (failed <? total)%nat then
    PyStr.of_Z (Z.of_nat failed) +:+ " out of " +:+ PyStr.of_Z (Z.of_nat total)
    +:+ " jobs failed" +:+ after
  else "All jobs failed" +:+ after.


(** The three fetches of [get_ci_results]. *)
Definition runs_url (E : Env) : pyval :=
  PStr ("https://api.github.com/repos/obsproject/obs-studio/"
        +:+ "actions/workflows/" +:+ Py.str (workflow_id (config E)) +:+ "/runs").

Definition runs_params : list (string * pyval) :=
  [("event", PStr "push"); ("status", PStr "completed"); ("per_page", PInt 50)].

Definition fetch_runs (E : Env) : M pyval :=
  GitHubHelper.get_with_retry E (runs_url E) (Some runs_params)
    GitHubHelper.default_retries GitHubHelper.default_retry_interval.

Definition fetch (E : Env) (url : pyval) : M pyval :=
  GitHubHelper.get_with_retry E url None
    GitHubHelper.default_retries GitHubHelper.default_retry_interval.

(** [w] after one more line in the error log. *)
Definition logged_error (w : world) (msg : string) : world :=
  {| user_cache := user_cache w; state := state w; n_get := n_get w;
     n_time := n_time w; trace := trace w ++ [EvLog LogError msg] |}.

(** [event_body['check_suite']['id']] *)
Definition check_suite_id_of (event_body : pyval) : res pyval :=
  GitHubHelper.bind_res (Py.getitem event_body "check_suite")
    (fun check_suite => Py.getitem check_suite "id").

(** A workflow run with the fields [get_ci_results] reads. *)
Definition well_formed_run (E : Env) (run : pyval) : bool :=
  is_ok (Py.getitem run "head_sha") &&
  is_ok (GitHubHelper.bind_res (Py.getitem run "updated_at") (GitHubHelper.parse E)) &&
  is_ok (GitHubHelper.bind_res (Py.getitem run "created_at") (GitHubHelper.parse E)) &&
  is_ok (GitHubHelper.bind_res (Py.getitem run "repository")
           (fun repository => Py.getitem repository "full_name")) &&
  is_ok (Py.getitem run "head_branch") && is_ok (Py.getitem run "html_url") &&
  is_ok (Py.getitem run "jobs_url") && is_ok (Py.getitem run "artifacts_url") &&
  is_ok (Py.getitem run "run_number").

Definition branch_of (run : pyval) : pyval :=
  match Py.getitem run "head_branch" with
  | Ok b => b
  | Raise _ => PNone
  end.

(** The run of the check suite [check_suite_id] was fetched and found;
    the fetch left the helper in [w1]. *)
Definition run_selected (E : Env) (event_body : pyval) (w : world)
           (check_suite_id run : pyval) (w1 : world) : Prop :=
  check_suite_id_of event_body = Ok check_suite_id /\
  exists runs workflow_runs,
    fetch_runs E w = (Ok runs, w1) /\
    Py.truthy runs = true /\
    Py.getitem runs "workflow_runs" = Ok (PList workflow_runs) /\
    GitHubHelper.find_run check_suite_id workflow_runs = Ok (Some run) /\
    well_formed_run E run = true.

(** The jobs of [run] were fetched, from [w1] to [w2]. *)
Definition jobs_listed (E : Env) (run : pyval) (w1 : world)
           (jobs : list pyval) (w2 : world) : Prop :=
  exists jobs_url fetched,
    Py.getitem run "jobs_url" = Ok jobs_url /\
    fetch E jobs_url w1 = (Ok fetched, w2) /\
    Py.truthy fetched = true /\
    Py.getitem fetched "jobs" = Ok (PList jobs) /\
    forallb well_formed_job jobs = true.

(** An artifact: an object with an id and a name text. *)
Definition well_formed_artifact (artifact : pyval) : bool :=
  match artifact, Py.getitem artifact "id", Py.getitem artifact "name" with
  | PDict _, Ok _, Ok (PStr _) => true
  | _, _, _ => false
  end.

(** The artifacts of [run] were fetched, from [w2] to [w3]. *)
Definition artifacts_listed (E : Env) (run : pyval) (w2 : world)
           (artifacts : list pyval) (w3 : world) : Prop :=
  exists artifacts_url fetched,
    Py.getitem run "artifacts_url" = Ok artifacts_url /\
    fetch E artifacts_url w2 = (Ok fetched, w3) /\
    Py.truthy fetched = true /\
    Py.getitem fetched "artifacts" = Ok (PList artifacts) /\
    forallb well_formed_artifact artifacts = true.

(** The nightly slot an artifact name selects. *)
Definition nightly_slot (name : string) : option string :=
  if PyStr.contains "macOS" name then Some "nightly_macos"
  else if PyStr.contains "win64" name then Some "nightly_windows"
  else None.

(** The artifact as [get_ci_results] stores it: with its browser-facing
    download URL. *)
Definition with_download_url (check_suite_id artifact : pyval) : pyval :=
  match artifact, Py.getitem artifact "id" with
  | PDict d, Ok artifact_id =>
      PDict (Py.assoc_set "archive_download_url"
               (PStr ("https://github.com/obsproject/obs-studio/suites/"
                      +:+ Py.str check_suite_id +:+ "/artifacts/"
                      +:+ Py.str artifact_id)) d)
  | _, _ => artifact
  end.

(** The nightly slots after one more artifact of a successful run on
    [master]. *)
Definition nightly_update (check_suite_id : pyval) (slots : gmap string pyval)
           (artifact : pyval) : gmap string pyval :=
  match nightly_slot (name_of artifact) with
  | Some slot => <[slot := with_download_url check_suite_id artifact]> slots
  | None => slots
  end.

(** Computations that leave [self.state] alone, whatever they return; that
    leave it alone when they return [None]; that never return [None]. *)
Definition keeps_state {A} (m : M A) : Prop :=
  forall w, state (snd (m w)) = state w.

Definition none_keeps_state {A} (m : M (option A)) : Prop :=
  forall w, fst (m w) = Ok None -> state (snd (m w)) = state w.

Definition never_none {A} (m : M (option A)) : Prop :=
  forall w, fst (m w) <> Ok None.

(** Every job concluded with [success]. *)
Definition all_succeeded (jobs : list pyval) : bool :=
  forallb (fun job => is_success (conclusion_of job)) jobs.

Definition with_state (w : world) (slots : gmap string pyval) : world :=
  {| user_cache := user_cache w; state := slots; n_get := n_get w;
     n_time := n_time w; trace := trace w |}.

(** The line of the [Artifacts] field for one artifact. *)
Definition artifact_entry (check_suite_id artifact : pyval) : string :=
  let stored := with_download_url check_suite_id artifact in
  "[" +:+ name_of stored +:+ "]("
  +:+ match Py.getitem stored "archive_download_url" with
      | Ok u => Py.str u
      | Raise _ => EmptyString
      end +:+ ")".

(** ** Effects of a computation *)

(** [m] relates every world to the one it leaves in [R], and sends at most
    [k] requests. *)
Definition does {A} (R : relation world) (k : nat) (m : M A) : Prop :=
  forall w, R w (snd (m w)) /\ (n_get w <= n_get (snd (m w)) <= n_get w + k)%nat.

(** [R] does not look at the counters or at the trace. *)
Definition ignores_io (R : relation world) : Prop :=
  forall w requests readings evs,
    R w {| user_cache := user_cache w; state := state w; n_get := requests;
           n_time := readings; trace := evs |}.

(** [m] has no effect at all. *)
Definition effect_free {A} (m : M A) : Prop := forall w, snd (m w) = w.

(** The nightly slots are what they were. *)
Definition same_state : relation world := fun w w' => state w' = state w.

(** The cache entry of [username] is what it was. *)
Definition same_entry (username : pyval) : relation world :=
  fun w w' => GitHubHelper.cache_find username (user_cache w')
              = GitHubHelper.cache_find username (user_cache w).

(** The author cache is what it was, and so is every key of the shared
    state but the two nightly slots. *)
Definition nightly_only : relation world :=
  fun w w' =>
    user_cache w' = user_cache w /\
    forall key : string,
      key <> "nightly_macos" -> key <> "nightly_windows" ->
      state w' !! key = state w !! key.

(** What [get_author_info] takes from an answer: its JSON body, whatever
    the status. *)
Definition json_body (r : response) : option pyval :=
  match r with
  | Resp _ (Some v) => Some v
  | _ => None
  end.

(** [get_author_info] goes to the network for [username]: the cache has no
    entry, or one that is not older than [user_cache_max_age]. *)
Definition refetched (E : Env) (username : pyval) (w : world) : Prop :=
  match GitHubHelper.cache_find username (user_cache w) with
  | None => True
  | Some entry =>
      exists age, entry_age (clock E (n_time w)) entry = Some age /\
                  age <= GitHubHelper.user_cache_max_age
  end.

(** The clock readings [get_author_info] has consumed when it sends its
    request: one if it looked at a cached entry. *)
Definition readings_before_fetch (username : pyval) (w : world) : nat :=
  match GitHubHelper.cache_find username (user_cache w) with
  | None => n_time w
  | Some _ => S (n_time w)
  end.

(** The hash of a commit of a push payload. *)
Definition commit_id (commit : pyval) : pyval :=
  match Py.getitem commit "id" with
  | Ok i => i
  | Raise _ => PNone
  end.

(** The message text of a commit. *)
Definition commit_message_of (commit : pyval) : string :=
  match Py.getitem commit "message" with
  | Ok (PStr m) => m
  | _ => EmptyString
  end.

(** A JSON object with the four fields of a profile. *)
Definition profile_object (v : pyval) : bool :=
  match v with
  | PDict d =>
      match Py.assoc "name" d, Py.assoc "login" d,
            Py.assoc "html_url" d, Py.assoc "avatar_url" d with
      | Some _, Some _, Some _, Some _ => true
      | _, _, _, _ => false
      end
  | _ => false
  end.

(** A cache entry the freshness test can read: a profile object whose
    [_timestamp], if any, is a number. *)
Definition cache_entry_ok (v : pyval) : bool :=
  profile_object v &&
  match Py.get v "_timestamp" (PInt 0) with
  | Ok (PInt _) | Ok (PBool _) => true
  | _ => false
  end.

Definition cache_ok (w : world) : Prop :=
  Forall (fun kv => cache_entry_ok (snd kv) = true) (user_cache w).

(** Whatever JSON the network answers is a profile object. *)
Definition answers_profiles (E : Env) : Prop :=
  forall n rq v, json_body (http E n rq) = Some v -> profile_object v = true.

(** A well-formed commit whose username, if any, is a scalar. *)
Definition plain_commit (E : Env) (commit : pyval) : bool :=
  well_formed_commit E commit && Py.hashable (commit_username commit).

(** The number of commits of a push payload. *)
Definition commit_count (event_body : pyval) : nat :=
  match Py.getitem event_body "commits" with
  | Ok (PList commits) => length commits
  | _ => O
  end.

(** The author block made from a profile. *)
Definition profile_author (name login html_url avatar_url : pyval) : embed_author :=
  {| author_name :=
       if Py.truthy name && negb (Py.eqb name login)
       then PStr (Py.str name +:+ " (" +:+ Py.str login +:+ ")")
       else login;
     author_url := Some html_url; author_icon_url := Some avatar_url |}.

(** A field of a profile, [None] when it is missing. *)
Definition profile_field (p : pyval) (key : string) : pyval :=
  match Py.getitem p key with
  | Ok v => v
  | Raise _ => PNone
  end.

(** The author block of a commit, from the outcome [p] of the lookup. *)
Definition commit_author (commit p : pyval) : embed_author :=
  if Py.truthy p
  then profile_author (profile_field p "name") (profile_field p "login")
                      (profile_field p "html_url") (profile_field p "avatar_url")
  else fallback_author commit.

(** The lines of the message of a commit. *)
Definition message_lines (commit : pyval) : list string :=
  PyStr.split PyStr.nl (commit_message_of commit).

(** The [pull_request] or [issue] object without a look at its body. *)
Definition well_formed_item_head (E : Env) (item : pyval) : bool :=
  match Py.getitem item "title", Py.getitem item "created_at",
        Py.getitem item "html_url", Py.getitem item "user" with
  | Ok _, Ok created_at, Ok _, Ok user =>
      is_ok (GitHubHelper.parse E created_at) &&
      is_ok (Py.getitem user "login") && is_ok (Py.getitem user "html_url") &&
      is_ok (Py.getitem user "avatar_url")
  | _, _, _, _ => false
  end.

(** The descriptor of a pull request or of an issue before its body is
    set: what the brief channel gets. *)
Definition item_embed (E : Env) (number item full_name : pyval) (item_colour : Z)
           (item_footer : string) : Embed :=
  let user := profile_field item "user" in
  {| title := "#" +:+ Py.str number +:+ ": " +:+ Py.str (profile_field item "title");
     colour := item_colour;
     url := profile_field item "html_url";
     timestamp := match GitHubHelper.parse E (profile_field item "created_at") with
                  | Ok t => Some t
                  | Raise _ => None
                  end;
     description := None;
     author := Some {| author_name := profile_field user "login";
                       author_url := Some (profile_field user "html_url");
                       author_icon_url := Some (profile_field user "avatar_url") |};
     footer := Some item_footer;
     fields := [("Repository", full_name, true)] |}.

(** The payload after the body of its [key] object is replaced. *)
Definition with_body (key : string) (body : string) (event_body : pyval) : pyval :=
  match event_body, Py.getitem event_body key with
  | PDict d, Ok (PDict item) =>
      PDict (Py.assoc_set key (PDict (Py.assoc_set "body" (PStr body) item)) d)
  | _, _ => event_body
  end.

(** The first character of [s] is no white space. *)
Definition head_ok (s : string) : bool :=
  match s with
  | EmptyString => true
  | String a _ => negb (PyStr.is_space a)
  end.

(** The duration of a run as [get_ci_results] shows it:
    [(finished - started).seconds], the days of the difference dropped. *)
Definition run_duration (E : Env) (run : pyval) : Z :=
  match GitHubHelper.parse E (profile_field run "updated_at"),
        GitHubHelper.parse E (profile_field run "created_at") with
  | Ok finished, Ok started => (finished - started) mod 86400
  | _, _ => 0
  end.

(** Colour, emote and result word for [failed] jobs out of [total]. *)
Definition ci_outcome (E : Env) (failed total : nat) : Z * pyval * string :=
  if (failed =? 0)%nat then
    (GitHubHelper._ci_passed_colour, emotes_passed (config E), "succeeded")
  else if (failed <? total)%nat then
    (GitHubHelper._ci_some_failed_colour, emotes_partial (config E), "partially failed")
  else (GitHubHelper._ci_failed_colour, emotes_failed (config E), "failed").

(** The first line of the build message of [run] with [jobs]. *)
Definition ci_first_line (E : Env) (run : pyval) (jobs : list pyval) : string :=
  summary_line (length (failed_jobs jobs)) (length jobs)
               (run_duration E run / 60) (run_duration E run mod 60).

(** The descriptor of a completed run. *)
Definition ci_embed (E : Env) (check_suite_id run : pyval)
           (jobs artifacts : list pyval) : Embed :=
  let '(outcome_colour, _, result) :=
    ci_outcome E (length (failed_jobs jobs)) (length jobs) in
  {| title := "Build " +:+ Py.str (profile_field run "run_number") +:+ " " +:+ result;
     colour := outcome_colour;
     url := profile_field run "html_url";
     timestamp := match GitHubHelper.parse E (profile_field run "updated_at") with
                  | Ok t => Some t
                  | Raise _ => None
                  end;
     description := Some (PyStr.join PyStr.NL (ci_first_line E run jobs :: job_lines jobs));
     author := Some {| author_name := PStr "GitHub Actions"; author_url := None;
                       author_icon_url :=
                         Some (PStr "https://cdn.rodney.io/stuff/obsbot/github_actions.png") |};
     footer := None;
     fields := [("Project", profile_field (profile_field run "repository") "full_name",
                 true);
                ("Branch", branch_of run, true);
                ("Artifacts",
                 PStr (PyStr.join PyStr.NL (map (artifact_entry check_suite_id) artifacts)),
                 false)] |}.

(** The emote of a completed run. *)
Definition ci_emote (E : Env) (jobs : list pyval) : pyval :=
  snd (fst (ci_outcome E (length (failed_jobs jobs)) (length jobs))).

(** The link of an artifact of the check suite [check_suite_id]. *)
Definition artifact_url (check_suite_id artifact : pyval) : string :=
  "https://github.com/obsproject/obs-studio/suites/" +:+ Py.str check_suite_id
  +:+ "/artifacts/" +:+ Py.str (profile_field artifact "id").

(** [run] is a run of the check suite [check_suite_id]. *)
Definition run_matches (check_suite_id run : pyval) : option bool :=
  match Py.getitem run "check_suite_id" with
  | Ok c => Some (Py.eqb c check_suite_id)
  | Raise _ => None
  end.

(** ** Example scenarios *)

Module Scenario.

Definition cfg (limit : Z) : Config :=
  {| github_api_auth := PStr "token t0";
     commit_truncation_limit := limit;
     workflow_id := PInt 583765;
     emotes_passed := PStr ":passed:";
     emotes_partial := PStr ":partial:";
     emotes_failed := PStr ":failed:" |}.

(** A fresh helper: empty cache, empty state, nothing consumed yet. *)
Definition fresh : world :=
  {| user_cache := []; state := ∅; n_get := 0; n_time := 0; trace := [] |}.

(** Timestamps are written as decimal seconds in the scenarios. *)
Definition parse_seconds (s : string) : option Z :=
  match s with
  | "100" => Some 100
  | "175" => Some 175
  | _ => None
  end%string.

Definition env_of (limit : Z) (net : nat -> request -> response) (now : Z) : Env :=
  {| config := cfg limit; http := net; clock := fun _ => now;
     dateutil_parse := parse_seconds |}.

(** The network is unreachable. *)
Definition unreachable : Env := env_of 3 (fun _ _ => ConnError) 1010.

(** Two failures (no connection, then a 502), then a JSON body. *)
Definition flaky : Env :=
  env_of 3 (fun i _ => match i with
                       | O => ConnError
                       | 1%nat => Resp 502 (Some (PDict []))
                       | _ => Resp 200 (Some (PDict [("total_count", PInt 0)]))
                       end) 1010.

(** Every request is answered [200] with the JSON body [null]. *)
Definition null_body : Env := env_of 3 (fun _ _ => Resp 200 (Some PNone)) 1010.

Definition some_url : pyval := PStr "https://api.github.com/repos/obsproject/obs-studio".

Definition octocat (name : pyval) : list (string * pyval) :=
  [("login", PStr "octocat"); ("name", name);
   ("html_url", PStr "https://github.com/octocat");
   ("avatar_url", PStr "https://avatars.githubusercontent.com/u/583231")].

(** The profile endpoint answers with the profile of [octocat]. *)
Definition profiles : Env :=
  env_of 3 (fun _ _ => Resp 200 (Some (PDict (octocat (PStr "The Octocat"))))) 1010.

(** A helper whose cache holds [octocat], fetched at [fetched_at]. *)
Definition cached (fetched_at : Z) : world :=
  {| user_cache := [(PStr "octocat",
                     PDict (octocat PNone ++ [("_timestamp", PInt fetched_at)]))];
     state := ∅; n_get := 0; n_time := 0; trace := [] |}.

(** A commit of a push payload with the given author block. *)
Definition commit_by (author_block : list (string * pyval)) (hash msg : string) : pyval :=
  PDict [("id", PStr hash); ("message", PStr msg); ("timestamp", PStr "100");
         ("url", PStr ("https://github.com/obsproject/obs-studio/commit/" +:+ hash));
         ("author", PDict author_block)].

Definition push (commits : list pyval) : pyval :=
  PDict [("ref", PStr "refs/heads/master");
         ("repository", PDict [("full_name", PStr "obsproject/obs-studio")]);
         ("commits", PList commits)].

(** Commits whose author block has no username: with and without a name. *)
Definition commit_jane : pyval :=
  commit_by [("name", PStr "Jane Doe"); ("email", PStr "jane@example.org")]
            "c0ffee1" "Fix crash on exit".
Definition commit_anonymous : pyval := commit_by [] "c0ffee2" "Update translations".
Definition commit_octocat (hash : string) : pyval :=
  commit_by [("name", PStr "Octo"); ("username", PStr "octocat")] hash "Bump version".

(** The helper after one failed lookup of the username [None]. *)
Definition after_failed_lookup : world :=
  {| user_cache := []; state := ∅; n_get := 1; n_time := 0;
     trace := [EvGet {| req_url := PStr "https://api.github.com/users/None";
                        req_params := None; req_auth := PStr "token t0" |};
               EvLog LogWarning "Fetching github userdata failed"] |}.

(** A configuration whose truncation limit is zero. *)
Definition eager : Env := env_of 0 (fun _ _ => ConnError) 1010.

(** The body text of the issue template example. *)
Definition template_body : string :=
  "<!-- comment -->" +:+ PyStr.NL +:+ "Real text" +:+ PyStr.NL
  +:+ "<!- inline" +:+ PyStr.NL +:+ "More".

Definition item (body : string) : pyval :=
  PDict [("number", PInt 4211); ("title", PStr "Crash when switching scenes");
         ("created_at", PStr "100");
         ("html_url", PStr "https://github.com/obsproject/obs-studio/issues/4211");
         ("user", PDict (octocat PNone)); ("body", PStr body)].

Definition pr_event (body : string) : pyval :=
  PDict [("number", PInt 4211); ("pull_request", item body);
         ("repository", PDict [("full_name", PStr "obsproject/obs-studio")])].

Definition issue_event (body : string) : pyval :=
  PDict [("issue", item body);
         ("repository", PDict [("full_name", PStr "obsproject/obs-studio")])].

Definition job (name : string) (conclusion : pyval) : pyval :=
  PDict [("id", PInt 399444496); ("name", PStr name); ("conclusion", conclusion)].

(** Two jobs that succeeded and one that was skipped. *)
Definition jobs_with_skipped : list pyval :=
  [job "macos64" (PStr "success"); job "win64" (PStr "success");
   job "clang-format" (PStr "skipped")].

(** A check suite that completed, and the API objects around it. *)
Definition check_suite_event : pyval :=
  PDict [("action", PStr "completed"); ("check_suite", PDict [("id", PInt 1234)])].

Definition run_of (check_suite_id : Z) (branch : string) : pyval :=
  PDict [("check_suite_id", PInt check_suite_id); ("head_sha", PStr "c0ffee1");
         ("updated_at", PStr "175"); ("created_at", PStr "100");
         ("repository", PDict [("full_name", PStr "obsproject/obs-studio")]);
         ("head_branch", PStr branch);
         ("html_url", PStr "https://github.com/obsproject/obs-studio/actions/runs/77");
         ("jobs_url", PStr "https://api.github.com/runs/77/jobs");
         ("artifacts_url", PStr "https://api.github.com/runs/77/artifacts");
         ("run_number", PInt 77)].

Definition runs_body (runs : list pyval) : response :=
  Resp 200 (Some (PDict [("total_count", PInt 2); ("workflow_runs", PList runs)])).

Definition jobs_body (jobs : list pyval) : response :=
  Resp 200 (Some (PDict [("total_count", PInt 3); ("jobs", PList jobs)])).

Definition artifacts_body (artifacts : list pyval) : response :=
  Resp 200 (Some (PDict [("total_count", PInt 3); ("artifacts", PList artifacts)])).

Definition artifact (id : Z) (name : string) : pyval :=
  PDict [("id", PInt id); ("name", PStr name);
         ("archive_download_url", PStr "https://api.github.com/artifacts/zip")].

Definition jobs_all_passed : list pyval :=
  [job "macos64" (PStr "success"); job "win64" (PStr "success")].

Definition nightly_artifacts : list pyval :=
  [artifact 1 "OBS-Studio-27.0.0-macOS.dmg"; artifact 2 "OBS-Studio-27.0.0-win64.zip";
   artifact 3 "OBS-Studio-27.0.0-linux.deb"].

(** The network gives [answers] in turn and is unreachable afterwards. *)
Definition answering (answers : list response) : Env :=
  env_of 3 (fun i _ => nth i answers ConnError) 1010.

(** A successful run on [master] with the three artifacts. *)
Definition nightly : Env :=
  answering [runs_body [run_of 999 "master"; run_of 1234 "master"];
             jobs_body jobs_all_passed; artifacts_body nightly_artifacts].

(** A successful run on [master] with one artifact for both platforms. *)
Definition universal_artifact : pyval := artifact 4 "OBS-Studio-27.0.0-macOS-win64.zip".

Definition universal : Env :=
  answering [runs_body [run_of 1234 "master"]; jobs_body jobs_all_passed;
             artifacts_body [universal_artifact]].

(** The runs of another check suite only. *)
Definition other_suite : Env := answering [runs_body [run_of 999 "master"]].

(** The network fails after the runs, and after the jobs. *)
Definition jobs_down : Env := answering [runs_body [run_of 1234 "master"]].
Definition artifacts_down : Env :=
  answering [runs_body [run_of 1234 "master"]; jobs_body jobs_with_skipped].

(** The helper of [E] after each of the three fetches. *)
Definition after_runs (E : Env) : world := snd (fetch_runs E fresh).
Definition after_jobs (E : Env) : world :=
  snd (fetch E (PStr "https://api.github.com/runs/77/jobs") (after_runs E)).
Definition after_artifacts (E : Env) : world :=
  snd (fetch E (PStr "https://api.github.com/runs/77/artifacts") (after_jobs E)).

End Scenario.

(** ** More scenarios *)

Module Scenario2.

(** The API knows no such user: a [404] with a JSON object. *)
Definition not_found_body : list (string * pyval) :=
  [("message", PStr "Not Found");
   ("documentation_url", PStr "https://docs.github.com/rest")].

Definition not_found : Env :=
  Scenario.env_of 3 (fun _ _ => Resp 404 (Some (PDict not_found_body))) 1010.

(** A pull request and an issue whose description is [body]. *)
Definition item_with (body : pyval) : pyval :=
  PDict [("number", PInt 4211); ("title", PStr "Crash when switching scenes");
         ("created_at", PStr "100");
         ("html_url", PStr "https://github.com/obsproject/obs-studio/issues/4211");
         ("user", PDict (Scenario.octocat PNone)); ("body", body)].

Definition pr_event_with (body : pyval) : pyval :=
  PDict [("number", PInt 4211); ("pull_request", item_with body);
         ("repository", PDict [("full_name", PStr "obsproject/obs-studio")])].

Definition issue_event_with (body : pyval) : pyval :=
  PDict [("issue", item_with body);
         ("repository", PDict [("full_name", PStr "obsproject/obs-studio")])].

(** A helper that holds the macOS build of an earlier night. *)
Definition earlier_nightly : world :=
  with_state Scenario.fresh
    (<["nightly_macos" := Scenario.artifact 0 "OBS-Studio-26.1.2-macOS.dmg"]> ∅).

(** A second macOS build of the same run. *)
Definition arm_artifact : pyval := Scenario.artifact 5 "OBS-Studio-27.0.0-macOS-arm64.dmg".

(** Body texts: the template example as a browser sends it, with
    carriage returns, indented text and a final line end; a one-line body
    that ends in a newline; a body with a form feed inside its line. *)
Definition CRLF : string := String PyStr.cr PyStr.NL.

Definition windows_body : string :=
  "<!-- comment -->" +:+ CRLF +:+ "  Real text  " +:+ CRLF
  +:+ "<!- inline" +:+ CRLF +:+ "More" +:+ CRLF.

Definition trailing_newline_body : string := "Fixes the crash" +:+ PyStr.NL.

Definition form_feed_body : string :=
  "Page one" +:+ String (ascii_of_nat 12) "Page two".

End Scenario2.

(** ** Properties *)

(** Runs a computation along the equations at hand: each known outcome
    replaces its call, and the [match] that inspects it is reduced. *)
Ltac run_eqs :=
  repeat (cbv beta iota;
          match goal with
          | H : ?lhs = Ok _ |- context [?lhs] => rewrite H
          | H : ?lhs = (Ok _, _) |- context [?lhs] => rewrite H
          end).

(** *** The retrying fetcher *)

Section RetryingFetcher.

Variable E : Env.
Variables (url : pyval) (params : option (list (string * pyval))) (interval : Z).

Abbreviation rq := (retry_request E url params).

Lemma advance_advance w j k evs evs' :
  advance (advance w j evs) k evs' = advance w (j + k) (evs ++ evs').
Proof.
  unfold advance; simpl. f_equal; [lia | now rewrite app_assoc].
Qed.

(** One iteration of the loop whose request fails. *)
Lemma get_with_retry_step_failed n w :
  attempt_value (http E (n_get w) rq) = None ->
  GitHubHelper.get_with_retry E url params (S n) interval w =
  GitHubHelper.get_with_retry E url params n interval
    (advance w 1 (failed_attempts rq interval 1)).
Proof.
  intros Hfail. cbn [GitHubHelper.get_with_retry].
  unfold bind at 1. unfold attempt, bind, GitHubHelper.session_get, lift.
  fold rq. unfold attempt_value in Hfail.
  destruct (http E (n_get w) rq) as [|st [v|]] eqn:Hr; cbn.
  - unfold logger, asyncio_sleep, emit, bind; cbn.
    f_equal. unfold advance; cbn. f_equal; [lia | now rewrite <- !app_assoc].
  - unfold GitHubHelper.raise_for_status; cbn.
    destruct (st <? 400) eqn:Hst; [discriminate|].
    assert ((400 <=? st) = true) as -> by lia. cbn.
    unfold logger, asyncio_sleep, emit, bind; cbn.
    f_equal. unfold advance; cbn. f_equal; [lia | now rewrite <- !app_assoc].
  - unfold GitHubHelper.raise_for_status, GitHubHelper.json; cbn.
    destruct (400 <=? st); cbn;
    unfold logger, asyncio_sleep, emit, bind; cbn;
    f_equal; unfold advance; cbn; (f_equal; [lia | now rewrite <- !app_assoc]).
Qed.

(** One iteration of the loop whose request succeeds. *)
Lemma get_with_retry_step_ok n w v :
  attempt_value (http E (n_get w) rq) = Some v ->
  GitHubHelper.get_with_retry E url params (S n) interval w =
  (Ok v, advance w 1 [EvGet rq]).
Proof.
  intros Hok. cbn [GitHubHelper.get_with_retry].
  unfold bind at 1. unfold attempt, bind, GitHubHelper.session_get, lift.
  fold rq. unfold attempt_value in Hok.
  destruct (http E (n_get w) rq) as [|st [v'|]] eqn:Hr; try discriminate.
  destruct (st <? 400) eqn:Hst; [|discriminate]. injection Hok as ->.
  cbn. unfold GitHubHelper.raise_for_status; cbn.
  assert ((400 <=? st) = false) as -> by lia. cbn.
  unfold ret, advance; cbn. do 2 f_equal. lia.
Qed.

Lemma get_with_retry_exhausted n : forall w,
  (forall i, (i < n)%nat -> attempt_value (http E (n_get w + i) rq) = None) ->
  GitHubHelper.get_with_retry E url params n interval w =
  (Ok failure_signal,
   advance w n (failed_attempts rq interval n ++ [EvLog LogError "Retries exhausted!"])).
Proof.
  induction n as [|n IH]; intros w Hall.
  - cbn. unfold logger, emit, bind, ret, advance; cbn. do 2 f_equal. lia.
  - rewrite get_with_retry_step_failed.
    2:{ specialize (Hall 0%nat). rewrite Nat.add_0_r in Hall. apply Hall. lia. }
    rewrite IH.
    + now rewrite advance_advance.
    + intros i Hi. cbn [advance n_get].
      replace (n_get w + 1 + i)%nat with (n_get w + S i)%nat by lia.
      apply Hall. lia.
Qed.

Lemma get_with_retry_succeeds k : forall n w v,
  (k < n)%nat ->
  (forall i, (i < k)%nat -> attempt_value (http E (n_get w + i) rq) = None) ->
  attempt_value (http E (n_get w + k) rq) = Some v ->
  GitHubHelper.get_with_retry E url params n interval w =
  (Ok v, advance w (k + 1) (failed_attempts rq interval k ++ [EvGet rq])).
Proof.
  induction k as [|k IH]; intros n w v Hlt Hfail Hok.
  - destruct n as [|n]; [lia|]. rewrite Nat.add_0_r in Hok.
    now rewrite (get_with_retry_step_ok _ _ v).
  - destruct n as [|n]; [lia|].
    rewrite get_with_retry_step_failed.
    2:{ specialize (Hfail 0%nat). rewrite Nat.add_0_r in Hfail. apply Hfail. lia. }
    rewrite (IH n _ v).
    + now rewrite advance_advance.
    + lia.
    + intros i Hi. cbn [advance n_get].
      replace (n_get w + 1 + i)%nat with (n_get w + S i)%nat by lia.
      apply Hfail. lia.
    + cbn [advance n_get].
      now replace (n_get w + 1 + k)%nat with (n_get w + S k)%nat by lia.
Qed.

(** Either every one of the next [n] answers is a failure, or there is a
    first one that is not. *)
Lemma first_success_cases n w :
  (forall i, (i < n)%nat -> attempt_value (http E (n_get w + i) rq) = None) \/
  (exists k v, (k < n)%nat /\
     (forall i, (i < k)%nat -> attempt_value (http E (n_get w + i) rq) = None) /\
     attempt_value (http E (n_get w + k) rq) = Some v).
Proof.
  induction n as [|n [IH | (k & v & Hk & Hpre & Hv)]].
  - left. intros i Hi. lia.
  - destruct (attempt_value (http E (n_get w + n) rq)) as [v|] eqn:Hn.
    + right. exists n, v. repeat split; [lia | | assumption].
      intros i Hi. apply IH. lia.
    + left. intros i Hi. destruct (Nat.eq_dec i n) as [-> | Hne]; [assumption|].
      apply IH. lia.
  - right. exists k, v. repeat split; [lia | assumption | assumption].
Qed.

(** [get_with_retry] never raises. *)
Lemma get_with_retry_returns n w :
  exists v w', GitHubHelper.get_with_retry E url params n interval w = (Ok v, w').
Proof.
  destruct (first_success_cases n w) as [Hall | (k & v & Hk & Hpre & Hv)].
  - rewrite (get_with_retry_exhausted n w Hall). eauto.
  - rewrite (get_with_retry_succeeds k n w v Hk Hpre Hv). eauto.
Qed.

(** C2. With every one of the [N] attempts failing, [get_with_retry]
    issues exactly [N] GET requests, logs a warning and sleeps
    [retry_interval] after each of them, and returns the failure signal;
    with the first [K < N] attempts failing and attempt [K + 1] succeeding
    it returns the JSON value of that attempt after exactly [K + 1]
    requests.  The defaults are five attempts, five seconds apart. *)
Theorem get_with_retry_attempts (N : nat) (w : world) :
  (GitHubHelper.default_retries = 5%nat /\ GitHubHelper.default_retry_interval = 5) /\
  ((forall i, (i < N)%nat -> attempt_value (http E (n_get w + i) rq) = None) ->
   GitHubHelper.get_with_retry E url params N interval w =
   (Ok failure_signal,
    advance w N (failed_attempts rq interval N
                 ++ [EvLog LogError "Retries exhausted!"])))
  /\
  (forall (K : nat) (v : pyval),
     (K < N)%nat ->
     (forall i, (i < K)%nat -> attempt_value (http E (n_get w + i) rq) = None) ->
     attempt_value (http E (n_get w + K) rq) = Some v ->
     GitHubHelper.get_with_retry E url params N interval w =
     (Ok v, advance w (K + 1) (failed_attempts rq interval K ++ [EvGet rq]))).
Proof.
  split; [split; reflexivity|]. split.
  - apply get_with_retry_exhausted.
  - intros K v. apply get_with_retry_succeeds.
Qed.

(** C7, as the code has it.  [get_with_retry] returns [None] exactly when
    every attempt failed or when the first attempt that succeeded carried
    the JSON body [null]: the failure signal is told apart from every
    fetched value but [null]. *)
Theorem failure_signal_iff_exhausted_or_null (N : nat) (w : world) :
  fst (GitHubHelper.get_with_retry E url params N interval w) = Ok failure_signal
  <->
  ((forall i, (i < N)%nat -> attempt_value (http E (n_get w + i) rq) = None) \/
   (exists K, (K < N)%nat /\
      (forall i, (i < K)%nat -> attempt_value (http E (n_get w + i) rq) = None) /\
      attempt_value (http E (n_get w + K) rq) = Some PNone)).
Proof.
  split.
  - intros Hret.
    destruct (first_success_cases N w) as [Hall | (k & v & Hk & Hpre & Hv)].
    + now left.
    + right. exists k. repeat split; try assumption.
      rewrite (get_with_retry_succeeds k N w v Hk Hpre Hv) in Hret.
      cbn in Hret. injection Hret as ->. exact Hv.
  - intros [Hall | (k & Hk & Hpre & Hv)].
    + now rewrite get_with_retry_exhausted.
    + now rewrite (get_with_retry_succeeds k N w PNone Hk Hpre Hv).
Qed.

End RetryingFetcher.

(** Two failed attempts out of five, then a JSON body: three requests. *)
Lemma get_with_retry_attempts_witness :
  GitHubHelper.get_with_retry Scenario.flaky Scenario.some_url None 5 5 Scenario.fresh
  = (Ok (PDict [("total_count", PInt 0)]),
     advance Scenario.fresh 3
       (failed_attempts (retry_request Scenario.flaky Scenario.some_url None) 5 2
        ++ [EvGet (retry_request Scenario.flaky Scenario.some_url None)])).
Proof.
  apply (proj2 (proj2 (get_with_retry_attempts Scenario.flaky Scenario.some_url None 5
                         5 Scenario.fresh)) 2%nat).
  - lia.
  - intros i Hi. destruct i as [|[|i]]; [reflexivity | reflexivity | lia].
  - reflexivity.
Defined.

(** C7, as stated, fails: a request answered with the JSON body [null]
    yields the very value that five failed attempts yield. *)
Lemma null_payload_equals_failure_signal :
  let fetched := GitHubHelper.get_with_retry Scenario.null_body Scenario.some_url
                   None 5 5 Scenario.fresh in
  let failed := GitHubHelper.get_with_retry Scenario.unreachable Scenario.some_url
                  None 5 5 Scenario.fresh in
  attempt_value (http Scenario.null_body 0
                   (retry_request Scenario.null_body Scenario.some_url None))
    = Some PNone
  /\ n_get (snd fetched) = 1%nat
  /\ n_get (snd failed) = 5%nat
  /\ fst fetched = fst failed.
Proof. vm_compute. repeat split. Qed.

(** *** The author cache *)

Section AuthorCache.

Variable E : Env.

Lemma eqb_refl_hashable k : Py.hashable k = true -> Py.eqb k k = true.
Proof.
  destruct k as [| b | z | s | l | d]; cbn; try discriminate; intros _.
  - reflexivity.
  - now destruct b.
  - apply Z.eqb_refl.
  - apply String.eqb_refl.
Qed.

Lemma cache_find_put k v c :
  Py.hashable k = true ->
  GitHubHelper.cache_find k (GitHubHelper.cache_put k v c) = Some v.
Proof.
  intros Hk. induction c as [|[k' v'] c IH]; cbn.
  - now rewrite eqb_refl_hashable.
  - destruct (Py.eqb k k') eqn:Heq; cbn; now rewrite ?Heq.
Qed.

Ltac author_simpl Hk Habs :=
  repeat (progress (rewrite ?Hk, ?Habs, ?cache_find_put by assumption;
                    cbv beta iota;
                    cbn [fst snd user_cache state n_get n_time trace Py.setitem])).

(** A username that is not cached costs exactly one GET request, with no
    retry; when the answer carries a JSON object, the cache entry becomes
    that object stamped with the reading of the clock, and it is what the
    call returns. *)
Lemma get_author_info_absent username w :
  Py.hashable username = true ->
  GitHubHelper.cache_find username (user_cache w) = None ->
  let out := GitHubHelper.get_author_info E username w in
  n_get (snd out) = S (n_get w) /\
  (exists evs, trace (snd out) = trace w ++ EvGet (profile_request E username) :: evs
               /\ Forall (fun ev => match ev with EvGet _ => False | _ => True end) evs) /\
  (forall st d,
     http E (n_get w) (profile_request E username) = Resp st (Some (PDict d)) ->
     let entry := PDict (Py.assoc_set "_timestamp" (PInt (clock E (n_time w))) d) in
     fst out = Ok entry /\
     GitHubHelper.cache_find username (user_cache (snd out)) = Some entry).
Proof.
  intros Hk Habs.
  unfold GitHubHelper.get_author_info, GitHubHelper.user_cache_contains,
    GitHubHelper.user_cache_getitem, GitHubHelper.user_cache_get,
    GitHubHelper.user_cache_setitem, GitHubHelper.session_get, GitHubHelper.time_time,
    GitHubHelper.json, logger, emit, attempt, bind, lift, ret.
  rewrite Hk, Habs. cbv beta iota zeta.
  fold (profile_request E username).
  destruct (http E (n_get w) (profile_request E username)) as [|st [author|]] eqn:Hr;
    [ | destruct author as [| b | z | s | l | d] | ];
    author_simpl Hk Habs;
    (split; [reflexivity|]; split;
     [ first [ exists []; split; [reflexivity | constructor]
             | exists [EvLog LogWarning "Fetching github userdata failed"];
               rewrite <- app_assoc; split; [reflexivity | repeat constructor] ]
     | intros st' d' Heq; try discriminate ]).
  injection Heq as _ <-. split; reflexivity.
Qed.
(** A cached entry older than [user_cache_max_age] is returned as it is:
    the clock is read once and no request is sent. *)
Lemma get_author_info_stale username w entry age :
  Py.hashable username = true ->
  GitHubHelper.cache_find username (user_cache w) = Some entry ->
  entry_age (clock E (n_time w)) entry = Some age ->
  GitHubHelper.user_cache_max_age < age ->
  GitHubHelper.get_author_info E username w
  = (Ok entry, {| user_cache := user_cache w; state := state w; n_get := n_get w;
                  n_time := S (n_time w); trace := trace w |}).
Proof.
  intros Hk Hfind Hage Hstale. unfold entry_age in Hage.
  destruct (Py.get entry "_timestamp" (PInt 0)) as [fetched_at|] eqn:Hget;
    [|discriminate].
  destruct (Py.sub_from (clock E (n_time w)) fetched_at) as [age'|] eqn:Hsub;
    [|discriminate].
  injection Hage as ->.
  unfold GitHubHelper.get_author_info, GitHubHelper.user_cache_contains,
    GitHubHelper.user_cache_getitem, GitHubHelper.time_time, bind, lift, ret.
  rewrite Hk, Hfind. cbv beta iota. cbn [user_cache]. rewrite ?Hk, ?Hfind.
  cbv beta iota. rewrite Hget. cbv beta iota. rewrite Hsub. cbv beta iota.
  apply Z.gtb_lt in Hstale. rewrite Hstale. cbn [user_cache].
  now rewrite ?Hk, ?Hfind.
Qed.

(** A cached entry that is not older than [user_cache_max_age] is not
    used: a request is sent. *)
Lemma get_author_info_fresh username w entry age :
  Py.hashable username = true ->
  GitHubHelper.cache_find username (user_cache w) = Some entry ->
  entry_age (clock E (n_time w)) entry = Some age ->
  age <= GitHubHelper.user_cache_max_age ->
  exists r w',
    GitHubHelper.get_author_info E username w = (r, w') /\
    n_get w' = S (n_get w) /\
    exists evs, trace w' = trace w ++ EvGet (profile_request E username) :: evs.
Proof.
  intros Hk Hfind Hage Hfresh. unfold entry_age in Hage.
  destruct (Py.get entry "_timestamp" (PInt 0)) as [fetched_at|] eqn:Hget;
    [|discriminate].
  destruct (Py.sub_from (clock E (n_time w)) fetched_at) as [age'|] eqn:Hsub;
    [|discriminate].
  injection Hage as ->.
  unfold GitHubHelper.get_author_info, GitHubHelper.user_cache_contains,
    GitHubHelper.user_cache_getitem, GitHubHelper.user_cache_get,
    GitHubHelper.user_cache_setitem, GitHubHelper.session_get, GitHubHelper.time_time,
    GitHubHelper.json, logger, emit, attempt, bind, lift, ret.
  rewrite Hk, Hfind. cbv beta iota. cbn [user_cache]. rewrite ?Hk, ?Hfind.
  cbv beta iota. rewrite Hget. cbv beta iota. rewrite Hsub. cbv beta iota.
  assert ((age >? GitHubHelper.user_cache_max_age) = false) as ->
    by (rewrite Z.gtb_ltb; apply Z.ltb_ge; exact Hfresh).
  cbv beta iota. cbn [n_get user_cache trace].
  fold (profile_request E username).
  destruct (http E (n_get w) (profile_request E username)) as [|st [author|]] eqn:Hr;
    [ | destruct author as [| b | z | s | l | d] | ];
    author_simpl Hk Hfind;
    (do 2 eexists; split; [reflexivity|]; split; [reflexivity|];
     first [ exists []; reflexivity
           | exists [EvLog LogWarning "Fetching github userdata failed"];
             now rewrite <- app_assoc ]).
Qed.

End AuthorCache.

(** C1, at its failing input.  [octocat] was cached ten ticks ago, far
    less than [user_cache_max_age]; the call nevertheless sends a GET
    request, and replaces the entry. *)
Theorem fresh_entry_is_refetched :
  let w := Scenario.cached 1000 in
  let out := GitHubHelper.get_author_info Scenario.profiles (PStr "octocat") w in
  (exists entry age,
      GitHubHelper.cache_find (PStr "octocat") (user_cache w) = Some entry /\
      entry_age (clock Scenario.profiles 0) entry = Some age /\
      age < GitHubHelper.user_cache_max_age) /\
  n_get (snd out) = 1%nat /\
  trace (snd out) = [EvGet (profile_request Scenario.profiles (PStr "octocat"))] /\
  fst out = Ok (PDict (Scenario.octocat (PStr "The Octocat")
                       ++ [("_timestamp", PInt 1010)])).
Proof.
  cbv zeta. split.
  - eexists; exists 10. split; [reflexivity|]. split; [reflexivity|]. reflexivity.
  - vm_compute. repeat split.
Qed.

(** The other polarity, for contrast: an entry older than
    [user_cache_max_age] is returned as it is, with no request. *)
Lemma stale_entry_is_returned :
  let w := Scenario.cached (1010 - 700000) in
  GitHubHelper.get_author_info Scenario.profiles (PStr "octocat") w
  = (Ok (PDict (Scenario.octocat PNone ++ [("_timestamp", PInt (1010 - 700000))])),
     {| user_cache := user_cache w; state := state w; n_get := 0; n_time := 1;
        trace := [] |}).
Proof. vm_compute. reflexivity. Qed.

(** *** Push events *)

Section Commits.

Variable E : Env.

Lemma format_commit_returns project branch brief commit w p w' :
  well_formed_commit E commit = true ->
  GitHubHelper.get_author_info E (commit_username commit) w = (Ok p, w') ->
  usable_profile p = true ->
  exists e cid,
    GitHubHelper.format_commit E project branch brief commit w = (Ok (e, cid), w') /\
    Py.getitem commit "id" = Ok cid /\
    (Py.truthy p = false -> author e = Some (fallback_author commit)).
Proof.
  unfold well_formed_commit, commit_username, usable_profile, fallback_author,
    commit_raw_name, GitHubHelper.format_commit.
  destruct (Py.getitem commit "author") as [[| | | | |ad]|] eqn:Ha; try discriminate.
  destruct (Py.getitem commit "timestamp") as [ts|] eqn:Hts; try discriminate.
  destruct (Py.getitem commit "message") as [[| | |m| |]|] eqn:Hm; try discriminate.
  destruct (Py.getitem commit "url") as [u|] eqn:Hu; try discriminate.
  destruct (Py.getitem commit "id") as [cid|] eqn:Hid; try discriminate.
  destruct (GitHubHelper.parse E ts) as [t|] eqn:Ht; try discriminate.
  intros _ Hlook Husable.
  cbn [Py.get] in *.
  unfold bind, lift, ret. cbv beta iota. cbn [Py.get Py.as_str]. cbv beta iota.
  rewrite Ht. cbv beta iota. rewrite Hlook. cbv beta iota.
  destruct (Py.truthy p) eqn:Hp.
  - cbn in Husable.
    destruct (Py.getitem p "name") as [name|]; try discriminate.
    destruct (Py.getitem p "login") as [login|]; try discriminate.
    destruct (Py.getitem p "html_url") as [html|]; try discriminate.
    destruct (Py.getitem p "avatar_url") as [avatar|]; try discriminate.
    cbv beta iota.
    destruct (Py.truthy name); [destruct (negb (Py.eqb name login))|];
      (eexists; exists cid; split; [reflexivity | split; [reflexivity | discriminate]]).
  - destruct (Py.truthy (match Py.assoc "name" ad with Some x => x | None => PNone end));
      (eexists; exists cid; split; [reflexivity | split; [reflexivity | reflexivity]]).
Qed.

(** The fallback of lines 66 to 69.  For a commit whose author block
    omits the username, the lookup is made for the username [None]; when
    it yields nothing, the author block of the descriptor is the raw
    author name of the payload, and the literal [<No Name>] when the
    payload has no (or an empty) name. *)
Lemma omitted_username_falls_back project branch brief commit a w p w' :
  well_formed_commit E commit = true ->
  Py.getitem commit "author" = Ok a ->
  Py.getitem a "username" = Raise KeyError ->
  GitHubHelper.get_author_info E PNone w = (Ok p, w') ->
  Py.truthy p = false ->
  exists e cid,
    GitHubHelper.format_commit E project branch brief commit w = (Ok (e, cid), w') /\
    author e = Some {| author_name :=
                         match Py.getitem a "name" with
                         | Ok n => if Py.truthy n then n else PStr "<No Name>"
                         | Raise _ => PStr "<No Name>"
                         end;
                       author_url := None; author_icon_url := None |}.
Proof.
  intros Hwf Ha Huser Hlook Hp.
  assert (commit_username commit = PNone) as Hnone.
  { unfold commit_username. rewrite Ha.
    destruct a as [| | | | |ad]; try reflexivity. cbn in *.
    now destruct (Py.assoc "username" ad). }
  rewrite <- Hnone in Hlook.
  destruct (format_commit_returns project branch brief commit w p w' Hwf Hlook)
    as (e & cid & Hrun & _ & Hauthor).
  { unfold usable_profile. now rewrite Hp. }
  exists e, cid. split; [exact Hrun|].
  rewrite (Hauthor Hp). unfold fallback_author, commit_raw_name. rewrite Ha.
  unfold well_formed_commit in Hwf. rewrite Ha in Hwf.
  destruct a as [| | | | |ad]; try discriminate. cbn.
  now destruct (Py.assoc "name" ad) as [n|].
Qed.

Lemma index_first (front : list pyval) c_prev c_last :
  Py.index (front ++ [c_prev; c_last]) 0 = Ok (hd c_prev front).
Proof.
  unfold Py.index. rewrite length_app. cbn [length].
  replace (0 <? 0) with false by reflexivity. cbn [orb].
  destruct (Z.leb_spec (Z.of_nat (length front + 2)) 0); [lia|].
  now destruct front.
Qed.

Lemma index_second_to_last (front : list pyval) c_prev c_last :
  Py.index (front ++ [c_prev; c_last]) (-2) = Ok c_prev.
Proof.
  unfold Py.index. rewrite length_app. cbn [length].
  replace (-2 <? 0) with true by reflexivity.
  destruct (Z.ltb_spec (-2 + Z.of_nat (length front + 2)) 0); [lia|].
  destruct (Z.leb_spec (Z.of_nat (length front + 2))
                       (-2 + Z.of_nat (length front + 2))); [lia|].
  cbn [orb].
  replace (Z.to_nat (-2 + Z.of_nat (length front + 2))) with (length front + 0)%nat by lia.
  now rewrite nth_error_app2, Nat.add_0_r, Nat.sub_diag by lia.
Qed.

Lemma last_slice_final (front : list pyval) c_prev c_last :
  Py.last_slice (front ++ [c_prev; c_last]) = [c_last].
Proof.
  unfold Py.last_slice. rewrite length_app. cbn [length].
  replace (length front + 2 - 1)%nat with (length front + 1)%nat by lia.
  replace (front ++ [c_prev; c_last]) with ((front ++ [c_prev]) ++ [c_last])
    by now rewrite <- app_assoc.
  rewrite skipn_app, length_app. cbn [length].
  rewrite Nat.sub_diag, skipn_all2 by (rewrite length_app; cbn; lia).
  reflexivity.
Qed.

(** C5, as the code has it.  For a push of at least two commits whose
    number exceeds the truncation limit, when the profile lookup for the
    author of the final commit returns nothing or a profile (an object
    with [name], [login], [html_url] and [avatar_url]), brief mode returns
    exactly two entries: the skip descriptor, with the correlation id
    [None] and the compare URL from the first hash to the second-to-last
    hash, and the descriptor of the final commit with the hash of that
    commit. *)
Theorem brief_push_is_truncated ev ref repository project front c_prev c_last
        first_hash last_hash w p w' :
  let commits := front ++ [c_prev; c_last] in
  Py.getitem ev "ref" = Ok (PStr ref) ->
  Py.getitem ev "repository" = Ok repository ->
  Py.getitem repository "full_name" = Ok project ->
  Py.getitem ev "commits" = Ok (PList commits) ->
  commit_truncation_limit (config E) < Z.of_nat (length commits) ->
  Py.getitem (hd c_prev front) "id" = Ok first_hash ->
  Py.getitem c_prev "id" = Ok last_hash ->
  well_formed_commit E c_last = true ->
  GitHubHelper.get_author_info E (commit_username c_last) w = (Ok p, w') ->
  usable_profile p = true ->
  exists e cid,
    GitHubHelper.get_commit_messages E ev true w
    = (Ok [(skipped_commits_embed project first_hash last_hash (length commits), PNone);
           (e, cid)], w') /\
    GitHubHelper.format_commit E project (snd (PyStr.rpartition "/" ref)) true c_last w
    = (Ok (e, cid), w') /\
    Py.getitem c_last "id" = Ok cid.
Proof.
  intros commits Href Hrepo Hproject Hcommits Hlimit Hfirst Hprev Hwf Hlook Husable.
  destruct (format_commit_returns project (snd (PyStr.rpartition "/" ref)) true
              c_last w p w' Hwf Hlook Husable) as (e & cid & Hrun & Hid & _).
  exists e, cid. split; [|split; assumption].
  unfold GitHubHelper.get_commit_messages.
  unfold bind, lift, ret. subst commits.
  rewrite Href. cbn [Py.as_str]. rewrite Hrepo, Hproject, Hcommits. cbn [Py.as_list].
  apply Z.ltb_lt in Hlimit. rewrite Hlimit. cbn [andb].
  rewrite index_first, Hfirst, index_second_to_last, Hprev.
  cbn [fst snd]. rewrite last_slice_final.
  cbn [for_each]. unfold bind, ret. rewrite Hrun.
  reflexivity.
Qed.

End Commits.

(** A commit by Jane Doe, who has no account: the name of the payload. *)
Lemma omitted_username_falls_back_witness :
  exists e cid,
    GitHubHelper.format_commit Scenario.unreachable (PStr "obsproject/obs-studio")
      "master" false Scenario.commit_jane Scenario.fresh
    = (Ok (e, cid), Scenario.after_failed_lookup) /\
    author e = Some {| author_name := PStr "Jane Doe";
                       author_url := None; author_icon_url := None |}.
Proof.
  apply (omitted_username_falls_back Scenario.unreachable (PStr "obsproject/obs-studio")
           "master"%string false Scenario.commit_jane
           (PDict [("name", PStr "Jane Doe"); ("email", PStr "jane@example.org")])
           Scenario.fresh PNone Scenario.after_failed_lookup);
    reflexivity.
Defined.

(** C9, at its failing input.  The commit of Jane Doe has a name and no
    username.  The lookup is not skipped: [get_author_info] is called
    with [None] and sends a GET request for the user [None], and what the
    API answers is used.  When it answers [404] with its JSON error
    object, the object is taken for the profile and the push raises
    [KeyError]: no descriptor is returned.  When it answers a profile, the
    author block shows that profile and not the name of the payload.
    Only when the lookup yields nothing (here: no connection) does the
    author block fall back to [Jane Doe], and to the literal [<No Name>]
    for a commit without a name; the request was sent all the same. *)
Theorem omitted_username_is_looked_up :
  let payload := Scenario.push [Scenario.commit_jane] in
  let unknown := GitHubHelper.get_commit_messages Scenario2.not_found payload false
                   Scenario.fresh in
  let answered := GitHubHelper.get_commit_messages Scenario.profiles payload false
                    Scenario.fresh in
  let down := GitHubHelper.get_commit_messages Scenario.unreachable payload false
                Scenario.fresh in
  let anonymous := GitHubHelper.get_commit_messages Scenario.unreachable
                     (Scenario.push [Scenario.commit_anonymous]) false
                     Scenario.fresh in
  Py.getitem (PDict [("name", PStr "Jane Doe"); ("email", PStr "jane@example.org")])
             "username" = Raise KeyError /\
  commit_username Scenario.commit_jane = PNone /\
  commit_raw_name Scenario.commit_jane = PStr "Jane Doe" /\
  (fst unknown = Raise KeyError /\
   trace (snd unknown) = [EvGet (profile_request Scenario2.not_found PNone)]) /\
  (trace (snd answered) = [EvGet (profile_request Scenario.profiles PNone)] /\
   exists e cid,
     fst answered = Ok [(e, cid)] /\
     author e = Some {| author_name := PStr "The Octocat (octocat)";
                        author_url := Some (PStr "https://github.com/octocat");
                        author_icon_url :=
                          Some (PStr "https://avatars.githubusercontent.com/u/583231") |}) /\
  (trace (snd down) = [EvGet (profile_request Scenario.unreachable PNone);
                       EvLog LogWarning "Fetching github userdata failed"] /\
   exists e cid,
     fst down = Ok [(e, cid)] /\
     author e = Some {| author_name := PStr "Jane Doe";
                        author_url := None; author_icon_url := None |}) /\
  (commit_raw_name Scenario.commit_anonymous = PNone /\
   n_get (snd anonymous) = 1%nat /\
   exists e cid,
     fst anonymous = Ok [(e, cid)] /\
     author e = Some {| author_name := PStr "<No Name>";
                        author_url := None; author_icon_url := None |}).
Proof.
  cbv zeta.
  split; [reflexivity|]. split; [vm_compute; reflexivity|].
  split; [vm_compute; reflexivity|].
  split; [split; vm_compute; reflexivity|].
  split; [split; [vm_compute; reflexivity|];
          eexists; eexists; split; vm_compute; reflexivity|].
  split; [split; [vm_compute; reflexivity|];
          eexists; eexists; split; vm_compute; reflexivity|].
  split; [vm_compute; reflexivity|]. split; [vm_compute; reflexivity|].
  eexists; eexists; split; vm_compute; reflexivity.
Qed.

(** A push of four commits under a limit of three. *)
Lemma brief_push_is_truncated_witness :
  exists e cid,
    GitHubHelper.get_commit_messages Scenario.unreachable
      (Scenario.push [Scenario.commit_jane; Scenario.commit_octocat "c0ffee3";
                      Scenario.commit_anonymous; Scenario.commit_jane])
      true Scenario.fresh
    = (Ok [(skipped_commits_embed (PStr "obsproject/obs-studio") (PStr "c0ffee1")
              (PStr "c0ffee2") 4, PNone);
           (e, cid)], Scenario.after_failed_lookup) /\
    GitHubHelper.format_commit Scenario.unreachable (PStr "obsproject/obs-studio")
      (snd (PyStr.rpartition "/" "refs/heads/master")) true Scenario.commit_jane
      Scenario.fresh
    = (Ok (e, cid), Scenario.after_failed_lookup) /\
    Py.getitem Scenario.commit_jane "id" = Ok cid.
Proof.
  apply (brief_push_is_truncated Scenario.unreachable
           (Scenario.push [Scenario.commit_jane; Scenario.commit_octocat "c0ffee3";
                           Scenario.commit_anonymous; Scenario.commit_jane])
           "refs/heads/master"%string
           (PDict [("full_name", PStr "obsproject/obs-studio")])
           (PStr "obsproject/obs-studio")
           [Scenario.commit_jane; Scenario.commit_octocat "c0ffee3"]
           Scenario.commit_anonymous Scenario.commit_jane
           (PStr "c0ffee1") (PStr "c0ffee2") Scenario.fresh PNone
           Scenario.after_failed_lookup);
    reflexivity.
Defined.

(** C5, as stated, fails twice.  With a truncation limit of zero a push
    of one commit exceeds the limit, and there is no second-to-last
    commit: [IndexError].  And the final commit of a truncated push is
    formatted like any other: here four commits exceed the limit of three,
    the profile lookup for the author of the last one is answered with the
    error object of the API, and the call raises [KeyError]. *)
Lemma truncated_push_raises :
  (let commits := [Scenario.commit_jane] in
   commit_truncation_limit (config Scenario.eager) < Z.of_nat (length commits) /\
   GitHubHelper.get_commit_messages Scenario.eager (Scenario.push commits) true
     Scenario.fresh
   = (Raise IndexError, Scenario.fresh)) /\
  (let commits := [Scenario.commit_jane; Scenario.commit_octocat "c0ffee3";
                   Scenario.commit_anonymous; Scenario.commit_jane] in
   commit_truncation_limit (config Scenario2.not_found) < Z.of_nat (length commits) /\
   json_body (http Scenario2.not_found 0
                (profile_request Scenario2.not_found
                   (commit_username Scenario.commit_jane)))
   = Some (PDict Scenario2.not_found_body) /\
   fst (GitHubHelper.get_commit_messages Scenario2.not_found (Scenario.push commits)
          true Scenario.fresh)
   = Raise KeyError).
Proof.
  cbv zeta. split; [split; [reflexivity | vm_compute; reflexivity]|].
  split; [reflexivity|]. split; vm_compute; reflexivity.
Qed.

(** *** Pull requests and issues *)

Section Items.

Variable E : Env.

(** The comprehension of the source computes the text of the
    specification. *)
Lemma filter_template_comments_displayed body :
  GitHubHelper.filter_template_comments body = displayed_body body.
Proof.
  unfold GitHubHelper.filter_template_comments, displayed_body. f_equal.
  induction (PyStr.splitlines body) as [|l ls IH]; [reflexivity|].
  cbn [List.filter without_comment_lines]. unfold PyStr.startswith at 1.
  destruct (String.prefix "<!-" l); cbn [negb map]; [exact IH | now rewrite IH].
Qed.

Lemma assoc_set_same k v d : Py.assoc k (Py.assoc_set k v d) = Some v.
Proof.
  induction d as [|[k' v'] d IH]; cbn.
  - now rewrite String.eqb_refl.
  - destruct (String.eqb k k') eqn:Hk; cbn; now rewrite ?Hk, ?String.eqb_refl.
Qed.

Lemma get_pr_messages_body event_body body w :
  well_formed_pr_event E event_body = true ->
  body_text "pull_request" event_body = Some body ->
  exists brief_embed embed event_body',
    GitHubHelper.get_pr_messages E event_body w
    = (Ok (brief_embed, embed, event_body'), w) /\
    description embed = Some (displayed_body body) /\
    description brief_embed = None /\
    body_text "pull_request" event_body' = Some (displayed_body body).
Proof.
  unfold well_formed_pr_event, has_repository, well_formed_item, body_text.
  destruct (Py.getitem event_body "number") as [number|] eqn:Hn; try discriminate.
  destruct (Py.getitem event_body "repository") as [repository|] eqn:Hrepo;
    try discriminate.
  destruct (Py.getitem repository "full_name") as [full_name|] eqn:Hfull;
    try discriminate.
  destruct (Py.getitem event_body "pull_request") as [pr|] eqn:Hpr; try discriminate.
  destruct (Py.getitem pr "title") as [ttl|] eqn:Htitle; try discriminate.
  destruct (Py.getitem pr "created_at") as [created|] eqn:Hcreated; try discriminate.
  destruct (Py.getitem pr "html_url") as [html|] eqn:Hhtml; try discriminate.
  destruct (Py.getitem pr "user") as [user|] eqn:Huser; try discriminate.
  destruct (Py.getitem pr "body") as [[| | |b| |]|] eqn:Hbody; try discriminate.
  destruct (GitHubHelper.parse E created) as [t|] eqn:Ht; try discriminate.
  destruct (Py.getitem user "login") as [login|] eqn:Hlogin; try discriminate.
  destruct (Py.getitem user "html_url") as [uurl|] eqn:Huurl; try discriminate.
  destruct (Py.getitem user "avatar_url") as [avatar|] eqn:Havatar; try discriminate.
  intros _ [= ->].
  destruct pr as [| | | | |prd]; try (cbn in Hbody; discriminate).
  destruct event_body as [| | | | |evd]; try (cbn in Hpr; discriminate).
  unfold GitHubHelper.get_pr_messages, bind, lift, ret. run_eqs.
  cbn [Py.as_str Py.setitem]. cbv beta iota.
  rewrite filter_template_comments_displayed.
  do 3 eexists. split; [reflexivity|]. repeat split.
  cbn [Py.getitem]. rewrite assoc_set_same. cbn [Py.getitem].
  now rewrite assoc_set_same.
Qed.

Lemma get_issue_messages_body event_body body w :
  well_formed_issue_event E event_body = true ->
  body_text "issue" event_body = Some body ->
  exists brief_embed embed event_body',
    GitHubHelper.get_issue_messages E event_body w
    = (Ok (brief_embed, embed, event_body'), w) /\
    description embed = Some (displayed_body body) /\
    description brief_embed = None /\
    body_text "issue" event_body' = Some (displayed_body body).
Proof.
  unfold well_formed_issue_event, has_repository, well_formed_item, body_text.
  destruct (Py.getitem event_body "repository") as [repository|] eqn:Hrepo;
    try discriminate.
  destruct (Py.getitem repository "full_name") as [full_name|] eqn:Hfull;
    try discriminate.
  destruct (Py.getitem event_body "issue") as [issue|] eqn:Hissue; try discriminate.
  destruct (Py.getitem issue "number") as [number|] eqn:Hn; try discriminate.
  destruct (Py.getitem issue "title") as [ttl|] eqn:Htitle; try discriminate.
  destruct (Py.getitem issue "created_at") as [created|] eqn:Hcreated; try discriminate.
  destruct (Py.getitem issue "html_url") as [html|] eqn:Hhtml; try discriminate.
  destruct (Py.getitem issue "user") as [user|] eqn:Huser; try discriminate.
  destruct (Py.getitem issue "body") as [[| | |b| |]|] eqn:Hbody; try discriminate.
  destruct (GitHubHelper.parse E created) as [t|] eqn:Ht; try discriminate.
  destruct (Py.getitem user "login") as [login|] eqn:Hlogin; try discriminate.
  destruct (Py.getitem user "html_url") as [uurl|] eqn:Huurl; try discriminate.
  destruct (Py.getitem user "avatar_url") as [avatar|] eqn:Havatar; try discriminate.
  intros _ [= ->].
  destruct issue as [| | | | |isd]; try (cbn in Hbody; discriminate).
  destruct event_body as [| | | | |evd]; try (cbn in Hissue; discriminate).
  unfold GitHubHelper.get_issue_messages, bind, lift, ret. run_eqs.
  cbn [Py.as_str Py.setitem]. cbv beta iota.
  rewrite filter_template_comments_displayed.
  do 3 eexists. split; [reflexivity|]. repeat split.
  cbn [Py.getitem]. rewrite assoc_set_same. cbn [Py.getitem].
  now rewrite assoc_set_same.
Qed.

(** *** The displayed text in the words of the specification *)

Lemma list_ascii_app s t :
  list_ascii_of_string (s +:+ t) = list_ascii_of_string s ++ list_ascii_of_string t.
Proof.
  induction s as [|a s IH]; [reflexivity|].
  change (String a s +:+ t) with (String a (s +:+ t)).
  cbn [list_ascii_of_string app]. now rewrite IH.
Qed.

Lemma lstrip_drop_spaces s :
  list_ascii_of_string (PyStr.lstrip s) = drop_spaces (list_ascii_of_string s).
Proof.
  induction s as [|a s IH]; [reflexivity|].
  cbn [PyStr.lstrip list_ascii_of_string drop_spaces].
  destruct (PyStr.is_space a); [exact IH | reflexivity].
Qed.

Lemma drop_spaces_snoc l a :
  drop_spaces (l ++ [a])
  = match drop_spaces l with
    | [] => if PyStr.is_space a then [] else [a]
    | x :: rest => (x :: rest) ++ [a]
    end.
Proof.
  induction l as [|b l IH]; cbn [app drop_spaces].
  - now destruct (PyStr.is_space a).
  - destruct (PyStr.is_space b); [exact IH | reflexivity].
Qed.

Lemma rstrip_rev s :
  list_ascii_of_string (PyStr.rstrip s)
  = rev (drop_spaces (rev (list_ascii_of_string s))).
Proof.
  induction s as [|a s IH]; [reflexivity|].
  cbn [PyStr.rstrip list_ascii_of_string rev]. rewrite drop_spaces_snoc.
  destruct (drop_spaces (rev (list_ascii_of_string s))) as [|x rest].
  - destruct (PyStr.rstrip s); [|discriminate].
    now destruct (PyStr.is_space a).
  - rewrite rev_app_distr, <- IH. cbn [rev app].
    destruct (PyStr.rstrip s) as [|b r] eqn:Hr; [|reflexivity].
    cbn [list_ascii_of_string rev] in IH. symmetry in IH.
    now apply app_eq_nil in IH as [_ [=]].
Qed.

(** The [strip] of the code is the trimming of the specification. *)
Lemma strip_spec_trim s : PyStr.strip s = spec_trim s.
Proof.
  unfold PyStr.strip, spec_trim.
  rewrite <- (string_of_list_ascii_of_string (PyStr.rstrip (PyStr.lstrip s))).
  now rewrite rstrip_rev, lstrip_drop_spaces.
Qed.

(** A carriage return at the end of a line is stripped with it. *)
Lemma spec_trim_cr p : spec_trim (p +:+ String PyStr.cr EmptyString) = spec_trim p.
Proof.
  unfold spec_trim. rewrite list_ascii_app. cbn [list_ascii_of_string].
  rewrite drop_spaces_snoc.
  destruct (drop_spaces (list_ascii_of_string p)) as [|x rest]; [reflexivity|].
  now rewrite rev_app_distr.
Qed.

Lemma prefix_comment_cr p :
  String.prefix "<!-" (p +:+ String PyStr.cr EmptyString) = String.prefix "<!-" p.
Proof.
  destruct p as [|a [|b [|c p]]]; cbv [String.append]; cbn [String.prefix];
    repeat match goal with
           | |- context [ascii_dec ?x ?y] => is_var y; destruct (ascii_dec x y)
           end;
    try reflexivity; destruct p; reflexivity.
Qed.

Lemma split_nonempty c s : PyStr.split c s <> [].
Proof.
  destruct s as [|a s]; cbn [PyStr.split]; [discriminate|].
  destruct (Ascii.eqb a c); [discriminate|]. now destruct (PyStr.split c s).
Qed.

Lemma pieces_match_cons ps qs : pieces_match ps qs -> ps <> [] /\ qs <> [].
Proof. destruct 1; split; discriminate. Qed.

(** With such line ends, [splitlines] gives the pieces between the
    newlines without their carriage returns. *)
Lemma line_pieces_match s :
  plain_breaks s = true ->
  pieces_match (PyStr.line_pieces false s) (PyStr.split PyStr.nl s).
Proof.
  induction s as [|a s IH]; [constructor|].
  cbn [plain_breaks PyStr.line_pieces PyStr.split andb].
  intros [Ha Hs]%andb_prop. specialize (IH Hs).
  destruct (Ascii.eqb_spec a PyStr.cr) as [->|Hcr].
  - destruct s as [|b s]; [discriminate|].
    apply Ascii.eqb_eq in Ha. subst b.
    cbn [PyStr.line_pieces PyStr.split andb] in *.
    change (Ascii.eqb PyStr.cr PyStr.nl) with false.
    change (PyStr.is_linebreak PyStr.cr) with true.
    change (Ascii.eqb PyStr.cr PyStr.cr) with true.
    change (Ascii.eqb PyStr.nl PyStr.nl) with true in *.
    change (Ascii.eqb PyStr.nl PyStr.cr) with false in *.
    change (PyStr.is_linebreak PyStr.nl) with true in *.
    cbn [andb] in *.
    assert (pieces_match (PyStr.line_pieces false s) (PyStr.split PyStr.nl s)) as IH'.
    { inversion IH as [p Hp Hq | p ps qs Hm | p ps qs Hm Hp]; subst.
      - symmetry in Hq. now apply split_nonempty in Hq.
      - exact Hm. }
    destruct (PyStr.split PyStr.nl s) as [|w ws] eqn:Hsplit.
    + now destruct (pieces_match_cons _ _ IH').
    + apply (pieces_crlf EmptyString). exact IH'.
  - destruct (Ascii.eqb_spec a PyStr.nl) as [->|Hnl].
    + change (PyStr.is_linebreak PyStr.nl) with true. cbn [andb].
      change (Ascii.eqb PyStr.nl PyStr.cr) with false.
      now apply pieces_same.
    + rewrite orb_false_r in Ha. apply negb_true_iff in Ha. rewrite Ha. cbn [andb].
      inversion IH as [p Hp Hq | p ps qs Hm Hp Hq | p ps qs Hm Hp Hq].
      * apply pieces_last.
      * now apply pieces_same.
      * apply (pieces_crlf (String a p)). exact Hm.
Qed.

(** The carriage returns make no difference to what is displayed. *)
Lemma pieces_match_lines ps qs :
  pieces_match ps qs ->
  map PyStr.strip
      (List.filter (fun l => negb (PyStr.startswith "<!-" l)) (PyStr.drop_last_empty ps))
  = map PyStr.strip
        (List.filter (fun l => negb (PyStr.startswith "<!-" l))
                     (PyStr.drop_last_empty qs)).
Proof.
  induction 1 as [p | p ps qs Hm IH | p ps qs Hm IH]; [reflexivity| |];
    destruct (pieces_match_cons _ _ Hm) as [Hps Hqs];
    destruct ps as [|p' ps]; [now destruct Hps| |now destruct Hps|];
    destruct qs as [|q' qs]; try (now destruct Hqs);
    cbn [PyStr.drop_last_empty] in *; cbn [List.filter].
  - destruct (negb (PyStr.startswith "<!-" p)); cbn [map]; now rewrite IH.
  - unfold PyStr.startswith at 1 3. rewrite prefix_comment_cr.
    destruct (negb (String.prefix "<!-" p)); cbn [map]; [|exact IH].
    now rewrite IH, !strip_spec_trim, spec_trim_cr.
Qed.

(** Cutting at the newlines and leaving an empty last piece out is
    cutting the text without its final newline. *)
Lemma drop_last_empty_split a s :
  PyStr.drop_last_empty (PyStr.split PyStr.nl (String a s))
  = PyStr.split PyStr.nl (chomp (String a s)).
Proof.
  revert a. induction s as [|b s IH]; intros a.
  - cbn [chomp PyStr.split].
    destruct (Ascii.eqb a PyStr.nl) eqn:Ha; cbn [PyStr.split]; rewrite ?Ha; reflexivity.
  - specialize (IH b).
    change (chomp (String a (String b s))) with (String a (chomp (String b s))).
    change (PyStr.split PyStr.nl (String a (String b s)))
      with (if Ascii.eqb a PyStr.nl then EmptyString :: PyStr.split PyStr.nl (String b s)
            else match PyStr.split PyStr.nl (String b s) with
                 | [] => [String a EmptyString]
                 | w :: ws => String a w :: ws
                 end).
    change (PyStr.split PyStr.nl (String a (chomp (String b s))))
      with (if Ascii.eqb a PyStr.nl
            then EmptyString :: PyStr.split PyStr.nl (chomp (String b s))
            else match PyStr.split PyStr.nl (chomp (String b s)) with
                 | [] => [String a EmptyString]
                 | w :: ws => String a w :: ws
                 end).
    rewrite <- IH.
    destruct (PyStr.split PyStr.nl (String b s)) as [|w [|x ws]] eqn:Hsplit.
    + now apply split_nonempty in Hsplit.
    + assert (w <> EmptyString) as Hw.
      { intros ->. cbn [PyStr.drop_last_empty String.eqb] in IH. symmetry in IH.
        now apply split_nonempty in IH. }
      apply String.eqb_neq in Hw.
      destruct (Ascii.eqb a PyStr.nl); cbn [PyStr.drop_last_empty String.eqb];
        rewrite ?Hw; reflexivity.
    + destruct (Ascii.eqb a PyStr.nl); reflexivity.
Qed.

(** The text that the code displays, in the words of the specification:
    for a body whose lines end with a newline or with a carriage return
    and a newline, it is the body without its final newline, cut at the
    newlines, without the comment lines, each line trimmed. *)
Lemma filter_template_comments_spec body :
  plain_breaks body = true ->
  GitHubHelper.filter_template_comments body = spec_displayed_body (chomp body).
Proof.
  intros Hplain. destruct body as [|a s]; [reflexivity|].
  unfold GitHubHelper.filter_template_comments, spec_displayed_body, spec_lines,
    PyStr.splitlines.
  rewrite (pieces_match_lines _ _ (line_pieces_match _ Hplain)).
  rewrite drop_last_empty_split. f_equal.
  apply map_ext. intros line. apply strip_spec_trim.
Qed.

(** C8, as the code has it.  For a pull request or an issue whose body is
    a text with lines that end with a newline or with a carriage return
    and a newline, the body of the full descriptor is the body text
    without its final newline, cut at its newlines, without the lines that
    start with [<!-], every other line trimmed of surrounding white space,
    joined by newlines; the brief descriptor has no body; and the template
    example reduces to its two lines of text. *)
Theorem item_body_is_stripped_of_comments w :
  (forall event_body body,
     well_formed_pr_event E event_body = true ->
     body_text "pull_request" event_body = Some body ->
     plain_breaks body = true ->
     exists brief_embed embed event_body',
       GitHubHelper.get_pr_messages E event_body w
       = (Ok (brief_embed, embed, event_body'), w) /\
       description embed = Some (spec_displayed_body (chomp body)) /\
       description brief_embed = None) /\
  (forall event_body body,
     well_formed_issue_event E event_body = true ->
     body_text "issue" event_body = Some body ->
     plain_breaks body = true ->
     exists brief_embed embed event_body',
       GitHubHelper.get_issue_messages E event_body w
       = (Ok (brief_embed, embed, event_body'), w) /\
       description embed = Some (spec_displayed_body (chomp body)) /\
       description brief_embed = None) /\
  GitHubHelper.filter_template_comments Scenario.template_body
  = "Real text" +:+ PyStr.NL +:+ "More" /\
  spec_displayed_body Scenario.template_body = "Real text" +:+ PyStr.NL +:+ "More".
Proof.
  split; [|split; [|split]].
  - intros event_body body Hwf Hbody Hplain.
    destruct (get_pr_messages_body event_body body w Hwf Hbody)
      as (b & e & ev' & Hrun & Hd & Hb & _).
    exists b, e, ev'. split; [exact Hrun|]. split; [|exact Hb].
    now rewrite Hd, <- filter_template_comments_displayed,
      filter_template_comments_spec.
  - intros event_body body Hwf Hbody Hplain.
    destruct (get_issue_messages_body event_body body w Hwf Hbody)
      as (b & e & ev' & Hrun & Hd & Hb & _).
    exists b, e, ev'. split; [exact Hrun|]. split; [|exact Hb].
    now rewrite Hd, <- filter_template_comments_displayed,
      filter_template_comments_spec.
  - vm_compute; reflexivity.
  - vm_compute; reflexivity.
Qed.

End Items.

(** A pull request and an issue whose body is the template example as a
    browser sends it: carriage returns, indented text, a final line end. *)
Lemma item_body_is_stripped_of_comments_witness :
  (exists brief_embed embed event_body',
      GitHubHelper.get_pr_messages Scenario.unreachable
        (Scenario.pr_event Scenario2.windows_body) Scenario.fresh
      = (Ok (brief_embed, embed, event_body'), Scenario.fresh) /\
      description embed = Some (spec_displayed_body (chomp Scenario2.windows_body)) /\
      description brief_embed = None) /\
  (exists brief_embed embed event_body',
      GitHubHelper.get_issue_messages Scenario.unreachable
        (Scenario.issue_event Scenario2.windows_body) Scenario.fresh
      = (Ok (brief_embed, embed, event_body'), Scenario.fresh) /\
      description embed = Some (spec_displayed_body (chomp Scenario2.windows_body)) /\
      description brief_embed = None) /\
  spec_displayed_body (chomp Scenario2.windows_body)
  = "Real text" +:+ PyStr.NL +:+ "More".
Proof.
  pose proof (item_body_is_stripped_of_comments Scenario.unreachable Scenario.fresh)
    as (Hpr & Hissue & _).
  split; [|split].
  - apply Hpr; vm_compute; reflexivity.
  - apply Hissue; vm_compute; reflexivity.
  - vm_compute; reflexivity.
Defined.

(** C8, as stated, fails.  A pull request whose description is empty has
    the body [null], and no descriptor is returned for it, not even the
    brief one: [AttributeError].  A body that ends in a newline is
    displayed without an empty last line, where the text cut at its
    newlines has one.  And a form feed ends a line of the displayed text,
    where the text cut at its newlines keeps it inside its line. *)
Lemma item_body_is_not_cut_at_newlines :
  GitHubHelper.get_pr_messages Scenario.unreachable
    (Scenario2.pr_event_with PNone) Scenario.fresh
  = (Raise AttributeError, Scenario.fresh) /\
  (exists brief_embed embed event_body',
      GitHubHelper.get_pr_messages Scenario.unreachable
        (Scenario.pr_event Scenario2.trailing_newline_body) Scenario.fresh
      = (Ok (brief_embed, embed, event_body'), Scenario.fresh) /\
      description embed = Some "Fixes the crash" /\
      spec_displayed_body Scenario2.trailing_newline_body
      = "Fixes the crash" +:+ PyStr.NL /\
      description embed
      <> Some (spec_displayed_body Scenario2.trailing_newline_body)) /\
  (exists brief_embed embed event_body',
      GitHubHelper.get_issue_messages Scenario.unreachable
        (Scenario.issue_event Scenario2.form_feed_body) Scenario.fresh
      = (Ok (brief_embed, embed, event_body'), Scenario.fresh) /\
      description embed = Some ("Page one" +:+ PyStr.NL +:+ "Page two") /\
      spec_displayed_body Scenario2.form_feed_body = Scenario2.form_feed_body /\
      description embed <> Some (spec_displayed_body Scenario2.form_feed_body)).
Proof.
  split; [vm_compute; reflexivity|]. split.
  - do 3 eexists. split; [vm_compute; reflexivity|].
    split; [vm_compute; reflexivity|]. split; [vm_compute; reflexivity|].
    vm_compute. discriminate.
  - do 3 eexists. split; [vm_compute; reflexivity|].
    split; [vm_compute; reflexivity|]. split; [vm_compute; reflexivity|].
    vm_compute. discriminate.
Qed.

(** *** Check suites: the summary of the jobs *)

Section Summary.

Variable E : Env.

Lemma eqb_success c : Py.eqb c (PStr "success") = is_success c.
Proof. now destruct c. Qed.

Lemma is_success_iff c : is_success c = true <-> c = PStr "success".
Proof.
  destruct c as [| | |s| |]; cbn; split; try discriminate.
  - intros H. apply String.eqb_eq in H. now subst.
  - intros [= ->]. reflexivity.
Qed.

Lemma well_formed_job_inv job :
  well_formed_job job = true ->
  Py.getitem job "conclusion" = Ok (conclusion_of job) /\
  Py.getitem job "name" = Ok (PStr (name_of job)).
Proof.
  unfold well_formed_job, conclusion_of, name_of.
  destruct (Py.getitem job "conclusion"); [|discriminate].
  destruct (Py.getitem job "name") as [[| | |s| |]|]; try discriminate.
  now split.
Qed.

Lemma count_failed_spec jobs :
  forallb well_formed_job jobs = true ->
  GitHubHelper.count_failed jobs = Ok (length (failed_jobs jobs)).
Proof.
  induction jobs as [|job jobs IH]; cbn; [reflexivity|].
  intros [Hjob Hrest]%andb_prop.
  destruct (well_formed_job_inv job Hjob) as [-> _].
  rewrite (IH Hrest), eqb_success.
  now destruct (is_success (conclusion_of job)).
Qed.

Lemma job_names_succeeded jobs :
  forallb well_formed_job jobs = true ->
  GitHubHelper.job_names true jobs
  = Ok (map (fun job => PStr (name_of job)) (succeeded_jobs jobs)).
Proof.
  induction jobs as [|job jobs IH]; cbn; [reflexivity|].
  intros [Hjob Hrest]%andb_prop.
  destruct (well_formed_job_inv job Hjob) as [-> ->].
  rewrite (IH Hrest), eqb_success.
  now destruct (is_success (conclusion_of job)).
Qed.

Lemma job_names_failed jobs :
  forallb well_formed_job jobs = true ->
  GitHubHelper.job_names false jobs
  = Ok (map (fun job => PStr (name_of job)) (failed_jobs jobs)).
Proof.
  induction jobs as [|job jobs IH]; cbn; [reflexivity|].
  intros [Hjob Hrest]%andb_prop.
  destruct (well_formed_job_inv job Hjob) as [-> ->].
  rewrite (IH Hrest), eqb_success.
  now destruct (is_success (conclusion_of job)).
Qed.

Lemma join_names sep (jobs : list pyval) :
  Py.join sep (map (fun job => PStr (name_of job)) jobs)
  = Ok (PyStr.join sep (map name_of jobs)).
Proof.
  unfold Py.join.
  assert (Py.strings_of (map (fun job => PStr (name_of job)) jobs)
          = Ok (map name_of jobs)) as ->; [|reflexivity].
  induction jobs as [|job jobs IH]; cbn; [reflexivity|]. now rewrite IH.
Qed.

Lemma join_names_cons sep job (jobs : list pyval) :
  Py.join sep (PStr (name_of job) :: map (fun job => PStr (name_of job)) jobs)
  = Ok (PyStr.join sep (map name_of (job :: jobs))).
Proof. apply (join_names sep (job :: jobs)). Qed.

Lemma succeeded_failed_length jobs :
  (length (succeeded_jobs jobs) + length (failed_jobs jobs) = length jobs)%nat.
Proof.
  unfold succeeded_jobs, failed_jobs.
  induction jobs as [|job jobs IH]; cbn; [reflexivity|].
  destruct (is_success (conclusion_of job)); cbn; lia.
Qed.

(** What [summarise_jobs] computes for well-formed jobs. *)
Lemma summarise_jobs_spec jobs minutes seconds :
  forallb well_formed_job jobs = true ->
  let failed := length (failed_jobs jobs) in
  let total := length jobs in
  exists s,
    GitHubHelper.summarise_jobs E jobs minutes seconds = Ok s /\
    GitHubHelper.build_success s = (failed =? 0)%nat /\
    (GitHubHelper.ci_colour s, GitHubHelper.reaction_emote s, GitHubHelper.build_result s)
    = (if (failed =? 0)%nat then
         (GitHubHelper._ci_passed_colour, emotes_passed (config E), "succeeded")
       else if (failed <? total)%nat then
         (GitHubHelper._ci_some_failed_colour, emotes_partial (config E),
          "partially failed")
       else (GitHubHelper._ci_failed_colour, emotes_failed (config E), "failed")) /\
    GitHubHelper.message s = summary_line failed total minutes seconds :: job_lines jobs.
Proof.
  intros Hwf failed total.
  unfold GitHubHelper.summarise_jobs.
  rewrite (count_failed_spec jobs Hwf). cbn [GitHubHelper.bind_res]. fold failed total.
  rewrite (job_names_succeeded jobs Hwf), (job_names_failed jobs Hwf).
  unfold job_lines, summary_line.
  destruct (failed =? 0)%nat eqn:Hzero; [|destruct (failed <? total)%nat eqn:Hpart];
    cbn [GitHubHelper.bind_res];
    destruct (succeeded_jobs jobs) as [|sj sjs]; cbn [map GitHubHelper.bind_res];
    rewrite ?join_names_cons; cbn [GitHubHelper.bind_res];
    destruct (failed_jobs jobs) as [|fj fjs]; cbn [map GitHubHelper.bind_res];
    rewrite ?join_names_cons; cbn [GitHubHelper.bind_res];
    (eexists; split; [reflexivity|]; repeat split).
Qed.

Lemma has_char_app c a b : has_char c (a +:+ b) = has_char c a || has_char c b.
Proof.
  induction a as [|x a IH]; [reflexivity|].
  change (String x a +:+ b) with (String x (a +:+ b)). cbn [has_char].
  now rewrite IH, orb_assoc.
Qed.

Lemma uint_no_newline d : has_char PyStr.nl (NilEmpty.string_of_uint d) = false.
Proof.
  induction d; cbn [NilEmpty.string_of_uint has_char]; rewrite ?IHd; reflexivity.
Qed.

Lemma of_Z_no_newline z : has_char PyStr.nl (PyStr.of_Z z) = false.
Proof.
  unfold PyStr.of_Z, NilZero.string_of_int, NilZero.string_of_uint.
  destruct (Z.to_int z) as [d|d]; destruct d;
    cbn [NilEmpty.string_of_uint has_char]; rewrite ?uint_no_newline; reflexivity.
Qed.

Lemma summary_line_one_line failed total minutes seconds :
  has_char PyStr.nl (summary_line failed total minutes seconds) = false.
Proof.
  unfold summary_line.
  destruct (failed =? 0)%nat; [|destruct (failed <? total)%nat];
    rewrite ?has_char_app, ?of_Z_no_newline; reflexivity.
Qed.

(** A decimal numeral does not start with an asterisk. *)
Lemma of_Z_not_starred z rest label :
  String.prefix (String "*" label) (PyStr.of_Z z +:+ rest) = false.
Proof.
  unfold PyStr.of_Z, NilZero.string_of_int, NilZero.string_of_uint.
  destruct (Z.to_int z) as [d|d]; destruct d; reflexivity.
Qed.

Lemma summary_line_not_starred failed total minutes seconds label :
  String.prefix (String "*" label) (summary_line failed total minutes seconds) = false.
Proof.
  unfold summary_line.
  destruct (failed =? 0)%nat; [|destruct (failed <? total)%nat];
    try reflexivity. apply of_Z_not_starred.
Qed.

Lemma has_line_succeeded jobs :
  has_line "**Succeeded:**" (job_lines jobs)
  = match succeeded_jobs jobs with [] => false | _ => true end.
Proof.
  unfold has_line, job_lines.
  destruct (succeeded_jobs jobs), (failed_jobs jobs); reflexivity.
Qed.

Lemma has_line_failed jobs :
  has_line "**Failed:**" (job_lines jobs)
  = match failed_jobs jobs with [] => false | _ => true end.
Proof.
  unfold has_line, job_lines.
  destruct (succeeded_jobs jobs), (failed_jobs jobs); reflexivity.
Qed.

(** C4, as the code has it.  With [F] failed jobs out of [T]: no failed
    job gives [succeeded], some but not all give [partially failed], all
    of at least one job give [failed], each with its colour and its
    configured emote.  The message starts with a summary of one line, has
    a [Succeeded:] line exactly when a job succeeded and a [Failed:] line
    exactly when a job failed. *)
Theorem ci_summary_classification jobs minutes seconds :
  forallb well_formed_job jobs = true ->
  let F := length (failed_jobs jobs) in
  let T := length jobs in
  exists s,
    GitHubHelper.summarise_jobs E jobs minutes seconds = Ok s /\
    (F = 0%nat ->
     GitHubHelper.build_result s = "succeeded" /\
     GitHubHelper.ci_colour s = GitHubHelper._ci_passed_colour /\
     GitHubHelper.reaction_emote s = emotes_passed (config E)) /\
    ((0 < F < T)%nat ->
     GitHubHelper.build_result s = "partially failed" /\
     GitHubHelper.ci_colour s = GitHubHelper._ci_some_failed_colour /\
     GitHubHelper.reaction_emote s = emotes_partial (config E)) /\
    (F = T -> (0 < T)%nat ->
     GitHubHelper.build_result s = "failed" /\
     GitHubHelper.ci_colour s = GitHubHelper._ci_failed_colour /\
     GitHubHelper.reaction_emote s = emotes_failed (config E)) /\
    (exists first rest,
        GitHubHelper.message s = first :: rest /\ has_char PyStr.nl first = false) /\
    (has_line "**Succeeded:**" (GitHubHelper.message s) = true <-> (F < T)%nat) /\
    (has_line "**Failed:**" (GitHubHelper.message s) = true <-> (0 < F)%nat).
Proof.
  intros Hwf F T.
  destruct (summarise_jobs_spec jobs minutes seconds Hwf)
    as (s & Hrun & _ & Hclass & Hmsg).
  fold F T in Hclass, Hmsg.
  pose proof (succeeded_failed_length jobs) as Hlen. fold F T in Hlen.
  exists s. split; [exact Hrun|].
  split; [|split; [|split; [|split; [|split]]]].
  - intros HF. rewrite HF in Hclass. cbn in Hclass. now injection Hclass as -> -> ->.
  - intros [Hpos Hlt].
    destruct (F =? 0)%nat eqn:H0; [apply Nat.eqb_eq in H0; lia|].
    destruct (F <? T)%nat eqn:H1; [|apply Nat.ltb_ge in H1; lia].
    now injection Hclass as -> -> ->.
  - intros HFT HT.
    destruct (F =? 0)%nat eqn:H0; [apply Nat.eqb_eq in H0; lia|].
    destruct (F <? T)%nat eqn:H1; [apply Nat.ltb_lt in H1; lia|].
    now injection Hclass as -> -> ->.
  - exists (summary_line F T minutes seconds), (job_lines jobs).
    split; [exact Hmsg | apply summary_line_one_line].
  - rewrite Hmsg. unfold has_line. cbn [existsb].
    rewrite (summary_line_not_starred F T minutes seconds "*Succeeded:**").
    cbn [orb]. fold (has_line "**Succeeded:**" (job_lines jobs)).
    rewrite has_line_succeeded.
    destruct (succeeded_jobs jobs); cbn in Hlen; split; intros H;
      try discriminate; try reflexivity; lia.
  - rewrite Hmsg. unfold has_line. cbn [existsb].
    rewrite (summary_line_not_starred F T minutes seconds "*Failed:**").
    cbn [orb]. fold (has_line "**Failed:**" (job_lines jobs)).
    rewrite has_line_failed. unfold F.
    destruct (failed_jobs jobs); cbn; split; intros H;
      try discriminate; try reflexivity; lia.
Qed.

Lemma failed_jobs_nil_iff jobs :
  failed_jobs jobs = [] <-> Forall (fun job => conclusion_of job = PStr "success") jobs.
Proof.
  induction jobs as [|job jobs IH]; cbn.
  - split; [constructor | reflexivity].
  - destruct (is_success (conclusion_of job)) eqn:Hs; cbn.
    + rewrite IH. apply is_success_iff in Hs. split.
      * now constructor.
      * intros H. now inversion H.
    + split; [discriminate|]. intros H. inversion H as [|? ? Hjob _]; subst.
      apply is_success_iff in Hjob. congruence.
Qed.

(** C10. A job counts as failed exactly when its conclusion is not the
    string [success]: this is the number the status is derived from and
    these are the jobs the [Failed:] line names; one job that succeeded
    and one that did not (skipped, cancelled, ...) make the run
    [partially failed]. *)
Theorem non_success_counts_as_failed jobs minutes seconds :
  forallb well_formed_job jobs = true ->
  (forall job, In job (failed_jobs jobs) <->
               In job jobs /\ conclusion_of job <> PStr "success") /\
  GitHubHelper.count_failed jobs = Ok (length (failed_jobs jobs)) /\
  GitHubHelper.job_names false jobs
  = Ok (map (fun job => PStr (name_of job)) (failed_jobs jobs)) /\
  exists s,
    GitHubHelper.summarise_jobs E jobs minutes seconds = Ok s /\
    (GitHubHelper.build_success s = true <->
     Forall (fun job => conclusion_of job = PStr "success") jobs) /\
    (failed_jobs jobs <> [] ->
     List.last (GitHubHelper.message s) EmptyString
     = "**Failed:** " +:+ PyStr.join ", " (map name_of (failed_jobs jobs))) /\
    ((exists job, In job jobs /\ conclusion_of job = PStr "success") ->
     (exists job, In job jobs /\ conclusion_of job <> PStr "success") ->
     GitHubHelper.build_result s = "partially failed").
Proof.
  intros Hwf.
  assert (forall job, In job (failed_jobs jobs) <->
                      In job jobs /\ conclusion_of job <> PStr "success") as Hin.
  { intros job. unfold failed_jobs. rewrite filter_In.
    split; intros [Hj Hc]; (split; [exact Hj|]).
    - intros Heq. apply is_success_iff in Heq. now rewrite Heq in Hc.
    - destruct (is_success (conclusion_of job)) eqn:Hs; [|reflexivity].
      apply is_success_iff in Hs. contradiction. }
  split; [exact Hin|].
  split; [now apply count_failed_spec|].
  split; [now apply job_names_failed|].
  destruct (summarise_jobs_spec jobs minutes seconds Hwf)
    as (s & Hrun & Hsucc & Hclass & Hmsg).
  exists s. split; [exact Hrun|]. split; [|split].
  - rewrite Hsucc, <- failed_jobs_nil_iff, Nat.eqb_eq.
    destruct (failed_jobs jobs); cbn; split; intros H; try reflexivity;
      try discriminate; lia.
  - intros Hne. rewrite Hmsg. unfold job_lines.
    destruct (failed_jobs jobs) as [|fj fjs]; [contradiction|].
    destruct (succeeded_jobs jobs); reflexivity.
  - intros (j1 & Hj1 & Hc1) (j2 & Hj2 & Hc2).
    assert (In j2 (failed_jobs jobs)) as Hf by (apply Hin; now split).
    assert (In j1 (succeeded_jobs jobs)) as Hs.
    { unfold succeeded_jobs. rewrite filter_In. split; [exact Hj1|].
      now apply is_success_iff. }
    pose proof (succeeded_failed_length jobs) as Hlen.
    destruct (failed_jobs jobs) as [|fj fjs] eqn:Hfj; [contradiction|].
    destruct (succeeded_jobs jobs) as [|sj sjs] eqn:Hsj; [contradiction|].
    cbn [length] in *.
    destruct (S (length fjs) =? 0)%nat eqn:H0; [apply Nat.eqb_eq in H0; lia|].
    destruct (S (length fjs) <? length jobs)%nat eqn:H1;
      [|apply Nat.ltb_ge in H1; lia].
    now injection Hclass as _ _ ->.
Qed.

End Summary.

(** C4, as stated, fails on the empty job list: all of its zero jobs
    failed, and the status is [succeeded]. *)
Lemma empty_job_list_is_succeeded :
  length (failed_jobs []) = length (@nil pyval) /\
  exists s,
    GitHubHelper.summarise_jobs Scenario.unreachable [] 1 15 = Ok s /\
    GitHubHelper.build_result s = "succeeded" /\
    GitHubHelper.build_result s <> "failed" /\
    GitHubHelper.message s = ["All jobs succeeded after 1m15s"].
Proof.
  split; [reflexivity|]. eexists. split; [reflexivity|].
  cbn. repeat split. discriminate.
Qed.

(** One failed job out of three. *)
Lemma ci_summary_classification_witness :
  exists s,
    GitHubHelper.summarise_jobs Scenario.unreachable Scenario.jobs_with_skipped 1 15
    = Ok s /\
    GitHubHelper.build_result s = "partially failed" /\
    GitHubHelper.message s
    = ["1 out of 3 jobs failed after 1m15s"; "**Succeeded:** macos64, win64";
       "**Failed:** clang-format"].
Proof.
  destruct (ci_summary_classification Scenario.unreachable Scenario.jobs_with_skipped
              1 15 eq_refl) as (s & Hrun & _ & Hpartial & _).
  exists s. split; [exact Hrun|]. split.
  - apply Hpartial. cbn. lia.
  - vm_compute in Hrun. injection Hrun as <-. reflexivity.
Defined.

(** Two jobs succeeded and one was skipped: one failed job, named on the
    [Failed:] line, and a run that partially failed. *)
Lemma non_success_counts_as_failed_witness :
  GitHubHelper.count_failed Scenario.jobs_with_skipped = Ok 1%nat /\
  GitHubHelper.job_names false Scenario.jobs_with_skipped = Ok [PStr "clang-format"] /\
  exists s,
    GitHubHelper.summarise_jobs Scenario.unreachable Scenario.jobs_with_skipped 1 15
    = Ok s /\
    GitHubHelper.build_success s = false /\
    GitHubHelper.build_result s = "partially failed".
Proof.
  destruct (non_success_counts_as_failed Scenario.unreachable
              Scenario.jobs_with_skipped 1 15 eq_refl)
    as (_ & Hcount & Hnames & s & Hrun & Hsucc & _ & Hpartial).
  split; [exact Hcount|]. split; [exact Hnames|].
  exists s. split; [exact Hrun|]. split.
  - destruct (GitHubHelper.build_success s); [|reflexivity].
    destruct Hsucc as [Hall _]. specialize (Hall eq_refl).
    inversion Hall as [|? ? _ Hrest]. inversion Hrest as [|? ? _ Hlast].
    inversion Hlast as [|? ? Hskipped _]. discriminate Hskipped.
  - apply Hpartial.
    + exists (Scenario.job "macos64" (PStr "success")). split; [now left | reflexivity].
    + exists (Scenario.job "clang-format" (PStr "skipped")).
      split; [right; right; now left | discriminate].
Defined.

(** *** Check suites: fetching, aggregation and the nightly slots *)

Section CheckSuite.

Variable E : Env.

Lemma get_with_retry_keeps_state url params n interval :
  keeps_state (GitHubHelper.get_with_retry E url params n interval).
Proof.
  induction n as [|n IH]; intros w.
  - reflexivity.
  - destruct (attempt_value (http E (n_get w) (retry_request E url params))) eqn:Hv.
    + now rewrite (get_with_retry_step_ok E url params interval n w p Hv).
    + rewrite (get_with_retry_step_failed E url params interval n w Hv).
      now rewrite IH.
Qed.

Lemma keeps_state_ret {A} (a : A) : keeps_state (ret a).
Proof. intros w. reflexivity. Qed.

Lemma keeps_state_lift {A} (r : res A) : keeps_state (lift r).
Proof. intros w. reflexivity. Qed.

Lemma keeps_state_logger lvl msg : keeps_state (logger lvl msg).
Proof. intros w. reflexivity. Qed.

Lemma keeps_state_bind {A B} (m : M A) (k : A -> M B) :
  keeps_state m -> (forall a, keeps_state (k a)) -> keeps_state (bind m k).
Proof.
  intros Hm Hk w. unfold bind. specialize (Hm w).
  destruct (m w) as [[a|e] w1]; cbn in *; [|assumption].
  now rewrite Hk.
Qed.

Lemma none_keeps_state_of_keeps {A} (m : M (option A)) :
  keeps_state m -> none_keeps_state m.
Proof. intros Hm w _. apply Hm. Qed.

Lemma none_keeps_state_bind {A B} (m : M A) (k : A -> M (option B)) :
  keeps_state m -> (forall a, none_keeps_state (k a)) -> none_keeps_state (bind m k).
Proof.
  intros Hm Hk w. unfold bind. specialize (Hm w).
  destruct (m w) as [[a|e] w1]; cbn in *; [|discriminate].
  intros Hnone. now rewrite Hk.
Qed.

Lemma none_keeps_state_never {A} (m : M (option A)) :
  never_none m -> none_keeps_state m.
Proof. intros Hm w Hnone. now destruct (Hm w). Qed.

Lemma never_none_bind {A B} (m : M A) (k : A -> M (option B)) :
  (forall a, never_none (k a)) -> never_none (bind m k).
Proof.
  intros Hk w. unfold bind.
  destruct (m w) as [[a|e] w1]; cbn; [apply Hk | discriminate].
Qed.

Lemma never_none_ret_some {A} (a : A) : never_none (ret (Some a)).
Proof. intros w. discriminate. Qed.

Ltac keeps :=
  repeat first
    [ apply keeps_state_ret | apply keeps_state_lift | apply keeps_state_logger
    | apply get_with_retry_keeps_state
    | apply keeps_state_bind; [|intros ?] ].

Ltac none_keeps :=
  repeat match goal with
    | |- none_keeps_state (ret None) => apply none_keeps_state_of_keeps; keeps
    | |- none_keeps_state (bind (logger _ _) _) => apply none_keeps_state_of_keeps; keeps
    | |- none_keeps_state (bind (lift _) _) =>
        apply none_keeps_state_bind; [keeps | intros ?]
    | |- none_keeps_state (bind (GitHubHelper.get_with_retry _ _ _ _ _) _) =>
        apply none_keeps_state_bind; [keeps | intros ?]
    | |- none_keeps_state (bind (for_each _ _) _) =>
        apply none_keeps_state_never, never_none_bind; intros ?;
        apply never_none_bind; intros ?; apply never_none_ret_some
    | |- none_keeps_state (if ?b then _ else _) => destruct b
    | |- none_keeps_state (match ?x with _ => _ end) => destruct x
    end.

(** Whenever [get_ci_results] returns [None], the nightly slots are what
    they were. *)
Lemma get_ci_results_none_keeps_state event_body :
  none_keeps_state (GitHubHelper.get_ci_results E event_body).
Proof.
  unfold GitHubHelper.get_ci_results. cbv zeta. none_keeps.
Qed.

Lemma well_formed_run_inv run :
  well_formed_run E run = true ->
  exists head_sha updated_at finished created_at started repository repo branch
         web_url jobs_url artifacts_url run_number,
    Py.getitem run "head_sha" = Ok head_sha /\
    Py.getitem run "updated_at" = Ok updated_at /\
    GitHubHelper.parse E updated_at = Ok finished /\
    Py.getitem run "created_at" = Ok created_at /\
    GitHubHelper.parse E created_at = Ok started /\
    Py.getitem run "repository" = Ok repository /\
    Py.getitem repository "full_name" = Ok repo /\
    Py.getitem run "head_branch" = Ok branch /\
    Py.getitem run "html_url" = Ok web_url /\
    Py.getitem run "jobs_url" = Ok jobs_url /\
    Py.getitem run "artifacts_url" = Ok artifacts_url /\
    Py.getitem run "run_number" = Ok run_number.
Proof.
  unfold well_formed_run.
  destruct (Py.getitem run "head_sha") as [x1|] eqn:H1; [|discriminate].
  destruct (Py.getitem run "updated_at") as [x2|] eqn:H2; [|discriminate]. cbn.
  destruct (GitHubHelper.parse E x2) as [x3|] eqn:H3; [|discriminate].
  destruct (Py.getitem run "created_at") as [x4|] eqn:H4; [|discriminate]. cbn.
  destruct (GitHubHelper.parse E x4) as [x5|] eqn:H5; [|discriminate].
  destruct (Py.getitem run "repository") as [x6|] eqn:H6; [|discriminate]. cbn.
  destruct (Py.getitem x6 "full_name") as [x7|] eqn:H7; [|discriminate].
  destruct (Py.getitem run "head_branch") as [x8|] eqn:H8; [|discriminate].
  destruct (Py.getitem run "html_url") as [x9|] eqn:H9; [|discriminate].
  destruct (Py.getitem run "jobs_url") as [x10|] eqn:H10; [|discriminate].
  destruct (Py.getitem run "artifacts_url") as [x11|] eqn:H11; [|discriminate].
  destruct (Py.getitem run "run_number") as [x12|] eqn:H12; [|discriminate].
  intros _. exists x1, x2, x3, x4, x5, x6, x7, x8, x9, x10, x11, x12.
  repeat split; assumption || reflexivity.
Qed.

Lemma check_suite_id_of_inv event_body check_suite_id :
  check_suite_id_of event_body = Ok check_suite_id ->
  exists check_suite,
    Py.getitem event_body "check_suite" = Ok check_suite /\
    Py.getitem check_suite "id" = Ok check_suite_id.
Proof.
  unfold check_suite_id_of.
  destruct (Py.getitem event_body "check_suite") as [cs|]; [|discriminate].
  cbn. intros H. now exists cs.
Qed.

Lemma find_run_none check_suite_id runs :
  Forall (fun run => exists c, Py.getitem run "check_suite_id" = Ok c /\
                               Py.eqb c check_suite_id = false) runs ->
  GitHubHelper.find_run check_suite_id runs = Ok None.
Proof.
  induction 1 as [|run runs (c & Hc & Hne) _ IH]; cbn; [reflexivity|].
  now rewrite Hc, Hne.
Qed.

(** Unfolds the monadic layer of [get_ci_results]. *)
Ltac ci_open :=
  unfold GitHubHelper.get_ci_results; cbv zeta; unfold bind, lift, ret.

(** Uses one equation of the path and reduces the step it decides. *)
Ltac ci_step H := rewrite H; cbv beta iota.

Ltac ci_fetch H :=
  unfold fetch, fetch_runs, runs_url, runs_params in H; rewrite H; cbv beta iota.

(** Runs [get_ci_results] up to the fetch of the jobs. *)
Ltac ci_until_jobs Hsel :=
  let Hid := fresh "Hid" in
  let runs := fresh "runs" in
  let rs := fresh "rs" in
  let Hfetch := fresh "Hfetch" in
  let Htruthy := fresh "Htruthy" in
  let Hruns := fresh "Hruns" in
  let Hfind := fresh "Hfind" in
  let Hwf := fresh "Hwf" in
  let cs := fresh "cs" in
  let Hcs := fresh "Hcs" in
  destruct Hsel as (Hid & runs & rs & Hfetch & Htruthy & Hruns & Hfind & Hwf);
  destruct (check_suite_id_of_inv _ _ Hid) as (cs & Hcs & Hid');
  destruct (well_formed_run_inv _ Hwf)
    as (head_sha & updated_at & finished & created_at & started & repository & repo
        & branch & web_url & jobs_url' & artifacts_url' & run_number
        & Hsha & Hupd & Hfin & Hcre & Hsta & Hrep & Hfull & Hbranch & Hweb
        & Hjurl & Haurl & Hnum);
  ci_open; ci_step Hcs; ci_step Hid'; ci_fetch Hfetch;
  ci_step Htruthy; cbn [negb]; cbv beta iota;
  ci_step Hruns; cbn [Py.as_list]; cbv beta iota; ci_step Hfind;
  ci_step Hsha; ci_step Hupd; ci_step Hfin; ci_step Hcre; ci_step Hsta;
  ci_step Hrep; ci_step Hfull; ci_step Hbranch; ci_step Hweb.

(** Stage 1: the fetch of the workflow runs gave nothing. *)
Lemma ci_runs_failed event_body w check_suite_id runs w1 :
  check_suite_id_of event_body = Ok check_suite_id ->
  fetch_runs E w = (Ok runs, w1) ->
  Py.truthy runs = false ->
  GitHubHelper.get_ci_results E event_body w
  = (Ok None, logged_error w1 "Getting GitHub workflow runs failed.").
Proof.
  intros Hid Hfetch Hfalsy.
  destruct (check_suite_id_of_inv _ _ Hid) as (cs & Hcs & Hid').
  ci_open. ci_step Hcs. ci_step Hid'. ci_fetch Hfetch. ci_step Hfalsy.
  reflexivity.
Qed.

(** Stage 1: no fetched run belongs to the check suite. *)
Lemma ci_run_not_found event_body w check_suite_id runs workflow_runs w1 :
  check_suite_id_of event_body = Ok check_suite_id ->
  fetch_runs E w = (Ok runs, w1) ->
  Py.truthy runs = true ->
  Py.getitem runs "workflow_runs" = Ok (PList workflow_runs) ->
  Forall (fun run => exists c, Py.getitem run "check_suite_id" = Ok c /\
                               Py.eqb c check_suite_id = false) workflow_runs ->
  GitHubHelper.get_ci_results E event_body w
  = (Ok None,
     logged_error w1 "Could not find check suite id in workflow runs failed.").
Proof.
  intros Hid Hfetch Htruthy Hruns Hnone.
  destruct (check_suite_id_of_inv _ _ Hid) as (cs & Hcs & Hid').
  ci_open. ci_step Hcs. ci_step Hid'. ci_fetch Hfetch. ci_step Htruthy.
  cbn [negb]. cbv beta iota. ci_step Hruns. cbn [Py.as_list]. cbv beta iota.
  rewrite (find_run_none _ _ Hnone). reflexivity.
Qed.

(** Stage 3: the fetch of the jobs gave nothing. *)
Lemma ci_jobs_failed event_body w check_suite_id run w1 jobs_url jobs w2 :
  run_selected E event_body w check_suite_id run w1 ->
  Py.getitem run "jobs_url" = Ok jobs_url ->
  fetch E jobs_url w1 = (Ok jobs, w2) ->
  Py.truthy jobs = false ->
  GitHubHelper.get_ci_results E event_body w
  = (Ok None, logged_error w2 "Getting GitHub workflow run jobs failed.").
Proof.
  intros Hsel Hurl Hfetch Hfalsy.
  ci_until_jobs Hsel.
  ci_step Hurl. ci_fetch Hfetch. ci_step Hfalsy. reflexivity.
Qed.

Lemma assoc_set_other k k' v d :
  String.eqb k k' = false -> Py.assoc k (Py.assoc_set k' v d) = Py.assoc k d.
Proof.
  intros Hne. induction d as [|[k0 v0] d IH]; cbn.
  - now rewrite Hne.
  - destruct (String.eqb k' k0) eqn:Hk'; cbn.
    + apply String.eqb_eq in Hk'. subst k0. now rewrite Hne.
    + now rewrite IH.
Qed.

Lemma with_state_same w : with_state w (state w) = w.
Proof. now destruct w. Qed.

Lemma all_succeeded_failed_jobs jobs :
  (length (failed_jobs jobs) =? 0)%nat = all_succeeded jobs.
Proof.
  induction jobs as [|job jobs IH]; cbn; [reflexivity|].
  destruct (is_success (conclusion_of job)); cbn; [exact IH | reflexivity].
Qed.

(** One turn of the loop over the artifacts. *)
Lemma process_artifact_spec check_suite_id success branch artifact w :
  well_formed_artifact artifact = true ->
  GitHubHelper.process_artifact check_suite_id success branch artifact w
  = (Ok (artifact_entry check_suite_id artifact),
     with_state w (if success && Py.eqb branch (PStr "master")
                   then nightly_update check_suite_id (state w) artifact
                   else state w)).
Proof.
  unfold well_formed_artifact, GitHubHelper.process_artifact, artifact_entry,
    nightly_update, nightly_slot, with_download_url, name_of.
  destruct artifact as [| | | | |d]; try discriminate.
  cbn [Py.getitem Py.setitem].
  destruct (Py.assoc "id" d) as [artifact_id|] eqn:Hidd; [|discriminate].
  destruct (Py.assoc "name" d) as [[| | |n| |]|] eqn:Hname; try discriminate.
  intros _. unfold bind, lift, ret. cbv beta iota.
  match goal with
  | |- context [Py.assoc_set "archive_download_url" ?u d] => set (download_url := u)
  end.
  assert (Py.getitem (PDict (Py.assoc_set "archive_download_url" download_url d))
            "name" = Ok (PStr n)) as Hn.
  { cbn [Py.getitem]. rewrite assoc_set_other by reflexivity. now rewrite Hname. }
  assert (Py.getitem (PDict (Py.assoc_set "archive_download_url" download_url d))
            "archive_download_url" = Ok download_url) as Hu.
  { cbn [Py.getitem]. now rewrite assoc_set_same. }
  rewrite !Hn, !Hu. cbv beta iota. cbn [Py.contains].
  destruct (success && Py.eqb branch (PStr "master")).
  - destruct (PyStr.contains "macOS" n); [reflexivity|].
    destruct (PyStr.contains "win64" n); [reflexivity|].
    cbv beta iota. now rewrite with_state_same.
  - cbv beta iota. now rewrite with_state_same.
Qed.

(** The whole loop over the artifacts. *)
Lemma process_artifacts_spec check_suite_id success branch artifacts : forall w,
  forallb well_formed_artifact artifacts = true ->
  for_each (GitHubHelper.process_artifact check_suite_id success branch) artifacts w
  = (Ok (map (artifact_entry check_suite_id) artifacts),
     with_state w (if success && Py.eqb branch (PStr "master")
                   then fold_left (nightly_update check_suite_id) artifacts (state w)
                   else state w)).
Proof.
  induction artifacts as [|a artifacts IH]; intros w; cbn [for_each forallb].
  - intros _. unfold ret. cbn. now destruct (_ && _); rewrite with_state_same.
  - intros [Ha Hrest]%andb_prop. unfold bind.
    rewrite (process_artifact_spec _ _ _ _ _ Ha), (IH _ Hrest).
    unfold ret. cbn. now destruct (_ && _).
Qed.

(** Stage 5: the fetch of the artifacts gave nothing. *)
Lemma ci_artifacts_failed event_body w check_suite_id run w1 jobs w2
      artifacts_url artifacts w3 :
  run_selected E event_body w check_suite_id run w1 ->
  jobs_listed E run w1 jobs w2 ->
  Py.getitem run "artifacts_url" = Ok artifacts_url ->
  fetch E artifacts_url w2 = (Ok artifacts, w3) ->
  Py.truthy artifacts = false ->
  GitHubHelper.get_ci_results E event_body w
  = (Ok None, logged_error w3 "Getting GitHub workflow run artifacts failed.").
Proof.
  intros Hsel (jobs_url & fetched & Hurl & Hfetch & Htruthy & Hjobs & Hwfj)
         Haurl' Hafetch Hfalsy.
  ci_until_jobs Hsel.
  ci_step Hurl. ci_fetch Hfetch. ci_step Htruthy. cbn [negb]. cbv beta iota.
  ci_step Hjobs. cbn [Py.as_list]. cbv beta iota.
  match goal with
  | |- context [GitHubHelper.summarise_jobs E jobs ?m ?s] =>
      destruct (summarise_jobs_spec E jobs m s Hwfj) as (summary & Hsum & _)
  end.
  ci_step Hsum. ci_step Haurl'. ci_fetch Hafetch. ci_step Hfalsy.
  reflexivity.
Qed.

Lemma fetched_keeps_state {A} (m : M A) w r w1 :
  keeps_state m -> m w = (r, w1) -> state w1 = state w.
Proof. intros Hm Hrun. specialize (Hm w). now rewrite Hrun in Hm. Qed.

(** All five stages succeed: the call returns a result, and the nightly
    slots are those of the loop over the artifacts. *)
Lemma ci_completed event_body w check_suite_id run w1 jobs w2 artifacts w3 :
  run_selected E event_body w check_suite_id run w1 ->
  jobs_listed E run w1 jobs w2 ->
  artifacts_listed E run w2 artifacts w3 ->
  exists result,
    GitHubHelper.get_ci_results E event_body w
    = (Ok (Some result),
       with_state w3
         (if all_succeeded jobs && Py.eqb (branch_of run) (PStr "master")
          then fold_left (nightly_update check_suite_id) artifacts (state w)
          else state w)).
Proof.
  intros Hsel (jobs_url & fetched & Hurl & Hfetch & Htruthy & Hjobs & Hwfj)
         (artifacts_url & afetched & Haurl' & Hafetch & Hatruthy & Harts & Hwfa).
  assert (state w3 = state w) as Hstate.
  { destruct Hsel as (_ & runs & rs & Hrfetch & _).
    rewrite (fetched_keeps_state _ _ _ _ (get_with_retry_keeps_state _ _ _ _) Hafetch).
    rewrite (fetched_keeps_state _ _ _ _ (get_with_retry_keeps_state _ _ _ _) Hfetch).
    apply (fetched_keeps_state _ _ _ _ (get_with_retry_keeps_state _ _ _ _) Hrfetch). }
  unfold branch_of.
  ci_until_jobs Hsel.
  ci_step Hurl. ci_fetch Hfetch. ci_step Htruthy. cbn [negb]. cbv beta iota.
  ci_step Hjobs. cbn [Py.as_list]. cbv beta iota.
  match goal with
  | |- context [GitHubHelper.summarise_jobs E jobs ?m ?s] =>
      destruct (summarise_jobs_spec E jobs m s Hwfj) as (summary & Hsum & Hsucc & _)
  end.
  ci_step Hsum. ci_step Haurl'. ci_fetch Hafetch. ci_step Hatruthy.
  cbn [negb]. cbv beta iota. ci_step Harts. cbn [Py.as_list]. cbv beta iota.
  rewrite (process_artifacts_spec _ _ _ _ _ Hwfa). cbv beta iota.
  ci_step Hnum.
  rewrite Hsucc, all_succeeded_failed_jobs. cbn [state with_state]. rewrite Hstate.
  eexists. reflexivity.
Qed.

(** The five attempts at the workflow runs all fail: a transport failure
    ends in [None], not in an exception. *)
Lemma ci_unreachable event_body w check_suite_id :
  check_suite_id_of event_body = Ok check_suite_id ->
  (forall i, (i < 5)%nat ->
     attempt_value (http E (n_get w + i)
                      (retry_request E (runs_url E) (Some runs_params))) = None) ->
  fst (GitHubHelper.get_ci_results E event_body w) = Ok None.
Proof.
  intros Hid Hdown.
  pose proof (get_with_retry_exhausted E (runs_url E) (Some runs_params)
                GitHubHelper.default_retry_interval 5 w Hdown) as Hfetch.
  now rewrite (ci_runs_failed event_body w check_suite_id failure_signal _ Hid Hfetch).
Qed.

(** C6. [get_ci_results] gives up without raising: when the five attempts
    at the workflow runs fail, when that fetch returns the failure signal
    (or anything falsy), when no fetched run has the check suite id of the
    event, when the fetch of the jobs fails and when the fetch of the
    artifacts fails, it logs an error and returns [None]; and whenever it
    returns [None] the nightly slots are untouched. *)
Theorem get_ci_results_gives_up event_body w check_suite_id :
  check_suite_id_of event_body = Ok check_suite_id ->
  ((forall i, (i < 5)%nat ->
      attempt_value (http E (n_get w + i)
                       (retry_request E (runs_url E) (Some runs_params))) = None) ->
   fst (GitHubHelper.get_ci_results E event_body w) = Ok None) /\
  (forall runs w1,
     fetch_runs E w = (Ok runs, w1) ->
     Py.truthy runs = false ->
     GitHubHelper.get_ci_results E event_body w
     = (Ok None, logged_error w1 "Getting GitHub workflow runs failed.")) /\
  (forall runs workflow_runs w1,
     fetch_runs E w = (Ok runs, w1) ->
     Py.truthy runs = true ->
     Py.getitem runs "workflow_runs" = Ok (PList workflow_runs) ->
     Forall (fun run => exists c, Py.getitem run "check_suite_id" = Ok c /\
                                  Py.eqb c check_suite_id = false) workflow_runs ->
     GitHubHelper.get_ci_results E event_body w
     = (Ok None,
        logged_error w1 "Could not find check suite id in workflow runs failed.")) /\
  (forall run w1 jobs_url jobs w2,
     run_selected E event_body w check_suite_id run w1 ->
     Py.getitem run "jobs_url" = Ok jobs_url ->
     fetch E jobs_url w1 = (Ok jobs, w2) ->
     Py.truthy jobs = false ->
     GitHubHelper.get_ci_results E event_body w
     = (Ok None, logged_error w2 "Getting GitHub workflow run jobs failed.")) /\
  (forall run w1 jobs w2 artifacts_url artifacts w3,
     run_selected E event_body w check_suite_id run w1 ->
     jobs_listed E run w1 jobs w2 ->
     Py.getitem run "artifacts_url" = Ok artifacts_url ->
     fetch E artifacts_url w2 = (Ok artifacts, w3) ->
     Py.truthy artifacts = false ->
     GitHubHelper.get_ci_results E event_body w
     = (Ok None, logged_error w3 "Getting GitHub workflow run artifacts failed.")) /\
  (fst (GitHubHelper.get_ci_results E event_body w) = Ok None ->
   state (snd (GitHubHelper.get_ci_results E event_body w)) = state w).
Proof.
  intros Hid. split; [|split; [|split; [|split; [|split]]]].
  - now apply ci_unreachable with check_suite_id.
  - intros runs w1 Hfetch Hfalsy.
    exact (ci_runs_failed _ _ _ _ _ Hid Hfetch Hfalsy).
  - intros runs workflow_runs w1 Hfetch Htruthy Hruns Hnone.
    exact (ci_run_not_found _ _ _ _ _ _ Hid Hfetch Htruthy Hruns Hnone).
  - intros run w1 jobs_url jobs w2 Hsel Hurl Hfetch Hfalsy.
    exact (ci_jobs_failed _ _ _ _ _ _ _ _ Hsel Hurl Hfetch Hfalsy).
  - intros run w1 jobs w2 artifacts_url artifacts w3 Hsel Hjobs Hurl Hfetch Hfalsy.
    exact (ci_artifacts_failed _ _ _ _ _ _ _ _ _ _ Hsel Hjobs Hurl Hfetch Hfalsy).
  - apply get_ci_results_none_keeps_state.
Qed.

(** C3, as the code has it.  [get_ci_results] leaves the nightly slots
    alone whenever it returns [None]; when it runs to its end, the slots
    change only if every job concluded with [success] and the branch of
    the run is [master], and then artifact by artifact: a name with
    [macOS] sets the slot [nightly_macos] and nothing else, a name with
    [win64] and without [macOS] sets the slot [nightly_windows] and
    nothing else, any other name sets nothing. *)
Theorem nightly_slots_updated event_body w :
  (fst (GitHubHelper.get_ci_results E event_body w) = Ok None ->
   state (snd (GitHubHelper.get_ci_results E event_body w)) = state w) /\
  (forall check_suite_id run w1 jobs w2 artifacts w3,
     run_selected E event_body w check_suite_id run w1 ->
     jobs_listed E run w1 jobs w2 ->
     artifacts_listed E run w2 artifacts w3 ->
     exists result,
       GitHubHelper.get_ci_results E event_body w
       = (Ok (Some result),
          with_state w3
            (if all_succeeded jobs && Py.eqb (branch_of run) (PStr "master")
             then fold_left (nightly_update check_suite_id) artifacts (state w)
             else state w))) /\
  (forall check_suite_id (slots : gmap string pyval) artifact,
     let stored := with_download_url check_suite_id artifact in
     let slots' := nightly_update check_suite_id slots artifact in
     (PyStr.contains "macOS" (name_of artifact) = true ->
      slots' = <["nightly_macos" := stored]> slots /\
      slots' !! "nightly_windows" = slots !! "nightly_windows") /\
     (PyStr.contains "macOS" (name_of artifact) = false ->
      PyStr.contains "win64" (name_of artifact) = true ->
      slots' = <["nightly_windows" := stored]> slots /\
      slots' !! "nightly_macos" = slots !! "nightly_macos") /\
     (PyStr.contains "macOS" (name_of artifact) = false ->
      PyStr.contains "win64" (name_of artifact) = false ->
      slots' = slots)).
Proof.
  split; [apply get_ci_results_none_keeps_state|].
  split.
  { intros check_suite_id run w1 jobs w2 artifacts w3 Hsel Hjobs Harts.
    exact (ci_completed _ _ _ _ _ _ _ _ _ Hsel Hjobs Harts). }
  intros check_suite_id slots artifact stored slots'.
  subst stored slots'. unfold nightly_update, nightly_slot.
  split; [|split].
  - intros Hmac. rewrite Hmac. split; [reflexivity|]. now rewrite lookup_insert_ne.
  - intros Hmac Hwin. rewrite Hmac, Hwin. split; [reflexivity|].
    now rewrite lookup_insert_ne.
  - intros Hmac Hwin. now rewrite Hmac, Hwin.
Qed.

End CheckSuite.

(** The run of the scenarios is found as soon as it is fetched. *)
Lemma scenario_run_selected (E : Env) runs :
  fetch_runs E Scenario.fresh = (Ok runs, Scenario.after_runs E) ->
  Py.getitem runs "workflow_runs"
  = Ok (PList [Scenario.run_of 1234 "master"]) ->
  dateutil_parse E = Scenario.parse_seconds ->
  run_selected E Scenario.check_suite_event Scenario.fresh (PInt 1234)
    (Scenario.run_of 1234 "master") (Scenario.after_runs E).
Proof.
  intros Hfetch Hruns Hparse. split; [reflexivity|].
  exists runs, [Scenario.run_of 1234 "master"].
  split; [exact Hfetch|]. split.
  { destruct runs as [| | | | |[|kv d]]; try discriminate. reflexivity. }
  split; [exact Hruns|]. split; [reflexivity|].
  unfold well_formed_run, GitHubHelper.parse. cbn. now rewrite Hparse.
Qed.

(** The four ways to give up: no network at all, the runs of another
    check suite, no network after the runs, no network after the jobs. *)
Lemma get_ci_results_gives_up_witness :
  GitHubHelper.get_ci_results Scenario.unreachable Scenario.check_suite_event
    Scenario.fresh
  = (Ok None, logged_error (Scenario.after_runs Scenario.unreachable)
                "Getting GitHub workflow runs failed.") /\
  GitHubHelper.get_ci_results Scenario.other_suite Scenario.check_suite_event
    Scenario.fresh
  = (Ok None, logged_error (Scenario.after_runs Scenario.other_suite)
                "Could not find check suite id in workflow runs failed.") /\
  GitHubHelper.get_ci_results Scenario.jobs_down Scenario.check_suite_event
    Scenario.fresh
  = (Ok None, logged_error (Scenario.after_jobs Scenario.jobs_down)
                "Getting GitHub workflow run jobs failed.") /\
  GitHubHelper.get_ci_results Scenario.artifacts_down Scenario.check_suite_event
    Scenario.fresh
  = (Ok None, logged_error (Scenario.after_artifacts Scenario.artifacts_down)
                "Getting GitHub workflow run artifacts failed.").
Proof.
  split; [|split; [|split]].
  - apply (proj1 (proj2 (get_ci_results_gives_up Scenario.unreachable
                           Scenario.check_suite_event Scenario.fresh (PInt 1234)
                           eq_refl))
             PNone); vm_compute; reflexivity.
  - apply (proj1 (proj2 (proj2 (get_ci_results_gives_up Scenario.other_suite
                                  Scenario.check_suite_event Scenario.fresh (PInt 1234)
                                  eq_refl)))
             (PDict [("total_count", PInt 2);
                     ("workflow_runs", PList [Scenario.run_of 999 "master"])])
             [Scenario.run_of 999 "master"]); try (vm_compute; reflexivity).
    repeat constructor. exists (PInt 999). split; vm_compute; reflexivity.
  - apply (proj1 (proj2 (proj2 (proj2 (get_ci_results_gives_up Scenario.jobs_down
                                         Scenario.check_suite_event Scenario.fresh
                                         (PInt 1234) eq_refl))))
             (Scenario.run_of 1234 "master") (Scenario.after_runs Scenario.jobs_down)
             (PStr "https://api.github.com/runs/77/jobs") PNone);
      try (vm_compute; reflexivity).
    apply (scenario_run_selected Scenario.jobs_down
             (PDict [("total_count", PInt 2);
                     ("workflow_runs", PList [Scenario.run_of 1234 "master"])]));
      vm_compute; reflexivity.
  - apply (proj1 (proj2 (proj2 (proj2 (proj2
             (get_ci_results_gives_up Scenario.artifacts_down
                Scenario.check_suite_event Scenario.fresh (PInt 1234) eq_refl)))))
             (Scenario.run_of 1234 "master")
             (Scenario.after_runs Scenario.artifacts_down)
             Scenario.jobs_with_skipped
             (Scenario.after_jobs Scenario.artifacts_down)
             (PStr "https://api.github.com/runs/77/artifacts") PNone);
      try (vm_compute; reflexivity).
    + apply (scenario_run_selected Scenario.artifacts_down
               (PDict [("total_count", PInt 2);
                       ("workflow_runs", PList [Scenario.run_of 1234 "master"])]));
        vm_compute; reflexivity.
    + exists (PStr "https://api.github.com/runs/77/jobs"),
             (PDict [("total_count", PInt 3);
                     ("jobs", PList Scenario.jobs_with_skipped)]).
      repeat split; vm_compute; reflexivity.
Defined.

(** A successful run on [master] with a macOS, a win64 and a linux
    artifact: the first two reach their slots. *)
Lemma nightly_slots_updated_witness :
  exists result,
    GitHubHelper.get_ci_results Scenario.nightly Scenario.check_suite_event
      Scenario.fresh
    = (Ok (Some result),
       with_state (Scenario.after_artifacts Scenario.nightly)
         (<["nightly_windows" :=
              with_download_url (PInt 1234)
                (Scenario.artifact 2 "OBS-Studio-27.0.0-win64.zip")]>
            (<["nightly_macos" :=
                 with_download_url (PInt 1234)
                   (Scenario.artifact 1 "OBS-Studio-27.0.0-macOS.dmg")]> ∅))).
Proof.
  destruct (proj1 (proj2 (nightly_slots_updated Scenario.nightly
                            Scenario.check_suite_event Scenario.fresh))
              (PInt 1234) (Scenario.run_of 1234 "master")
              (Scenario.after_runs Scenario.nightly) Scenario.jobs_all_passed
              (Scenario.after_jobs Scenario.nightly) Scenario.nightly_artifacts
              (Scenario.after_artifacts Scenario.nightly)) as (result & Hrun).
  - split; [vm_compute; reflexivity|].
    exists (PDict [("total_count", PInt 2);
                   ("workflow_runs", PList [Scenario.run_of 999 "master";
                                            Scenario.run_of 1234 "master"])]),
           [Scenario.run_of 999 "master"; Scenario.run_of 1234 "master"].
    repeat split; vm_compute; reflexivity.
  - exists (PStr "https://api.github.com/runs/77/jobs"),
           (PDict [("total_count", PInt 3); ("jobs", PList Scenario.jobs_all_passed)]).
    repeat split; vm_compute; reflexivity.
  - exists (PStr "https://api.github.com/runs/77/artifacts"),
           (PDict [("total_count", PInt 3);
                   ("artifacts", PList Scenario.nightly_artifacts)]).
    repeat split; vm_compute; reflexivity.
  - exists result. rewrite Hrun. reflexivity.
Defined.

(** C3, as stated, fails: the name of this artifact contains [win64], the
    run succeeded on [master], and the slot [nightly_windows] is not
    written; the artifact goes to [nightly_macos]. *)
Lemma artifact_for_both_platforms_sets_macos_only :
  let out := GitHubHelper.get_ci_results Scenario.universal Scenario.check_suite_event
               Scenario.fresh in
  PyStr.contains "win64" (name_of Scenario.universal_artifact) = true /\
  all_succeeded Scenario.jobs_all_passed = true /\
  branch_of (Scenario.run_of 1234 "master") = PStr "master" /\
  (exists result, fst out = Ok (Some result)) /\
  state (snd out) !! "nightly_windows" = None /\
  state (snd out) !! "nightly_macos"
  = Some (with_download_url (PInt 1234) Scenario.universal_artifact).
Proof.
  cbv zeta. split; [vm_compute; reflexivity|]. split; [vm_compute; reflexivity|].
  split; [vm_compute; reflexivity|].
  split; [eexists; vm_compute; reflexivity|].
  split; vm_compute; reflexivity.
Qed.

(** ** Further properties *)

(** *** What the operations leave alone *)

Section Effects.

Variable E : Env.
Variable R : relation world.
Hypothesis R_preorder : PreOrder R.
Hypothesis R_io : ignores_io R.

Lemma does_weaken {A} (m : M A) k k' :
  does R k m -> (k <= k')%nat -> does R k' m.
Proof. intros Hm Hle w. destruct (Hm w) as [HR Hn]. split; [exact HR | lia]. Qed.

Lemma does_ret {A} (a : A) k : does R k (ret a).
Proof. intros w. cbn. split; [reflexivity | lia]. Qed.

Lemma does_lift {A} (r : res A) k : does R k (lift r).
Proof. intros w. cbn. split; [reflexivity | lia]. Qed.

Lemma does_emit ev k : does R k (emit ev).
Proof. intros w. cbn. split; [apply R_io | lia]. Qed.

Lemma does_time_time k : does R k (GitHubHelper.time_time E).
Proof. intros w. cbn. split; [apply R_io | lia]. Qed.

Lemma does_session_get rq k : does R (S k) (GitHubHelper.session_get E rq).
Proof.
  intros w. unfold GitHubHelper.session_get.
  destruct (http E (n_get w) rq); cbn; (split; [apply R_io | lia]).
Qed.

Lemma does_bind {A B} (m : M A) (f : A -> M B) a b :
  does R a m -> (forall x, does R b (f x)) -> does R (a + b) (bind m f).
Proof.
  intros Hm Hf w. unfold bind. destruct (Hm w) as [HR Hn].
  destruct (m w) as [[x|e] w1]; cbn in *.
  - destruct (Hf x w1) as [HR' Hn']. split; [now transitivity w1 | lia].
  - split; [exact HR | lia].
Qed.

(** A step that sends nothing. *)
Lemma does_bind_free {A B} (m : M A) (f : A -> M B) k :
  does R 0 m -> (forall x, does R k (f x)) -> does R k (bind m f).
Proof. intros Hm Hf. now apply (does_bind m f 0 k). Qed.

(** A pure step, whose outcome is known to what follows. *)
Lemma does_bind_lift {A B} (r : res A) (f : A -> M B) k :
  (forall a, r = Ok a -> does R k (f a)) -> does R k (bind (lift r) f).
Proof.
  intros Hf w. unfold bind, lift. destruct r as [a|e]; cbn.
  - now apply Hf.
  - split; [reflexivity | lia].
Qed.

Lemma does_bind_ret {A B} (a : A) (f : A -> M B) k :
  does R k (f a) -> does R k (bind (ret a) f).
Proof. intros Hf w. exact (Hf w). Qed.

Lemma does_bind_assoc {A B C} (m : M A) (f : A -> M B) (g : B -> M C) k :
  does R k (bind m (fun x => bind (f x) g)) -> does R k (bind (bind m f) g).
Proof.
  intros H w. specialize (H w). unfold bind in *. now destruct (m w) as [[x|e] w1].
Qed.

Lemma does_attempt {A} (m : M A) k : does R k m -> does R k (attempt m).
Proof.
  intros Hm w. unfold attempt. specialize (Hm w). now destruct (m w).
Qed.

Lemma does_for_each {A B} (f : A -> M B) (l : list A) k :
  (forall x, does R k (f x)) -> does R (length l * k) (for_each f l).
Proof.
  intros Hf. induction l as [|x l IH]; cbn [for_each length].
  - apply does_ret.
  - replace (S (length l) * k)%nat with (k + (length l * k + 0))%nat by lia.
    apply does_bind; [apply Hf | intros y].
    apply does_bind; [exact IH | intros ys]. apply does_ret.
Qed.

(** [get_with_retry] sends at most [retries] requests, whatever the
    network answers. *)
Lemma does_get_with_retry url params n interval :
  does R n (GitHubHelper.get_with_retry E url params n interval).
Proof.
  induction n as [|n IH]; cbn [GitHubHelper.get_with_retry].
  - apply does_bind_free; [apply does_emit | intros _; apply does_ret].
  - apply (does_bind _ _ 1 n).
    + apply does_attempt.
      apply (does_bind _ _ 1 0); [apply does_session_get | intros r].
      apply does_bind_free; [apply does_lift | intros _; apply does_lift].
    + intros [v|e]; [apply does_ret|].
      apply does_bind_free; [apply does_emit | intros _].
      apply does_bind_free; [apply does_emit | intros _]. exact IH.
Qed.

(** [get_author_info] sends at most one request; it keeps what writing
    the cache entry of [username] keeps. *)
Lemma does_get_author_info username :
  (forall v, does R 0 (GitHubHelper.user_cache_setitem username v)) ->
  does R 1 (GitHubHelper.get_author_info E username).
Proof.
  intros Hset.
  assert (forall k, does R k (GitHubHelper.user_cache_getitem username)) as Hgetitem.
  { intros k w. unfold GitHubHelper.user_cache_getitem.
    destruct (Py.hashable username); [destruct (GitHubHelper.cache_find _ _)|];
      cbn; (split; [reflexivity | lia]). }
  assert (forall k, does R k (GitHubHelper.user_cache_get username)) as Hget.
  { intros k w. unfold GitHubHelper.user_cache_get.
    destruct (Py.hashable username); [destruct (GitHubHelper.cache_find _ _)|];
      cbn; (split; [reflexivity | lia]). }
  assert (does R 0 (GitHubHelper.user_cache_contains username)) as Hcontains.
  { intros w. unfold GitHubHelper.user_cache_contains.
    destruct (Py.hashable username); cbn; (split; [reflexivity | lia]). }
  unfold GitHubHelper.get_author_info.
  apply does_bind_free; [exact Hcontains | intros cached].
  apply does_bind_free.
  { destruct cached; [|apply does_ret].
    apply does_bind_free; [apply does_time_time | intros now].
    apply does_bind_free; [apply Hgetitem | intros entry].
    apply does_bind_free; [apply does_lift | intros fetched_at].
    apply does_bind_free; [apply does_lift | intros age]. apply does_ret. }
  intros [|]; [apply Hgetitem|].
  apply (does_bind _ _ 1 0).
  - apply does_attempt.
    apply (does_bind _ _ 1 0); [apply does_session_get | intros r].
    apply does_bind_free; [apply does_lift | intros author].
    apply does_bind_free; [apply Hset | intros _].
    apply does_bind_free; [apply does_time_time | intros now].
    apply does_bind_free; [apply Hgetitem | intros entry].
    apply does_bind_free; [apply does_lift | intros entry']. apply Hset.
  - intros [x|e]; [apply Hgetitem|].
    apply does_bind_free; [apply does_emit | intros _; apply Hget].
Qed.

(** [format_commit] sends at most one request. *)
Lemma does_format_commit project branch brief commit :
  (forall username v, does R 0 (GitHubHelper.user_cache_setitem username v)) ->
  does R 1 (GitHubHelper.format_commit E project branch brief commit).
Proof.
  intros Hset. unfold GitHubHelper.format_commit. cbv zeta.
  do 9 (apply does_bind_free; [apply does_lift | intros ?]).
  apply (does_bind _ _ 1 0); [apply does_get_author_info, Hset | intros author].
  apply does_bind_free.
  - destruct (Py.truthy author); [|destruct (Py.truthy _); apply does_ret].
    apply does_bind_free; [apply does_lift | intros name].
    apply does_bind_free.
    { destruct (Py.truthy name); [|apply does_ret].
      do 2 (apply does_bind_free; [apply does_lift | intros ?]). apply does_ret. }
    intros differs. apply does_bind_free.
    { destruct differs; [|apply does_lift].
      do 2 (apply does_bind_free; [apply does_lift | intros ?]). apply does_ret. }
    intros author_name.
    do 2 (apply does_bind_free; [apply does_lift | intros ?]). apply does_ret.
  - intros embed. apply does_bind_free; [apply does_lift | intros ?]. apply does_ret.
Qed.

Lemma last_slice_length (l : list pyval) : (length (Py.last_slice l) <= length l)%nat.
Proof. unfold Py.last_slice. rewrite length_skipn. lia. Qed.

(** [get_commit_messages] sends at most one request per commit. *)
Lemma does_get_commit_messages event_body brief :
  (forall username v, does R 0 (GitHubHelper.user_cache_setitem username v)) ->
  does R (commit_count event_body) (GitHubHelper.get_commit_messages E event_body brief).
Proof.
  intros Hset. unfold GitHubHelper.get_commit_messages, commit_count. cbv zeta.
  apply does_bind_free; [apply does_lift | intros ref].
  apply does_bind_free; [apply does_lift | intros ref_text].
  apply does_bind_free; [apply does_lift | intros repository].
  apply does_bind_free; [apply does_lift | intros project].
  apply does_bind_lift. intros commits_v ->.
  apply does_bind_lift. intros commits Hlist.
  destruct commits_v as [| | | | |]; try discriminate. injection Hlist as ->.
  assert (forall l : list pyval, (length l <= length commits)%nat ->
            forall prefix,
              does R (length commits)
                (formatted <- for_each (GitHubHelper.format_commit E project
                                          (snd (PyStr.rpartition "/" ref_text))
                                          brief) l ;;
                 ret (prefix ++ formatted))) as Hloop.
  { intros l Hl prefix. apply does_weaken with (length l * 1 + 0)%nat; [|lia].
    apply does_bind; [|intros ?; apply does_ret].
    apply does_for_each. intros c. now apply does_format_commit. }
  destruct (brief && _).
  - do 4 (apply does_bind_assoc; apply does_bind_free; [apply does_lift | intros ?]).
    apply does_bind_ret. cbn [fst snd]. apply Hloop, last_slice_length.
  - apply does_bind_ret. cbn [fst snd]. now apply Hloop.
Qed.

End Effects.

Lemma same_state_preorder : PreOrder same_state.
Proof.
  split; [intros w; reflexivity|].
  intros w1 w2 w3 H12 H23. unfold same_state in *. congruence.
Qed.

Lemma same_state_io : ignores_io same_state.
Proof. intros w requests readings evs. reflexivity. Qed.

Lemma same_entry_preorder username : PreOrder (same_entry username).
Proof.
  split; [intros w; reflexivity|].
  intros w1 w2 w3 H12 H23. unfold same_entry in *. congruence.
Qed.

Lemma same_entry_io username : ignores_io (same_entry username).
Proof. intros w requests readings evs. reflexivity. Qed.

Lemma nightly_only_preorder : PreOrder nightly_only.
Proof.
  split.
  - intros w. split; [reflexivity | intros; reflexivity].
  - intros w1 w2 w3 [Hc12 Hs12] [Hc23 Hs23]. split; [congruence|].
    intros key Hmac Hwin. rewrite Hs23, Hs12 by assumption. reflexivity.
Qed.

Lemma nightly_only_io : ignores_io nightly_only.
Proof. intros w requests readings evs. split; [reflexivity | intros; reflexivity]. Qed.

(** On hashable values [==] is an equivalence, and only hashable values
    equal a hashable one. *)
Lemma eqb_hashable_trans a b c :
  Py.hashable a = true -> Py.eqb a c = true -> Py.eqb b c = true ->
  Py.eqb b a = true.
Proof.
  destruct a as [|x|x|x|x|x], c as [|z|z|z|z|z]; cbn; try discriminate;
    destruct b as [|y|y|y|y|y]; cbn; try discriminate; intros _ Hac Hbc;
    try reflexivity;
    repeat match goal with
      | H : Bool.eqb _ _ = true |- _ => apply Bool.eqb_prop in H; subst
      | H : (_ =? _) = true |- _ => apply Z.eqb_eq in H; subst
      | H : String.eqb _ _ = true |- _ => apply String.eqb_eq in H; subst
      end;
    first [ apply Z.eqb_refl | apply String.eqb_refl | apply Bool.eqb_reflx
          | apply Z.eqb_eq; congruence
          | (destruct x, y; cbn in *; congruence) | idtac ].
Qed.

(** Writing the entry of one username leaves the entry of another alone. *)
Lemma cache_find_put_other k k' v c :
  Py.hashable k = true -> Py.eqb k' k = false ->
  GitHubHelper.cache_find k' (GitHubHelper.cache_put k v c)
  = GitHubHelper.cache_find k' c.
Proof.
  intros Hk Hne. induction c as [|[k0 v0] c IH]; cbn.
  - now rewrite Hne.
  - destruct (Py.eqb k k0) eqn:Hk0; cbn.
    + destruct (Py.eqb k' k0) eqn:Hk'0; [|reflexivity].
      rewrite (eqb_hashable_trans k k' k0 Hk Hk0 Hk'0) in Hne. discriminate.
    + now rewrite IH.
Qed.

(** *** The fetcher and the author cache, whatever the network does *)

(** Runs [get_author_info] up to its request. *)
Ltac author_refetch Hk Href :=
  unfold refetched, readings_before_fetch in *;
  unfold GitHubHelper.get_author_info, GitHubHelper.user_cache_contains,
    GitHubHelper.user_cache_getitem, GitHubHelper.user_cache_get,
    GitHubHelper.user_cache_setitem, GitHubHelper.session_get, GitHubHelper.time_time,
    GitHubHelper.json, logger, emit, attempt, bind, lift, ret;
  rewrite Hk; cbv beta iota;
  let entry := fresh "entry" in
  let Hfind := fresh "Hfind" in
  destruct (GitHubHelper.cache_find _ (user_cache _)) as [entry|] eqn:Hfind;
  [ let age := fresh "age" in
    let Hage := fresh "Hage" in
    let Hfresh := fresh "Hfresh" in
    let fetched_at := fresh "fetched_at" in
    let Hget := fresh "Hget" in
    let Hsub := fresh "Hsub" in
    destruct Href as (age & Hage & Hfresh); unfold entry_age in Hage;
    destruct (Py.get entry "_timestamp" (PInt 0)) as [fetched_at|] eqn:Hget;
      [|discriminate];
    destruct (Py.sub_from (clock _ (n_time _)) fetched_at) as [?|] eqn:Hsub;
      [|discriminate];
    injection Hage as ->;
    cbv beta iota; cbn [user_cache]; rewrite ?Hk, ?Hfind; cbv beta iota;
    rewrite ?Hget; cbv beta iota; rewrite ?Hsub; cbv beta iota;
    replace (age >? GitHubHelper.user_cache_max_age) with false
      by (symmetry; rewrite Z.gtb_ltb; apply Z.ltb_ge; exact Hfresh);
    cbv beta iota; cbn [n_get n_time user_cache trace state]
  | cbv beta iota; cbn [n_get n_time user_cache trace state] ].

Section AuthorCacheEffects.

Variable E : Env.

(** X1. [get_with_retry] never raises, sends at most [retries] requests,
    and changes nothing but the request counter and the trace: the author
    cache, the nightly slots and the clock are what they were. *)
Theorem get_with_retry_effects url params n interval w :
  exists v k evs,
    (k <= n)%nat /\
    GitHubHelper.get_with_retry E url params n interval w = (Ok v, advance w k evs).
Proof.
  destruct (first_success_cases E url params n w) as [Hall | (k & v & Hk & Hpre & Hv)].
  - rewrite (get_with_retry_exhausted E url params interval n w Hall).
    do 3 eexists. split; [|reflexivity]. lia.
  - rewrite (get_with_retry_succeeds E url params interval k n w v Hk Hpre Hv).
    do 3 eexists. split; [|reflexivity]. lia.
Qed.

(** X2. [get_author_info] sends at most one request and never touches the
    nightly slots, for every username, cache and network. *)
Theorem get_author_info_effects username w :
  let w' := snd (GitHubHelper.get_author_info E username w) in
  state w' = state w /\ (n_get w <= n_get w' <= n_get w + 1)%nat.
Proof.
  apply (does_get_author_info E same_state same_state_preorder same_state_io).
  intros v w0. unfold GitHubHelper.user_cache_setitem.
  destruct (Py.hashable username); cbn; (split; [reflexivity | lia]).
Qed.

(** X3. A lookup for one username leaves the cache entry of every other
    username as it was. *)
Theorem get_author_info_isolated username other w :
  Py.hashable username = true ->
  Py.eqb other username = false ->
  GitHubHelper.cache_find other
    (user_cache (snd (GitHubHelper.get_author_info E username w)))
  = GitHubHelper.cache_find other (user_cache w).
Proof.
  intros Hk Hne.
  apply (does_get_author_info E (same_entry other) (same_entry_preorder other)
           (same_entry_io other)).
  intros v w0. unfold GitHubHelper.user_cache_setitem, same_entry. rewrite Hk. cbn.
  split; [now apply cache_find_put_other | lia].
Qed.

(** The request fails: what the call returns and leaves. *)
Lemma get_author_info_failed username w :
  Py.hashable username = true ->
  refetched E username w ->
  json_body (http E (n_get w) (profile_request E username)) = None ->
  GitHubHelper.get_author_info E username w
  = (Ok (default PNone (GitHubHelper.cache_find username (user_cache w))),
     {| user_cache := user_cache w; state := state w; n_get := S (n_get w);
        n_time := readings_before_fetch username w;
        trace := trace w ++ [EvGet (profile_request E username);
                             EvLog LogWarning "Fetching github userdata failed"] |}).
Proof.
  intros Hk Href Hbody.
  author_refetch Hk Href; fold (profile_request E username);
    destruct (http E (n_get w) (profile_request E username)) as [|st [body|]];
    try discriminate; cbv beta iota zeta;
    cbn [fst snd n_get n_time user_cache trace state];
    rewrite ?Hk, ?Hfind; cbn [default]; now rewrite <- app_assoc.
Qed.

(** The answer is a JSON object: what the call returns and leaves. *)
Lemma get_author_info_fetched username w st d :
  Py.hashable username = true ->
  refetched E username w ->
  http E (n_get w) (profile_request E username) = Resp st (Some (PDict d)) ->
  let entry := PDict (Py.assoc_set "_timestamp"
                        (PInt (clock E (readings_before_fetch username w))) d) in
  GitHubHelper.get_author_info E username w
  = (Ok entry,
     {| user_cache := GitHubHelper.cache_put username entry
                        (GitHubHelper.cache_put username (PDict d) (user_cache w));
        state := state w; n_get := S (n_get w);
        n_time := S (readings_before_fetch username w);
        trace := trace w ++ [EvGet (profile_request E username)] |}).
Proof.
  intros Hk Href Hresp. cbv zeta.
  author_refetch Hk Href; fold (profile_request E username); rewrite Hresp;
    cbv beta iota zeta;
    repeat (progress (cbn [Py.setitem fst snd n_get n_time user_cache trace state];
                      rewrite ?Hk, ?cache_find_put by assumption; cbv beta iota));
    reflexivity.
Qed.

(** X4. When the request fails (no connection, or a body that is not
    JSON), [get_author_info] logs a warning and returns what the cache
    holds, [None] if it holds nothing; the cache is not changed. *)
Theorem get_author_info_falls_back username w :
  Py.hashable username = true ->
  refetched E username w ->
  json_body (http E (n_get w) (profile_request E username)) = None ->
  let out := GitHubHelper.get_author_info E username w in
  fst out = Ok (default PNone (GitHubHelper.cache_find username (user_cache w))) /\
  user_cache (snd out) = user_cache w /\
  n_get (snd out) = S (n_get w) /\
  trace (snd out)
  = trace w ++ [EvGet (profile_request E username);
                EvLog LogWarning "Fetching github userdata failed"].
Proof.
  intros Hk Href Hbody. cbv zeta.
  rewrite (get_author_info_failed username w Hk Href Hbody). repeat split.
Qed.

(** X5. [get_author_info] does not look at the status of the answer: a
    JSON object is stored as the profile, stamped with the clock, and
    returned, also under a status that [get_with_retry] counts as a
    failure. *)
Theorem get_author_info_stores_any_status username w st d :
  Py.hashable username = true ->
  refetched E username w ->
  http E (n_get w) (profile_request E username) = Resp st (Some (PDict d)) ->
  let entry := PDict (Py.assoc_set "_timestamp"
                        (PInt (clock E (readings_before_fetch username w))) d) in
  let out := GitHubHelper.get_author_info E username w in
  fst out = Ok entry /\
  GitHubHelper.cache_find username (user_cache (snd out)) = Some entry /\
  trace (snd out) = trace w ++ [EvGet (profile_request E username)] /\
  (400 <= st -> attempt_value (Resp st (Some (PDict d))) = None).
Proof.
  intros Hk Href Hresp. cbv zeta.
  split; [|split; [|split]].
  4:{ intros Hst. cbn. now apply Z.ltb_ge in Hst as ->. }
  all: author_refetch Hk Href; fold (profile_request E username); rewrite Hresp;
    cbv beta iota zeta;
    repeat (progress (cbn [Py.setitem fst snd n_get n_time user_cache trace state];
                      rewrite ?Hk, ?cache_find_put by assumption; cbv beta iota));
    reflexivity.
Qed.

(** X6. A cached profile is served without a request exactly when it is
    older than [user_cache_max_age]; then it is returned as it is stored
    and the cache is left alone. *)
Theorem cached_entry_served_iff_stale username w entry age :
  Py.hashable username = true ->
  GitHubHelper.cache_find username (user_cache w) = Some entry ->
  entry_age (clock E (n_time w)) entry = Some age ->
  let out := GitHubHelper.get_author_info E username w in
  (n_get (snd out) = n_get w <-> GitHubHelper.user_cache_max_age < age) /\
  (GitHubHelper.user_cache_max_age < age ->
   fst out = Ok entry /\ user_cache (snd out) = user_cache w).
Proof.
  intros Hk Hfind Hage. cbv zeta. split; [split|].
  3:{ intros Hstale.
      now rewrite (get_author_info_stale E username w entry age Hk Hfind Hage Hstale). }
  - intros Hsame.
    destruct (Z.le_gt_cases age GitHubHelper.user_cache_max_age) as [Hfresh|Hstale];
      [|exact Hstale].
    destruct (get_author_info_fresh E username w entry age Hk Hfind Hage Hfresh)
      as (r & w' & Hrun & Hn & _).
    rewrite Hrun in Hsame. cbn [snd] in Hsame. lia.
  - intros Hstale.
    now rewrite (get_author_info_stale E username w entry age Hk Hfind Hage Hstale).
Qed.

End AuthorCacheEffects.

(** The entry of [torvalds] (there is none) after a lookup of [octocat]. *)
Lemma get_author_info_isolated_witness :
  GitHubHelper.cache_find (PStr "torvalds")
    (user_cache (snd (GitHubHelper.get_author_info Scenario.profiles (PStr "octocat")
                        (Scenario.cached 1000))))
  = GitHubHelper.cache_find (PStr "torvalds") (user_cache (Scenario.cached 1000)).
Proof.
  apply (get_author_info_isolated Scenario.profiles (PStr "octocat") (PStr "torvalds")
           (Scenario.cached 1000)); reflexivity.
Defined.

(** The network is down and [octocat] is cached: the cached entry. *)
Lemma get_author_info_falls_back_witness :
  let out := GitHubHelper.get_author_info Scenario.unreachable (PStr "octocat")
               (Scenario.cached 1000) in
  fst out = Ok (default PNone (GitHubHelper.cache_find (PStr "octocat")
                                 (user_cache (Scenario.cached 1000)))) /\
  user_cache (snd out) = user_cache (Scenario.cached 1000) /\
  n_get (snd out) = S (n_get (Scenario.cached 1000)) /\
  trace (snd out)
  = trace (Scenario.cached 1000)
    ++ [EvGet (profile_request Scenario.unreachable (PStr "octocat"));
        EvLog LogWarning "Fetching github userdata failed"].
Proof.
  apply (get_author_info_falls_back Scenario.unreachable (PStr "octocat")
           (Scenario.cached 1000)).
  - reflexivity.
  - exists 10. split; [reflexivity | vm_compute; discriminate].
  - reflexivity.
Defined.

(** A [404] answer for an unknown user becomes that user's profile. *)
Lemma get_author_info_stores_any_status_witness :
  fst (GitHubHelper.get_author_info Scenario2.not_found (PStr "ghost") Scenario.fresh)
  = Ok (PDict (Scenario2.not_found_body ++ [("_timestamp", PInt 1010)])).
Proof.
  apply (get_author_info_stores_any_status Scenario2.not_found (PStr "ghost")
           Scenario.fresh 404 Scenario2.not_found_body); [reflexivity | exact I | reflexivity].
Defined.

(** An entry that is 700000 seconds old is served without a request. *)
Lemma cached_entry_served_iff_stale_witness :
  let entry := PDict (Scenario.octocat PNone
                      ++ [("_timestamp", PInt (1010 - 700000))]) in
  let out := GitHubHelper.get_author_info Scenario.profiles (PStr "octocat")
               (Scenario.cached (1010 - 700000)) in
  (n_get (snd out) = n_get (Scenario.cached (1010 - 700000))
   <-> GitHubHelper.user_cache_max_age < 700000) /\
  (GitHubHelper.user_cache_max_age < 700000 ->
   fst out = Ok entry /\
   user_cache (snd out) = user_cache (Scenario.cached (1010 - 700000))).
Proof.
  apply (cached_entry_served_iff_stale Scenario.profiles (PStr "octocat")
           (Scenario.cached (1010 - 700000))
           (PDict (Scenario.octocat PNone ++ [("_timestamp", PInt (1010 - 700000))]))
           700000);
    [reflexivity | reflexivity | reflexivity].
Defined.

(** *** Push events: the descriptor of a commit *)

Section CommitDescriptors.

Variable E : Env.

Lemma string_app_cons a s t : String a s +:+ t = String a (s +:+ t).
Proof. reflexivity. Qed.

Lemma string_app_nil s : EmptyString +:+ s = s.
Proof. reflexivity. Qed.

(** [split] always gives a first piece. *)
Lemma split_cons c s : exists first rest, PyStr.split c s = first :: rest.
Proof.
  induction s as [|a s (f & r & IH)]; cbn [PyStr.split]; [eauto|].
  destruct (Ascii.eqb a c); [eauto|]. rewrite IH. eauto.
Qed.

Lemma join_cons_cons sep x y l :
  PyStr.join sep (x :: y :: l) = x +:+ sep +:+ PyStr.join sep (y :: l).
Proof. reflexivity. Qed.

(** Joining the pieces with the separator gives the text back. *)
Lemma join_split c s : PyStr.join (String c EmptyString) (PyStr.split c s) = s.
Proof.
  induction s as [|a s IH]; [reflexivity|]. cbn [PyStr.split].
  destruct (split_cons c s) as (f & r & Hs).
  destruct (Ascii.eqb_spec a c) as [->|Hne].
  - rewrite Hs, join_cons_cons, <- Hs, IH. reflexivity.
  - rewrite Hs in *. destruct r as [|r0 r].
    + cbn [PyStr.join] in *. now rewrite IH.
    + rewrite join_cons_cons in *. now rewrite string_app_cons, IH.
Qed.

(** No piece contains the separator. *)
Lemma split_pieces c s : Forall (fun piece => has_char c piece = false) (PyStr.split c s).
Proof.
  induction s as [|a s IH]; cbn [PyStr.split]; [repeat constructor|].
  destruct (Ascii.eqb a c) eqn:Hac; [constructor; [reflexivity | exact IH]|].
  destruct (PyStr.split c s) as [|f r]; [repeat constructor; cbn; now rewrite Hac|].
  inversion IH as [|? ? Hf Hr]; subst. constructor; [|exact Hr].
  cbn. now rewrite Hac.
Qed.

(** The descriptor [format_commit] makes of a well-formed commit. *)
Lemma format_commit_descriptor project branch brief commit w p w' :
  well_formed_commit E commit = true ->
  GitHubHelper.get_author_info E (commit_username commit) w = (Ok p, w') ->
  usable_profile p = true ->
  exists e,
    GitHubHelper.format_commit E project branch brief commit w
    = (Ok (e, commit_id commit), w') /\
    title e = hd EmptyString (message_lines commit) /\
    description e
    = (if (2 <? length (message_lines commit))%nat && negb brief
       then Some (PyStr.join PyStr.NL (skipn 2 (message_lines commit)))
       else None) /\
    colour e = GitHubHelper._commit_colour /\
    url e = match Py.getitem commit "url" with Ok u => u | Raise _ => PNone end /\
    footer e = Some "Commit" /\
    fields e = [("Repository", project, true); ("Branch", PStr branch, true)] /\
    author e = Some (commit_author commit p).
Proof.
  unfold well_formed_commit, commit_username, usable_profile, commit_author,
    fallback_author, commit_raw_name, commit_id, message_lines, commit_message_of,
    profile_field, profile_author, GitHubHelper.format_commit.
  destruct (Py.getitem commit "author") as [[| | | | |ad]|] eqn:Ha; try discriminate.
  destruct (Py.getitem commit "timestamp") as [ts|] eqn:Hts; try discriminate.
  destruct (Py.getitem commit "message") as [[| | |m| |]|] eqn:Hm; try discriminate.
  destruct (Py.getitem commit "url") as [u|] eqn:Hu; try discriminate.
  destruct (Py.getitem commit "id") as [cid|] eqn:Hid; try discriminate.
  destruct (GitHubHelper.parse E ts) as [t|] eqn:Ht; try discriminate.
  intros _ Hlook Husable.
  cbn [Py.get] in *.
  unfold bind, lift, ret. cbv beta iota. cbn [Py.get Py.as_str]. cbv beta iota.
  rewrite Ht. cbv beta iota. rewrite Hlook. cbv beta iota.
  destruct (Py.truthy p) eqn:Hp.
  - cbn in Husable.
    destruct (Py.getitem p "name") as [name|]; try discriminate.
    destruct (Py.getitem p "login") as [login|]; try discriminate.
    destruct (Py.getitem p "html_url") as [html|]; try discriminate.
    destruct (Py.getitem p "avatar_url") as [avatar|]; try discriminate.
    cbv beta iota.
    destruct (Py.truthy name); [destruct (negb (Py.eqb name login))|];
      cbv beta iota;
      (eexists; split; [reflexivity|]);
      destruct ((2 <? length (PyStr.split PyStr.nl m))%nat && negb brief);
      repeat split.
  - destruct (Py.truthy (match Py.assoc "name" ad with Some x => x | None => PNone end));
      (eexists; split; [reflexivity|]);
      destruct ((2 <? length (PyStr.split PyStr.nl m))%nat && negb brief);
      repeat split.
Qed.

(** X7. The descriptor of a commit: its title is the first line of the
    message; it has a body only outside brief mode and for a message of at
    least three lines, and the body is the lines after the second; the
    author block is the profile ("Name (login)" when the profile has a
    name that differs from the login, the login otherwise, with the
    profile URL and avatar) or, without a profile, the fallback. *)
Theorem commit_descriptor project branch brief commit w p w' :
  well_formed_commit E commit = true ->
  GitHubHelper.get_author_info E (commit_username commit) w = (Ok p, w') ->
  usable_profile p = true ->
  exists e,
    GitHubHelper.format_commit E project branch brief commit w
    = (Ok (e, commit_id commit), w') /\
    title e = hd EmptyString (message_lines commit) /\
    description e
    = (if (2 <? length (message_lines commit))%nat && negb brief
       then Some (PyStr.join PyStr.NL (skipn 2 (message_lines commit)))
       else None) /\
    footer e = Some "Commit" /\
    fields e = [("Repository", project, true); ("Branch", PStr branch, true)] /\
    author e
    = Some (if Py.truthy p
            then {| author_name :=
                      if Py.truthy (profile_field p "name")
                         && negb (Py.eqb (profile_field p "name")
                                         (profile_field p "login"))
                      then PStr (Py.str (profile_field p "name") +:+ " ("
                                 +:+ Py.str (profile_field p "login") +:+ ")")
                      else profile_field p "login";
                    author_url := Some (profile_field p "html_url");
                    author_icon_url := Some (profile_field p "avatar_url") |}
            else fallback_author commit).
Proof.
  intros Hwf Hlook Husable.
  destruct (format_commit_descriptor project branch brief commit w p w'
              Hwf Hlook Husable)
    as (e & Hrun & Htitle & Hdesc & _ & _ & Hfooter & Hfields & Hauthor).
  exists e. repeat split; assumption.
Qed.

(** X8. Nothing of a commit message is lost but its second line: the
    title has no line break, and a message of at least three lines is
    its title, its second line and the body of the full descriptor,
    joined by line breaks; the brief descriptor has no body. *)
Theorem commit_message_is_split project branch brief commit w p w' :
  well_formed_commit E commit = true ->
  GitHubHelper.get_author_info E (commit_username commit) w = (Ok p, w') ->
  usable_profile p = true ->
  exists e,
    GitHubHelper.format_commit E project branch brief commit w
    = (Ok (e, commit_id commit), w') /\
    has_char PyStr.nl (title e) = false /\
    (brief = true -> description e = None) /\
    (brief = false ->
     match description e with
     | Some body =>
         exists second, has_char PyStr.nl second = false /\
           commit_message_of commit
           = title e +:+ PyStr.NL +:+ second +:+ PyStr.NL +:+ body
     | None =>
         commit_message_of commit = title e \/
         exists second, has_char PyStr.nl second = false /\
           commit_message_of commit = title e +:+ PyStr.NL +:+ second
     end).
Proof.
  intros Hwf Hlook Husable.
  destruct (format_commit_descriptor project branch brief commit w p w'
              Hwf Hlook Husable)
    as (e & Hrun & Htitle & Hdesc & _).
  exists e. split; [exact Hrun|].
  unfold message_lines in *.
  pose proof (join_split PyStr.nl (commit_message_of commit)) as Hjoin.
  pose proof (split_pieces PyStr.nl (commit_message_of commit)) as Hpieces.
  fold PyStr.NL in Hjoin.
  destruct (PyStr.split PyStr.nl (commit_message_of commit)) as [|l0 [|l1 [|l2 ls]]].
  - destruct (split_cons PyStr.nl (commit_message_of commit)) as (f & r & Hs).
    inversion Hpieces. cbn in Htitle, Hdesc. rewrite Htitle, Hdesc.
    split; [reflexivity|]. split; [reflexivity|]. intros _. left. now rewrite <- Hjoin.
  - inversion Hpieces as [|? ? H0 _]; subst. cbn in Htitle, Hdesc.
    rewrite Htitle, Hdesc. split; [exact H0|]. split; [reflexivity|].
    intros _. left. now rewrite <- Hjoin.
  - inversion Hpieces as [|? ? H0 Hrest]; subst.
    inversion Hrest as [|? ? H1 _]; subst. cbn in Htitle, Hdesc.
    rewrite Htitle, Hdesc. split; [exact H0|]. split; [reflexivity|].
    intros _. right. exists l1. split; [exact H1|]. now rewrite <- Hjoin.
  - inversion Hpieces as [|? ? H0 Hrest]; subst.
    inversion Hrest as [|? ? H1 _]; subst.
    cbn [hd length skipn] in Htitle, Hdesc.
    rewrite Htitle, Hdesc. split; [exact H0|]. split.
    + intros ->. reflexivity.
    + intros ->. cbn [Nat.ltb Nat.leb andb negb].
      exists l1. split; [exact H1|]. rewrite <- Hjoin.
      now rewrite !join_cons_cons.
Qed.

Lemma assoc_set_truthy k v d : Py.truthy (PDict (Py.assoc_set k v d)) = true.
Proof.
  destruct d as [|[k0 v0] d]; cbn; [reflexivity|]. now destruct (String.eqb k k0).
Qed.

(** A JSON object without a name, taken for a profile, stops the
    formatting of the commit. *)
Lemma format_commit_unknown_user project branch brief commit w st d :
  plain_commit E commit = true ->
  refetched E (commit_username commit) w ->
  http E (n_get w) (profile_request E (commit_username commit))
  = Resp st (Some (PDict d)) ->
  Py.assoc "name" d = None ->
  fst (GitHubHelper.format_commit E project branch brief commit w) = Raise KeyError.
Proof.
  intros [Hwf Hk]%andb_prop Href Hresp Hname.
  pose proof (f_equal fst (get_author_info_fetched E (commit_username commit) w st d
                             Hk Href Hresp)) as Hfst.
  cbv zeta in Hfst.
  destruct (GitHubHelper.get_author_info E (commit_username commit) w)
    as [r w'] eqn:Hlook.
  cbn [fst] in Hfst. subst r.
  revert Hlook.
  unfold well_formed_commit, commit_username, GitHubHelper.format_commit in *.
  destruct (Py.getitem commit "author") as [[| | | | |ad]|] eqn:Ha; try discriminate.
  destruct (Py.getitem commit "timestamp") as [ts|] eqn:Hts; try discriminate.
  destruct (Py.getitem commit "message") as [[| | |m| |]|] eqn:Hm; try discriminate.
  destruct (Py.getitem commit "url") as [u|] eqn:Hu; try discriminate.
  destruct (Py.getitem commit "id") as [cid|] eqn:Hid; try discriminate.
  destruct (GitHubHelper.parse E ts) as [t|] eqn:Ht; try discriminate.
  cbn [Py.get]. intros Hlook.
  unfold bind, lift, ret. cbv beta iota. cbn [Py.get Py.as_str]. cbv beta iota.
  rewrite Ht. cbv beta iota. rewrite Hlook. cbv beta iota.
  rewrite assoc_set_truthy. cbn [Py.getitem].
  rewrite (assoc_set_other "name" "_timestamp") by reflexivity.
  rewrite Hname. reflexivity.
Qed.

(** X9. One commit by a user the API answers an error object for (a JSON
    object without a [name], under any status) makes the whole push
    raise [KeyError]: no descriptor is returned, not even for the
    commits before or after it. *)
Theorem unknown_user_breaks_push event_body ref repository project commit rest
        w st d :
  Py.getitem event_body "ref" = Ok (PStr ref) ->
  Py.getitem event_body "repository" = Ok repository ->
  Py.getitem repository "full_name" = Ok project ->
  Py.getitem event_body "commits" = Ok (PList (commit :: rest)) ->
  plain_commit E commit = true ->
  refetched E (commit_username commit) w ->
  http E (n_get w) (profile_request E (commit_username commit))
  = Resp st (Some (PDict d)) ->
  Py.assoc "name" d = None ->
  fst (GitHubHelper.get_commit_messages E event_body false w) = Raise KeyError.
Proof.
  intros Href Hrepo Hproject Hcommits Hplain Hrefetch Hresp Hname.
  pose proof (format_commit_unknown_user project (snd (PyStr.rpartition "/" ref))
                false commit w st d Hplain Hrefetch Hresp Hname) as Hraise.
  unfold GitHubHelper.get_commit_messages, bind, lift, ret.
  rewrite Href. cbn [Py.as_str]. rewrite Hrepo, Hproject, Hcommits.
  cbn [Py.as_list andb fst snd for_each]. unfold bind.
  destruct (GitHubHelper.format_commit E project (snd (PyStr.rpartition "/" ref))
              false commit w) as [[x|e] w1]; cbn [fst] in Hraise;
    [discriminate | injection Hraise as ->; reflexivity].
Qed.

(** X10. [get_commit_messages] never touches the nightly slots and sends
    at most one request per commit of the payload, whatever the payload,
    the cache and the network are. *)
Theorem get_commit_messages_effects event_body brief w :
  let w' := snd (GitHubHelper.get_commit_messages E event_body brief w) in
  state w' = state w /\
  (n_get w <= n_get w' <= n_get w + commit_count event_body)%nat.
Proof.
  apply (does_get_commit_messages E same_state same_state_preorder same_state_io).
  intros username v w0. unfold GitHubHelper.user_cache_setitem.
  destruct (Py.hashable username); cbn; (split; [reflexivity | lia]).
Qed.

Lemma cache_find_in k c v :
  GitHubHelper.cache_find k c = Some v -> exists k0, In (k0, v) c.
Proof.
  induction c as [|[k0 v0] c IH]; cbn; [discriminate|].
  destruct (Py.eqb k k0).
  - intros [= ->]. exists k0. now left.
  - intros H. destruct (IH H) as (k1 & Hin). exists k1. now right.
Qed.

Lemma cache_put_ok k v c :
  cache_entry_ok v = true ->
  Forall (fun kv => cache_entry_ok (snd kv) = true) c ->
  Forall (fun kv => cache_entry_ok (snd kv) = true) (GitHubHelper.cache_put k v c).
Proof.
  intros Hv. induction 1 as [|[k0 v0] c H0 Hc IH]; cbn.
  - now repeat constructor.
  - destruct (Py.eqb k k0); constructor; assumption.
Qed.

Lemma cache_put_put_ok k v v' c :
  Py.hashable k = true ->
  cache_entry_ok v' = true ->
  Forall (fun kv => cache_entry_ok (snd kv) = true) c ->
  Forall (fun kv => cache_entry_ok (snd kv) = true)
         (GitHubHelper.cache_put k v' (GitHubHelper.cache_put k v c)).
Proof.
  intros Hk Hv'. induction 1 as [|[k0 v0] c H0 Hc IH]; cbn.
  - rewrite eqb_refl_hashable by assumption. now repeat constructor.
  - destruct (Py.eqb k k0) eqn:Hkk0; cbn; rewrite Hkk0; constructor; assumption.
Qed.

Lemma cache_entry_usable v :
  cache_entry_ok v = true -> usable_profile v = true.
Proof.
  unfold cache_entry_ok, profile_object, usable_profile.
  destruct v as [| | | | |d]; try discriminate. cbn [Py.getitem].
  destruct (Py.assoc "name" d), (Py.assoc "login" d), (Py.assoc "html_url" d),
    (Py.assoc "avatar_url" d); try discriminate.
  intros _. apply orb_true_r.
Qed.

Lemma stamped_entry_ok d now :
  profile_object (PDict d) = true ->
  cache_entry_ok (PDict (Py.assoc_set "_timestamp" (PInt now) d)) = true.
Proof.
  unfold cache_entry_ok, profile_object. cbn [Py.get].
  rewrite !(assoc_set_other _ "_timestamp") by reflexivity.
  rewrite assoc_set_same. intros ->. reflexivity.
Qed.

(** With profile objects for answers and for cache entries, the lookup
    returns a profile or nothing, and the cache stays as good. *)
Lemma get_author_info_safe username w :
  answers_profiles E -> cache_ok w -> Py.hashable username = true ->
  exists p w',
    GitHubHelper.get_author_info E username w = (Ok p, w') /\
    usable_profile p = true /\ cache_ok w'.
Proof.
  intros Hnet Hcache Hk.
  assert (forall entry, GitHubHelper.cache_find username (user_cache w) = Some entry ->
                        cache_entry_ok entry = true) as Hentry.
  { intros entry Hfind. destruct (cache_find_in _ _ _ Hfind) as (k0 & Hin).
    exact (proj1 (List.Forall_forall _ _) Hcache (k0, entry) Hin). }
  assert (refetched E username w \/
          exists entry age,
            GitHubHelper.cache_find username (user_cache w) = Some entry /\
            entry_age (clock E (n_time w)) entry = Some age /\
            GitHubHelper.user_cache_max_age < age) as [Href | Hstale].
  { unfold refetched.
    destruct (GitHubHelper.cache_find username (user_cache w)) as [entry|] eqn:Hfind;
      [|now left].
    specialize (Hentry entry eq_refl). unfold cache_entry_ok in Hentry.
    apply andb_prop in Hentry as [_ Hts]. unfold entry_age.
    destruct (Py.get entry "_timestamp" (PInt 0)) as [[| b | z | | |]|] eqn:Hget;
      try discriminate; cbn [Py.sub_from].
    - destruct (Z_le_gt_dec (clock E (n_time w) - Z.b2z b)
                            GitHubHelper.user_cache_max_age).
      + left. eauto.
      + right. exists entry. eexists. split; [reflexivity|]. rewrite Hget.
        split; [reflexivity|]. lia.
    - destruct (Z_le_gt_dec (clock E (n_time w) - z) GitHubHelper.user_cache_max_age).
      + left. eauto.
      + right. exists entry. eexists. split; [reflexivity|]. rewrite Hget.
        split; [reflexivity|]. lia. }
  2:{ destruct Hstale as (entry & age & Hfind & Hage & Hold).
      rewrite (get_author_info_stale E username w entry age Hk Hfind Hage Hold).
      do 2 eexists. split; [reflexivity|]. split.
      - apply cache_entry_usable. now apply Hentry.
      - exact Hcache. }
  destruct (json_body (http E (n_get w) (profile_request E username))) as [v|] eqn:Hbody.
  - pose proof (Hnet _ _ _ Hbody) as Hv.
    destruct (http E (n_get w) (profile_request E username)) as [|st [body|]] eqn:Hresp;
      try discriminate.
    injection Hbody as ->. destruct v as [| | | | |d]; try discriminate.
    rewrite (get_author_info_fetched E username w st d Hk Href Hresp).
    do 2 eexists. split; [reflexivity|]. split.
    + apply cache_entry_usable, stamped_entry_ok, Hv.
    + unfold cache_ok. cbn [user_cache].
      apply cache_put_put_ok; [exact Hk | now apply stamped_entry_ok | exact Hcache].
  - rewrite (get_author_info_failed E username w Hk Href Hbody).
    do 2 eexists. split; [reflexivity|]. split; [|exact Hcache].
    destruct (GitHubHelper.cache_find username (user_cache w)) as [entry|] eqn:Hfind;
      cbn [default]; [|reflexivity].
    apply cache_entry_usable. now apply Hentry.
Qed.

(** The loop over the commits, with a well-behaved network. *)
Lemma format_commits_safe project branch brief commits : forall w,
  answers_profiles E -> cache_ok w ->
  forallb (plain_commit E) commits = true ->
  exists l w',
    for_each (GitHubHelper.format_commit E project branch brief) commits w
    = (Ok l, w') /\
    map snd l = map commit_id commits /\ cache_ok w'.
Proof.
  induction commits as [|c commits IH]; intros w Hnet Hcache Hplain.
  - exists [], w. now repeat split.
  - cbn [forallb] in Hplain. apply andb_prop in Hplain as [Hc Hrest].
    apply andb_prop in Hc as [Hwf Hk].
    destruct (get_author_info_safe (commit_username c) w Hnet Hcache Hk)
      as (p & w1 & Hlook & Husable & Hcache1).
    destruct (format_commit_descriptor project branch brief c w p w1 Hwf Hlook Husable)
      as (e & Hrun & _).
    destruct (IH w1 Hnet Hcache1 Hrest) as (l & w' & Hloop & Hids & Hcache').
    exists ((e, commit_id c) :: l), w'.
    cbn [for_each]. unfold bind, ret. rewrite Hrun, Hloop.
    split; [reflexivity|]. split; [|exact Hcache']. cbn [map snd]. now rewrite Hids.
Qed.

(** X11. With a network that answers profile objects (or fails) and a
    cache of profile objects, a push that is not truncated (full mode, or
    no more commits than the limit) gives one descriptor per commit, in
    the order of the payload, each with the hash of its commit; nothing
    is raised and the cache still holds profile objects only. *)
Theorem push_is_formatted event_body brief ref repository project commits w :
  Py.getitem event_body "ref" = Ok (PStr ref) ->
  Py.getitem event_body "repository" = Ok repository ->
  Py.getitem repository "full_name" = Ok project ->
  Py.getitem event_body "commits" = Ok (PList commits) ->
  brief = false \/ Z.of_nat (length commits) <= commit_truncation_limit (config E) ->
  forallb (plain_commit E) commits = true ->
  answers_profiles E -> cache_ok w ->
  exists l w',
    GitHubHelper.get_commit_messages E event_body brief w = (Ok l, w') /\
    map snd l = map commit_id commits /\
    length l = length commits /\
    cache_ok w'.
Proof.
  intros Href Hrepo Hproject Hcommits Hwhole Hplain Hnet Hcache.
  destruct (format_commits_safe project (snd (PyStr.rpartition "/" ref)) brief
              commits w Hnet Hcache Hplain) as (l & w' & Hloop & Hids & Hcache').
  exists l, w'.
  assert ((brief && (commit_truncation_limit (config E) <? Z.of_nat (length commits)))
          = false) as Hcond.
  { destruct Hwhole as [-> | Hle]; [reflexivity|].
    apply Z.ltb_ge in Hle. rewrite Hle. apply andb_false_r. }
  unfold GitHubHelper.get_commit_messages, bind, lift, ret.
  rewrite Href. cbn [Py.as_str]. rewrite Hrepo, Hproject, Hcommits.
  cbn [Py.as_list]. rewrite Hcond. cbn [fst snd]. rewrite Hloop.
  split; [reflexivity|]. split; [exact Hids|]. split; [|exact Hcache'].
  rewrite <- (length_map snd l), Hids. apply length_map.
Qed.

End CommitDescriptors.

(** A commit by [octocat], whose profile has a name. *)
Lemma commit_descriptor_witness :
  exists e,
    fst (GitHubHelper.format_commit Scenario.profiles (PStr "obsproject/obs-studio")
           "master" false (Scenario.commit_octocat "c0ffee3") Scenario.fresh)
    = Ok (e, PStr "c0ffee3") /\
    title e = "Bump version" /\
    description e = None /\
    author e = Some {| author_name := PStr "The Octocat (octocat)";
                       author_url := Some (PStr "https://github.com/octocat");
                       author_icon_url :=
                         Some (PStr "https://avatars.githubusercontent.com/u/583231") |}.
Proof.
  destruct (commit_descriptor Scenario.profiles (PStr "obsproject/obs-studio")
              "master"%string false (Scenario.commit_octocat "c0ffee3") Scenario.fresh
              (PDict (Scenario.octocat (PStr "The Octocat")
                      ++ [("_timestamp", PInt 1010)]))
              (snd (GitHubHelper.get_author_info Scenario.profiles (PStr "octocat")
                      Scenario.fresh)))
    as (e & Hrun & Htitle & Hdesc & _ & _ & Hauthor);
    [vm_compute; reflexivity | vm_compute; reflexivity | vm_compute; reflexivity |].
  exists e. rewrite Hrun. split; [reflexivity|].
  split; [exact Htitle|]. split; [exact Hdesc|]. exact Hauthor.
Defined.

(** A message of a subject, a blank line and two lines of text. *)
Lemma commit_message_is_split_witness :
  let commit := Scenario.commit_by [("name", PStr "Jane Doe")] "c0ffee4"
                  ("Fix crash" +:+ PyStr.NL +:+ PyStr.NL +:+ "It crashed."
                   +:+ PyStr.NL +:+ "No more.") in
  exists e,
    fst (GitHubHelper.format_commit Scenario.unreachable (PStr "obsproject/obs-studio")
           "master" false commit Scenario.fresh)
    = Ok (e, PStr "c0ffee4") /\
    title e = "Fix crash" /\
    description e = Some ("It crashed." +:+ PyStr.NL +:+ "No more.").
Proof.
  cbv zeta.
  destruct (commit_message_is_split Scenario.unreachable (PStr "obsproject/obs-studio")
              "master"%string false
              (Scenario.commit_by [("name", PStr "Jane Doe")] "c0ffee4"
                 ("Fix crash" +:+ PyStr.NL +:+ PyStr.NL +:+ "It crashed."
                  +:+ PyStr.NL +:+ "No more."))
              Scenario.fresh PNone Scenario.after_failed_lookup)
    as (e & Hrun & _);
    [vm_compute; reflexivity | vm_compute; reflexivity | vm_compute; reflexivity |].
  exists e. rewrite Hrun. split; [reflexivity|].
  vm_compute in Hrun. injection Hrun as <-. split; reflexivity.
Defined.

(** A push of two commits; the author of the first one is unknown to the
    API. *)
Lemma unknown_user_breaks_push_witness :
  fst (GitHubHelper.get_commit_messages Scenario2.not_found
         (Scenario.push [Scenario.commit_octocat "c0ffee3"; Scenario.commit_jane])
         false Scenario.fresh)
  = Raise KeyError.
Proof.
  apply (unknown_user_breaks_push Scenario2.not_found
           (Scenario.push [Scenario.commit_octocat "c0ffee3"; Scenario.commit_jane])
           "refs/heads/master"%string
           (PDict [("full_name", PStr "obsproject/obs-studio")])
           (PStr "obsproject/obs-studio")
           (Scenario.commit_octocat "c0ffee3") [Scenario.commit_jane]
           Scenario.fresh 404 Scenario2.not_found_body);
    vm_compute; reflexivity.
Defined.

(** A push of three commits in full mode, all by [octocat]. *)
Lemma push_is_formatted_witness :
  exists l w',
    GitHubHelper.get_commit_messages Scenario.profiles
      (Scenario.push [Scenario.commit_octocat "c0ffee3"; Scenario.commit_octocat "c0ffee5";
                      Scenario.commit_jane])
      false Scenario.fresh
    = (Ok l, w') /\
    map snd l = [PStr "c0ffee3"; PStr "c0ffee5"; PStr "c0ffee1"] /\
    length l = 3%nat /\
    cache_ok w'.
Proof.
  apply (push_is_formatted Scenario.profiles
           (Scenario.push [Scenario.commit_octocat "c0ffee3";
                           Scenario.commit_octocat "c0ffee5"; Scenario.commit_jane])
           false "refs/heads/master"%string
           (PDict [("full_name", PStr "obsproject/obs-studio")])
           (PStr "obsproject/obs-studio")
           [Scenario.commit_octocat "c0ffee3"; Scenario.commit_octocat "c0ffee5";
            Scenario.commit_jane]
           Scenario.fresh);
    try (vm_compute; reflexivity).
  - now left.
  - intros n rq v [= <-]. reflexivity.
  - constructor.
Defined.

(** *** Pull requests and issues: the two descriptors *)

Section ItemDescriptors.

Variable E : Env.

Lemma effect_free_ret {A} (a : A) : effect_free (ret a).
Proof. intros w. reflexivity. Qed.

Lemma effect_free_lift {A} (r : res A) : effect_free (lift r).
Proof. intros w. reflexivity. Qed.

Lemma effect_free_bind {A B} (m : M A) (f : A -> M B) :
  effect_free m -> (forall x, effect_free (f x)) -> effect_free (bind m f).
Proof.
  intros Hm Hf w. unfold bind. specialize (Hm w).
  destruct (m w) as [[x|e] w1]; cbn in *; subst; [apply Hf | reflexivity].
Qed.

Ltac effect_free_steps :=
  repeat first
    [ apply effect_free_ret | apply effect_free_lift
    | apply effect_free_bind; [apply effect_free_lift | intros ?] ].

(** X12. [get_pr_messages] and [get_issue_messages] have no effect on the
    helper: no request, no log line, no change of the cache or of the
    nightly slots, whatever the payload is (also when they raise). *)
Theorem items_are_effect_free event_body w :
  snd (GitHubHelper.get_pr_messages E event_body w) = w /\
  snd (GitHubHelper.get_issue_messages E event_body w) = w.
Proof.
  split.
  - revert w. change (effect_free (GitHubHelper.get_pr_messages E event_body)).
    unfold GitHubHelper.get_pr_messages. cbv zeta. effect_free_steps.
  - revert w. change (effect_free (GitHubHelper.get_issue_messages E event_body)).
    unfold GitHubHelper.get_issue_messages. cbv zeta. effect_free_steps.
Qed.

Ltac item_fields item :=
  let Htitle := fresh "Htitle" in
  let Hcreated := fresh "Hcreated" in
  let Hhtml := fresh "Hhtml" in
  let Huser := fresh "Huser" in
  let Ht := fresh "Ht" in
  let Hlogin := fresh "Hlogin" in
  let Huurl := fresh "Huurl" in
  let Havatar := fresh "Havatar" in
  destruct (Py.getitem item "title") as [?|] eqn:Htitle; try discriminate;
  destruct (Py.getitem item "created_at") as [?created|] eqn:Hcreated; try discriminate;
  destruct (Py.getitem item "html_url") as [?|] eqn:Hhtml; try discriminate;
  destruct (Py.getitem item "user") as [?user|] eqn:Huser; try discriminate.

Ltac user_fields :=
  match goal with
  | |- context [GitHubHelper.parse ?E ?created] =>
      let Ht := fresh "Ht" in
      destruct (GitHubHelper.parse E created) as [?|] eqn:Ht; try discriminate
  end;
  match goal with
  | |- context [Py.getitem ?user "login"] =>
      let Hlogin := fresh "Hlogin" in
      let Huurl := fresh "Huurl" in
      let Havatar := fresh "Havatar" in
      destruct (Py.getitem user "login") as [?|] eqn:Hlogin; try discriminate;
      destruct (Py.getitem user "html_url") as [?|] eqn:Huurl; try discriminate;
      destruct (Py.getitem user "avatar_url") as [?|] eqn:Havatar; try discriminate
  end.

(** X13. For a well-formed payload both functions return, in this order,
    the brief descriptor and the full one, which is the brief one with the
    displayed body as its description: title [#<number>: <title>], the
    item's link and creation time, the author block of the item's user,
    the footer [Pull Request] or [Issue] and the single inline field
    [Repository].  The payload itself leaves the call with its body
    replaced by the displayed text. *)
Theorem item_descriptors w :
  (forall event_body body,
     well_formed_pr_event E event_body = true ->
     body_text "pull_request" event_body = Some body ->
     let brief := item_embed E (profile_field event_body "number")
                    (profile_field event_body "pull_request")
                    (profile_field (profile_field event_body "repository") "full_name")
                    GitHubHelper._pull_request_colour "Pull Request" in
     GitHubHelper.get_pr_messages E event_body w
     = (Ok (brief, set_description (displayed_body body) brief,
            with_body "pull_request" (displayed_body body) event_body), w)) /\
  (forall event_body body,
     well_formed_issue_event E event_body = true ->
     body_text "issue" event_body = Some body ->
     let issue := profile_field event_body "issue" in
     let brief := item_embed E (profile_field issue "number") issue
                    (profile_field (profile_field event_body "repository") "full_name")
                    GitHubHelper._issue_colour "Issue" in
     GitHubHelper.get_issue_messages E event_body w
     = (Ok (brief, set_description (displayed_body body) brief,
            with_body "issue" (displayed_body body) event_body), w)).
Proof.
  split; intros event_body body.
  - unfold well_formed_pr_event, has_repository, well_formed_item, body_text.
    destruct (Py.getitem event_body "number") as [number|] eqn:Hn; try discriminate.
    destruct (Py.getitem event_body "repository") as [repository|] eqn:Hrepo;
      try discriminate.
    destruct (Py.getitem repository "full_name") as [full_name|] eqn:Hfull;
      try discriminate.
    destruct (Py.getitem event_body "pull_request") as [pr|] eqn:Hpr; try discriminate.
    item_fields pr.
    destruct (Py.getitem pr "body") as [[| | |b| |]|] eqn:Hbody; try discriminate.
    user_fields.
    intros _ [= ->].
    destruct pr as [| | | | |prd]; try (cbn in Hbody; discriminate).
    destruct event_body as [| | | | |evd]; try (cbn in Hpr; discriminate).
    unfold GitHubHelper.get_pr_messages, item_embed, with_body, profile_field,
      bind, lift, ret.
    run_eqs. cbn [Py.as_str Py.setitem]. cbv beta iota zeta.
    rewrite filter_template_comments_displayed. run_eqs. reflexivity.
  - unfold well_formed_issue_event, has_repository, well_formed_item, body_text.
    destruct (Py.getitem event_body "repository") as [repository|] eqn:Hrepo;
      try discriminate.
    destruct (Py.getitem repository "full_name") as [full_name|] eqn:Hfull;
      try discriminate.
    destruct (Py.getitem event_body "issue") as [issue|] eqn:Hissue; try discriminate.
    destruct (Py.getitem issue "number") as [number|] eqn:Hn; try discriminate.
    item_fields issue.
    destruct (Py.getitem issue "body") as [[| | |b| |]|] eqn:Hbody; try discriminate.
    user_fields.
    intros _ [= ->].
    destruct issue as [| | | | |isd]; try (cbn in Hbody; discriminate).
    destruct event_body as [| | | | |evd]; try (cbn in Hissue; discriminate).
    unfold GitHubHelper.get_issue_messages, item_embed, with_body, profile_field,
      bind, lift, ret.
    run_eqs. cbn [Py.as_str Py.setitem]. cbv beta iota zeta.
    rewrite filter_template_comments_displayed. run_eqs. reflexivity.
Qed.

(** X14. A payload whose item is complete but whose body is not a text
    (GitHub sends [null] for an empty description) makes both functions
    raise [AttributeError]: no descriptor is returned, not even the brief
    one, which does not show the body. *)
Theorem item_without_text_raises w :
  (forall event_body pr body,
     is_ok (Py.getitem event_body "number") = true ->
     has_repository event_body = true ->
     Py.getitem event_body "pull_request" = Ok pr ->
     well_formed_item_head E pr = true ->
     Py.getitem pr "body" = Ok body ->
     (forall text, body <> PStr text) ->
     GitHubHelper.get_pr_messages E event_body w = (Raise AttributeError, w)) /\
  (forall event_body issue body,
     has_repository event_body = true ->
     Py.getitem event_body "issue" = Ok issue ->
     is_ok (Py.getitem issue "number") = true ->
     well_formed_item_head E issue = true ->
     Py.getitem issue "body" = Ok body ->
     (forall text, body <> PStr text) ->
     GitHubHelper.get_issue_messages E event_body w = (Raise AttributeError, w)).
Proof.
  split.
  - intros event_body pr body Hnum Hrepo Hpr Hhead Hbody Htext.
    unfold has_repository, well_formed_item_head in *.
    destruct (Py.getitem event_body "number") as [number|] eqn:Hn; try discriminate.
    destruct (Py.getitem event_body "repository") as [repository|] eqn:Hrepo';
      try discriminate.
    destruct (Py.getitem repository "full_name") as [full_name|] eqn:Hfull;
      try discriminate.
    revert Hhead. item_fields pr. user_fields. intros _.
    unfold GitHubHelper.get_pr_messages, bind, lift, ret. run_eqs.
    destruct body; try reflexivity. now destruct (Htext s).
  - intros event_body issue body Hrepo Hissue Hnum Hhead Hbody Htext.
    unfold has_repository, well_formed_item_head in *.
    destruct (Py.getitem event_body "repository") as [repository|] eqn:Hrepo';
      try discriminate.
    destruct (Py.getitem repository "full_name") as [full_name|] eqn:Hfull;
      try discriminate.
    destruct (Py.getitem issue "number") as [number|] eqn:Hn; try discriminate.
    revert Hhead. item_fields issue. user_fields. intros _.
    unfold GitHubHelper.get_issue_messages, bind, lift, ret. run_eqs.
    destruct body; try reflexivity. now destruct (Htext s).
Qed.

End ItemDescriptors.

(** The pull request and the issue of the template example. *)
Lemma item_descriptors_witness :
  (let brief := item_embed Scenario.unreachable (PInt 4211)
                  (Scenario.item Scenario.template_body)
                  (PStr "obsproject/obs-studio")
                  GitHubHelper._pull_request_colour "Pull Request" in
   GitHubHelper.get_pr_messages Scenario.unreachable
     (Scenario.pr_event Scenario.template_body) Scenario.fresh
   = (Ok (brief, set_description ("Real text" +:+ PyStr.NL +:+ "More") brief,
          Scenario.pr_event ("Real text" +:+ PyStr.NL +:+ "More")), Scenario.fresh)) /\
  (let brief := item_embed Scenario.unreachable (PInt 4211)
                  (Scenario.item Scenario.template_body)
                  (PStr "obsproject/obs-studio")
                  GitHubHelper._issue_colour "Issue" in
   GitHubHelper.get_issue_messages Scenario.unreachable
     (Scenario.issue_event Scenario.template_body) Scenario.fresh
   = (Ok (brief, set_description ("Real text" +:+ PyStr.NL +:+ "More") brief,
          Scenario.issue_event ("Real text" +:+ PyStr.NL +:+ "More")), Scenario.fresh)).
Proof.
  pose proof (item_descriptors Scenario.unreachable Scenario.fresh) as [Hpr Hissue].
  split.
  - apply (Hpr (Scenario.pr_event Scenario.template_body) Scenario.template_body);
      reflexivity.
  - apply (Hissue (Scenario.issue_event Scenario.template_body) Scenario.template_body);
      reflexivity.
Defined.

(** A pull request and an issue without a description. *)
Lemma item_without_text_raises_witness :
  GitHubHelper.get_pr_messages Scenario.unreachable (Scenario2.pr_event_with PNone)
    Scenario.fresh = (Raise AttributeError, Scenario.fresh) /\
  GitHubHelper.get_issue_messages Scenario.unreachable (Scenario2.issue_event_with PNone)
    Scenario.fresh = (Raise AttributeError, Scenario.fresh).
Proof.
  pose proof (item_without_text_raises Scenario.unreachable Scenario.fresh)
    as [Hpr Hissue].
  split.
  - apply (Hpr (Scenario2.pr_event_with PNone) (Scenario2.item_with PNone) PNone);
      [reflexivity | reflexivity | reflexivity | reflexivity | reflexivity
      | intros text; discriminate].
  - apply (Hissue (Scenario2.issue_event_with PNone) (Scenario2.item_with PNone) PNone);
      [reflexivity | reflexivity | reflexivity | reflexivity | reflexivity
      | intros text; discriminate].
Defined.

(** *** The displayed text, line by line *)

Lemma has_char_join c l :
  c <> PyStr.nl ->
  Forall (fun piece => has_char c piece = false) l ->
  has_char c (PyStr.join PyStr.NL l) = false.
Proof.
  intros Hc. induction 1 as [|x l Hx Hl IH]; [reflexivity|].
  destruct l as [|y l]; [exact Hx|].
  rewrite join_cons_cons, !has_char_app, Hx, IH. cbn.
  destruct (Ascii.eqb_spec PyStr.nl c) as [Heq|_]; [now destruct Hc | reflexivity].
Qed.

(** No piece of [splitlines] holds a line boundary. *)
Lemma line_pieces_clean c after_cr s :
  PyStr.is_linebreak c = true ->
  Forall (fun piece => has_char c piece = false) (PyStr.line_pieces after_cr s).
Proof.
  intros Hc. revert after_cr.
  induction s as [|a s IH]; intros after_cr; cbn [PyStr.line_pieces];
    [repeat constructor|].
  destruct (after_cr && Ascii.eqb a PyStr.nl); [apply IH|].
  destruct (PyStr.is_linebreak a) eqn:Ha; [constructor; [reflexivity | apply IH]|].
  assert (Ascii.eqb a c = false) as Hac.
  { destruct (Ascii.eqb_spec a c) as [->|]; [congruence | reflexivity]. }
  specialize (IH false).
  destruct (PyStr.line_pieces false s) as [|p ps];
    [repeat constructor; cbn; now rewrite Hac|].
  inversion IH as [|? ? Hp Hps]; subst. constructor; [|exact Hps].
  cbn. now rewrite Hac.
Qed.

Lemma drop_last_empty_Forall (P : string -> Prop) l :
  Forall P l -> Forall P (PyStr.drop_last_empty l).
Proof.
  induction 1 as [|x l Hx Hl IH]; [constructor|].
  cbn [PyStr.drop_last_empty]. destruct l as [|y l].
  - destruct (String.eqb x EmptyString); repeat constructor; exact Hx.
  - constructor; [exact Hx | exact IH].
Qed.

Lemma lstrip_clean c s : has_char c s = false -> has_char c (PyStr.lstrip s) = false.
Proof.
  induction s as [|a s IH]; [reflexivity|]. intros H. cbn [PyStr.lstrip].
  destruct (PyStr.is_space a); [|exact H].
  apply IH. cbn in H. now apply orb_false_elim in H.
Qed.

Lemma rstrip_clean c s : has_char c s = false -> has_char c (PyStr.rstrip s) = false.
Proof.
  induction s as [|a s IH]; [reflexivity|]. intros H. cbn [PyStr.rstrip].
  cbn in H. apply orb_false_elim in H as [Ha Hs]. specialize (IH Hs).
  destruct (PyStr.rstrip s) as [|b r].
  - destruct (PyStr.is_space a); [reflexivity | cbn; now rewrite Ha].
  - cbn [has_char] in *. now rewrite Ha.
Qed.

Lemma displayed_lines_clean c body :
  PyStr.is_linebreak c = true ->
  Forall (fun piece => has_char c piece = false)
         (map PyStr.strip
              (List.filter (fun l => negb (PyStr.startswith "<!-" l))
                           (PyStr.splitlines body))).
Proof.
  intros Hc. apply List.Forall_map.
  assert (Forall (fun piece => has_char c piece = false) (PyStr.splitlines body)) as H
    by (apply drop_last_empty_Forall, line_pieces_clean, Hc).
  induction H as [|x l Hx Hl IH]; [constructor|]. cbn [List.filter].
  destruct (negb (PyStr.startswith "<!-" x)); [|exact IH].
  constructor; [|exact IH]. apply rstrip_clean, lstrip_clean, Hx.
Qed.

(** X15. The displayed text has no line boundary but the newline: a
    carriage return, a form feed or any other boundary of [splitlines] in
    the body never reaches the channel. *)
Theorem displayed_body_line_breaks body c :
  PyStr.is_linebreak c = true ->
  c <> PyStr.nl ->
  has_char c (GitHubHelper.filter_template_comments body) = false.
Proof.
  intros Hc Hnl. unfold GitHubHelper.filter_template_comments.
  apply has_char_join; [exact Hnl|]. apply displayed_lines_clean, Hc.
Qed.

(** A body with Windows line ends. *)
Lemma displayed_body_line_breaks_witness :
  has_char PyStr.cr
    (GitHubHelper.filter_template_comments
       ("Steps" +:+ String PyStr.cr PyStr.NL +:+ "Crash" +:+ String PyStr.cr PyStr.NL))
  = false.
Proof.
  apply (displayed_body_line_breaks _ PyStr.cr); [reflexivity | discriminate].
Defined.

Lemma lstrip_head_ok s : head_ok (PyStr.lstrip s) = true.
Proof.
  induction s as [|a s IH]; [reflexivity|]. cbn [PyStr.lstrip].
  destruct (PyStr.is_space a) eqn:Ha; [exact IH | cbn [head_ok]; now rewrite Ha].
Qed.

Lemma lstrip_fixed s : head_ok s = true -> PyStr.lstrip s = s.
Proof.
  destruct s as [|a s]; [reflexivity|]. cbn [head_ok PyStr.lstrip].
  now destruct (PyStr.is_space a).
Qed.

Lemma rstrip_head_ok s : head_ok s = true -> head_ok (PyStr.rstrip s) = true.
Proof.
  destruct s as [|a s]; [reflexivity|]. cbn [head_ok PyStr.rstrip]. intros Ha.
  destruct (PyStr.rstrip s); [|exact Ha].
  destruct (PyStr.is_space a) eqn:Hs; [discriminate|]. cbn [head_ok]. now rewrite Hs.
Qed.

Lemma rstrip_rstrip s : PyStr.rstrip (PyStr.rstrip s) = PyStr.rstrip s.
Proof.
  induction s as [|a s IH]; [reflexivity|]. cbn [PyStr.rstrip].
  destruct (PyStr.rstrip s) as [|b r] eqn:Hr.
  - destruct (PyStr.is_space a) eqn:Ha; [reflexivity|]. cbn [PyStr.rstrip].
    now rewrite Ha.
  - change (PyStr.rstrip (String a (String b r)))
      with (match PyStr.rstrip (String b r) with
            | EmptyString => if PyStr.is_space a then EmptyString
                             else String a EmptyString
            | t' => String a t'
            end).
    now rewrite IH.
Qed.

Lemma strip_strip s : PyStr.strip (PyStr.strip s) = PyStr.strip s.
Proof.
  unfold PyStr.strip.
  rewrite (lstrip_fixed (PyStr.rstrip (PyStr.lstrip s)))
    by apply rstrip_head_ok, lstrip_head_ok.
  apply rstrip_rstrip.
Qed.

Lemma split_clean c s : has_char c s = false -> PyStr.split c s = [s].
Proof.
  induction s as [|a s IH]; [reflexivity|]. cbn [has_char PyStr.split]. intros H.
  apply orb_false_elim in H as [Ha Hs]. now rewrite Ha, (IH Hs).
Qed.

Lemma split_app_clean c s t :
  has_char c s = false ->
  PyStr.split c (s +:+ String c t) = s :: PyStr.split c t.
Proof.
  induction s as [|a s IH].
  - intros _. rewrite string_app_nil. cbn [PyStr.split]. now rewrite Ascii.eqb_refl.
  - cbn [has_char]. intros H. apply orb_false_elim in H as [Ha Hs].
    rewrite string_app_cons. cbn [PyStr.split]. now rewrite Ha, (IH Hs).
Qed.

(** Splitting what was joined gives the lines back. *)
Lemma split_join c x l :
  Forall (fun piece => has_char c piece = false) (x :: l) ->
  PyStr.split c (PyStr.join (String c EmptyString) (x :: l)) = x :: l.
Proof.
  revert x. induction l as [|y l IH]; intros x H; inversion H as [|? ? Hx Hl]; subst.
  - now apply split_clean.
  - rewrite join_cons_cons.
    change (x +:+ String c EmptyString +:+ PyStr.join (String c EmptyString) (y :: l))
      with (x +:+ String c (PyStr.join (String c EmptyString) (y :: l))).
    rewrite (split_app_clean c x _ Hx). now rewrite (IH y Hl).
Qed.

(** X16. Every line of the displayed text is stripped: cut at its
    newlines, the text gives lines without white space at either end, so
    that stripping the text line by line again changes nothing. *)
Theorem displayed_body_lines_are_stripped body :
  Forall (fun line => PyStr.strip line = line)
         (PyStr.split PyStr.nl (GitHubHelper.filter_template_comments body)).
Proof.
  unfold GitHubHelper.filter_template_comments.
  pose proof (displayed_lines_clean PyStr.nl body eq_refl) as Hclean.
  destruct (map PyStr.strip
              (List.filter (fun l => negb (PyStr.startswith "<!-" l))
                           (PyStr.splitlines body))) as [|x l] eqn:Hlines.
  - repeat constructor.
  - unfold PyStr.NL. rewrite (split_join PyStr.nl x l Hclean). rewrite <- Hlines.
    apply List.Forall_map, List.Forall_forall. intros line _. apply strip_strip.
Qed.

(** *** Check suites: requests, slots and the descriptor *)

Section CheckSuiteEffects.

Variable E : Env.
Variable R : relation world.
Hypothesis R_preorder : PreOrder R.
Hypothesis R_io : ignores_io R.
Hypothesis R_slots :
  forall v, does R 0 (GitHubHelper.state_setitem "nightly_macos" v) /\
            does R 0 (GitHubHelper.state_setitem "nightly_windows" v).

Ltac pure_steps :=
  repeat (apply (does_bind_free R R_preorder); [apply (does_lift R R_preorder) | intros ?]).

(** One turn of the loop over the artifacts sends nothing. *)
Lemma does_process_artifact check_suite_id success branch artifact :
  does R 0 (GitHubHelper.process_artifact check_suite_id success branch artifact).
Proof.
  unfold GitHubHelper.process_artifact. pure_steps.
  apply (does_bind_free R R_preorder).
  - destruct (success && _); [|apply (does_ret R R_preorder)]. pure_steps.
    match goal with |- does R 0 (if ?b then _ else _) => destruct b end;
      [apply R_slots|]. pure_steps.
    match goal with |- does R 0 (if ?b then _ else _) => destruct b end;
      [apply R_slots | apply (does_ret R R_preorder)].
  - intros _. pure_steps. apply (does_ret R R_preorder).
Qed.

(** [get_ci_results] sends at most three times five requests. *)
Lemma does_get_ci_results event_body :
  does R 15 (GitHubHelper.get_ci_results E event_body).
Proof.
  unfold GitHubHelper.get_ci_results. cbv zeta. pure_steps.
  apply (does_bind R R_preorder _ _ 5 10);
    [apply (does_get_with_retry E R R_preorder R_io) | intros runs].
  destruct (negb (Py.truthy runs)).
  { apply (does_bind_free R R_preorder);
      [apply (does_emit R R_io) | intros _; apply (does_ret R R_preorder)]. }
  pure_steps.
  match goal with |- does R _ (match ?found with _ => _ end) => destruct found as [run|] end.
  2:{ apply (does_bind_free R R_preorder);
        [apply (does_emit R R_io) | intros _; apply (does_ret R R_preorder)]. }
  pure_steps.
  apply (does_bind R R_preorder _ _ 5 5);
    [apply (does_get_with_retry E R R_preorder R_io) | intros jobs].
  destruct (negb (Py.truthy jobs)).
  { apply (does_bind_free R R_preorder);
      [apply (does_emit R R_io) | intros _; apply (does_ret R R_preorder)]. }
  pure_steps.
  apply (does_bind R R_preorder _ _ 5 0);
    [apply (does_get_with_retry E R R_preorder R_io) | intros artifacts].
  destruct (negb (Py.truthy artifacts)).
  { apply (does_bind_free R R_preorder);
      [apply (does_emit R R_io) | intros _; apply (does_ret R R_preorder)]. }
  pure_steps.
  apply (does_bind_free R R_preorder).
  - match goal with
    | |- does R 0 (for_each ?f ?l) =>
        apply (does_weaken R (for_each f l)) with (length l * 0)%nat; [|lia];
        apply (does_for_each R R_preorder)
    end.
    intros artifact. apply does_process_artifact.
  - intros entries. pure_steps. apply (does_ret R R_preorder).
Qed.

End CheckSuiteEffects.

Lemma does_nightly_slot (slot : string) v :
  slot = "nightly_macos" \/ slot = "nightly_windows" ->
  does nightly_only 0 (GitHubHelper.state_setitem slot v).
Proof.
  intros Hslot w. cbn. split; [|lia]. split; [reflexivity|].
  intros key Hmac Hwin. apply lookup_insert_ne. destruct Hslot; congruence.
Qed.

(** Unfolds the monadic layer of [get_ci_results]. *)
Ltac ci_unfold :=
  unfold GitHubHelper.get_ci_results; cbv zeta; unfold bind, lift, ret.

(** Uses one equation of the path and reduces the step it decides. *)
Ltac ci_use H := rewrite H; cbv beta iota.

Ltac ci_fetched H :=
  unfold fetch, fetch_runs, runs_url, runs_params in H; rewrite H; cbv beta iota.

(** Runs [get_ci_results] up to the fetch of the jobs. *)
Ltac ci_run_until_jobs Hsel :=
  let Hid := fresh "Hid" in
  let runs := fresh "runs" in
  let rs := fresh "rs" in
  let Hfetch := fresh "Hfetch" in
  let Htruthy := fresh "Htruthy" in
  let Hruns := fresh "Hruns" in
  let Hfind := fresh "Hfind" in
  let Hwf := fresh "Hwf" in
  let cs := fresh "cs" in
  let Hcs := fresh "Hcs" in
  destruct Hsel as (Hid & runs & rs & Hfetch & Htruthy & Hruns & Hfind & Hwf);
  destruct (check_suite_id_of_inv _ _ Hid) as (cs & Hcs & Hid');
  destruct (well_formed_run_inv _ _ Hwf)
    as (head_sha & updated_at & finished & created_at & started & repository & repo
        & branch & web_url & jobs_url' & artifacts_url' & run_number
        & Hsha & Hupd & Hfin & Hcre & Hsta & Hrep & Hfull & Hbranch & Hweb
        & Hjurl & Haurl & Hnum);
  ci_unfold; ci_use Hcs; ci_use Hid'; ci_fetched Hfetch;
  ci_use Htruthy; cbn [negb]; cbv beta iota;
  ci_use Hruns; cbn [Py.as_list]; cbv beta iota; ci_use Hfind;
  ci_use Hsha; ci_use Hupd; ci_use Hfin; ci_use Hcre; ci_use Hsta;
  ci_use Hrep; ci_use Hfull; ci_use Hbranch; ci_use Hweb.

Section CheckSuiteResult.

Variable E : Env.

(** X17. Whatever the event and the network, [get_ci_results] sends at
    most fifteen requests (three fetches of five attempts), leaves the
    author cache alone and writes no key of the shared state but
    [nightly_macos] and [nightly_windows]. *)
Theorem get_ci_results_effects event_body w :
  let w' := snd (GitHubHelper.get_ci_results E event_body w) in
  user_cache w' = user_cache w /\
  (forall key : string,
     key <> "nightly_macos" -> key <> "nightly_windows" ->
     state w' !! key = state w !! key) /\
  (n_get w <= n_get w' <= n_get w + 15)%nat.
Proof.
  destruct (does_get_ci_results E nightly_only nightly_only_preorder nightly_only_io
              (fun v => conj (does_nightly_slot "nightly_macos" v (or_introl eq_refl))
                             (does_nightly_slot "nightly_windows" v (or_intror eq_refl)))
              event_body w) as [[Hcache Hstate] Hn].
  cbv zeta. auto.
Qed.

(** X18. When the run is found and its jobs and artifacts are fetched,
    [get_ci_results] returns the descriptor [Build <number> <result>] of
    the run, with the build message as its description and the fields
    [Project], [Branch] and [Artifacts] (one link a line), and beside it
    the commit hash, the first line of the message, the emote of the
    outcome and the link of the run.  The duration in that line is the
    difference of the two times of the run without its whole days. *)
Theorem ci_result event_body w check_suite_id run w1 jobs w2 artifacts w3 :
  run_selected E event_body w check_suite_id run w1 ->
  jobs_listed E run w1 jobs w2 ->
  artifacts_listed E run w2 artifacts w3 ->
  fst (GitHubHelper.get_ci_results E event_body w)
  = Ok (Some (ci_embed E check_suite_id run jobs artifacts,
              (profile_field run "head_sha", ci_first_line E run jobs,
               ci_emote E jobs, profile_field run "html_url"))) /\
  0 <= run_duration E run < 86400.
Proof.
  intros Hsel (jobs_url & fetched & Hurl & Hfetch & Htruthy & Hjobs & Hwfj)
         (artifacts_url & afetched & Haurl' & Hafetch & Hatruthy & Harts & Hwfa).
  ci_run_until_jobs Hsel.
  ci_use Hurl. ci_fetched Hfetch. ci_use Htruthy. cbn [negb]. cbv beta iota.
  ci_use Hjobs. cbn [Py.as_list]. cbv beta iota.
  match goal with
  | |- context [GitHubHelper.summarise_jobs E jobs ?m ?s] =>
      pose proof (summarise_jobs_spec E jobs m s Hwfj) as Hspec
  end.
  cbv zeta in Hspec. destruct Hspec as (summary & Hsum & Hsucc & Houtcome & Hmsg).
  ci_use Hsum. ci_use Haurl'. ci_fetched Hafetch. ci_use Hatruthy.
  cbn [negb]. cbv beta iota. ci_use Harts. cbn [Py.as_list]. cbv beta iota.
  rewrite (process_artifacts_spec _ _ _ _ _ Hwfa). cbv beta iota.
  ci_use Hnum. cbn [fst].
  unfold ci_embed, ci_first_line, ci_emote, ci_outcome, run_duration, branch_of,
    profile_field.
  rewrite <- Houtcome, Hmsg, Hsha, Hupd, Hcre, Hfin, Hsta, Hrep, Hfull, Hbranch,
    Hweb, Hnum.
  split; [reflexivity|]. apply Z.mod_pos_bound. lia.
Qed.

(** X19. The link of an artifact is built from the check suite and the
    id of the artifact, never from the [archive_download_url] the API
    sent: the entry of the [Artifacts] field is [[name](link)] for every
    outcome and branch, and on a successful run on [master] the nightly
    slot holds the artifact with that link in place of the API's and every
    other key as it was. *)
Theorem artifact_link check_suite_id success branch artifact slot w :
  well_formed_artifact artifact = true ->
  nightly_slot (name_of artifact) = Some slot ->
  let out := GitHubHelper.process_artifact check_suite_id success branch artifact w in
  fst out = Ok ("[" +:+ name_of artifact +:+ "]("
                +:+ artifact_url check_suite_id artifact +:+ ")") /\
  (success = true -> branch = PStr "master" ->
   exists stored,
     state (snd out) !! slot = Some stored /\
     Py.getitem stored "archive_download_url"
     = Ok (PStr (artifact_url check_suite_id artifact)) /\
     forall key : string,
       key <> "archive_download_url" ->
       Py.getitem stored key = Py.getitem artifact key).
Proof.
  intros Hwf Hslot. cbv zeta. rewrite (process_artifact_spec _ _ _ _ _ Hwf).
  cbn [fst snd].
  unfold well_formed_artifact in Hwf.
  destruct artifact as [| | | | |d]; try discriminate.
  destruct (Py.getitem (PDict d) "id") as [artifact_id|] eqn:Hid; [|discriminate].
  destruct (Py.getitem (PDict d) "name") as [[| | |n| |]|] eqn:Hname; try discriminate.
  assert (forall key : string,
            key <> "archive_download_url" ->
            Py.getitem (with_download_url check_suite_id (PDict d)) key
            = Py.getitem (PDict d) key) as Hkeys.
  { intros key Hkey. unfold with_download_url. rewrite Hid. cbn [Py.getitem].
    rewrite assoc_set_other; [reflexivity|]. now apply String.eqb_neq. }
  assert (Py.getitem (with_download_url check_suite_id (PDict d)) "archive_download_url"
          = Ok (PStr (artifact_url check_suite_id (PDict d)))) as Hurl.
  { unfold with_download_url, artifact_url, profile_field. rewrite Hid.
    cbn [Py.getitem]. now rewrite assoc_set_same. }
  split.
  - unfold artifact_entry, name_of at 1. rewrite Hurl.
    rewrite (Hkeys "name") by discriminate. unfold name_of. rewrite Hname.
    reflexivity.
  - intros -> ->. exists (with_download_url check_suite_id (PDict d)).
    split; [|split; [exact Hurl | exact Hkeys]].
    cbn [andb Py.eqb with_state state]. unfold nightly_update. rewrite Hslot.
    apply lookup_insert_eq.
Qed.

(** An artifact that goes to another slot, or to none, leaves [slot]. *)
Lemma nightly_update_other check_suite_id slots artifact (slot : string) :
  nightly_slot (name_of artifact) <> Some slot ->
  nightly_update check_suite_id slots artifact !! slot = slots !! slot.
Proof.
  intros Hne. unfold nightly_update.
  destruct (nightly_slot (name_of artifact)) as [slot'|]; [|reflexivity].
  apply lookup_insert_ne. congruence.
Qed.

Lemma nightly_updates_other check_suite_id artifacts (slot : string) : forall slots,
  Forall (fun a => nightly_slot (name_of a) <> Some slot) artifacts ->
  fold_left (nightly_update check_suite_id) artifacts slots !! slot = slots !! slot.
Proof.
  induction artifacts as [|a artifacts IH]; intros slots Hall; [reflexivity|].
  inversion Hall as [|? ? Ha Hrest]; subst. cbn [fold_left].
  rewrite (IH _ Hrest). now apply nightly_update_other.
Qed.

(** X20. Of several artifacts for one platform the last one wins: after
    the loop of a successful run on [master] the slot holds the last
    artifact whose name selects it, with its link. *)
Theorem last_artifact_wins check_suite_id before artifact after slot w :
  forallb well_formed_artifact (before ++ artifact :: after) = true ->
  nightly_slot (name_of artifact) = Some slot ->
  Forall (fun a => nightly_slot (name_of a) <> Some slot) after ->
  state (snd (for_each (GitHubHelper.process_artifact check_suite_id true (PStr "master"))
                (before ++ artifact :: after) w)) !! slot
  = Some (with_download_url check_suite_id artifact).
Proof.
  intros Hwf Hslot Hafter. rewrite (process_artifacts_spec _ _ _ _ _ Hwf).
  cbn [snd andb Py.eqb with_state state]. rewrite String.eqb_refl.
  rewrite fold_left_app. cbn [fold_left].
  rewrite (nightly_updates_other _ _ _ _ Hafter).
  unfold nightly_update at 1. rewrite Hslot. apply lookup_insert_eq.
Qed.

(** X21. A platform without an artifact keeps its previous nightly build:
    the loop never clears a slot, also on a successful run on [master]. *)
Theorem missing_artifact_keeps_slot check_suite_id success branch artifacts slot w :
  forallb well_formed_artifact artifacts = true ->
  Forall (fun a => nightly_slot (name_of a) <> Some slot) artifacts ->
  state (snd (for_each (GitHubHelper.process_artifact check_suite_id success branch)
                artifacts w)) !! slot
  = state w !! slot.
Proof.
  intros Hwf Hnone. rewrite (process_artifacts_spec _ _ _ _ _ Hwf).
  cbn [snd with_state state].
  destruct (success && _); [|reflexivity].
  now apply nightly_updates_other.
Qed.

(** X22. The run of a check suite is the first one of the fetched page
    with its id: runs before it that belong to other check suites are
    passed over, and what follows it is not looked at (not even for its
    [check_suite_id] key). *)
Theorem find_run_first_match check_suite_id before run after :
  Forall (fun r => run_matches check_suite_id r = Some false) before ->
  run_matches check_suite_id run = Some true ->
  GitHubHelper.find_run check_suite_id (before ++ run :: after) = Ok (Some run).
Proof.
  unfold run_matches. intros Hbefore Hrun.
  induction Hbefore as [|r before Hr _ IH]; cbn [app GitHubHelper.find_run].
  - destruct (Py.getitem run "check_suite_id") as [c|]; [|discriminate].
    injection Hrun as ->. reflexivity.
  - destruct (Py.getitem r "check_suite_id") as [c|]; [|discriminate].
    injection Hr as ->. exact IH.
Qed.

End CheckSuiteResult.

(** The successful run on [master] with its three artifacts. *)
Lemma ci_result_witness :
  fst (GitHubHelper.get_ci_results Scenario.nightly Scenario.check_suite_event
         Scenario.fresh)
  = Ok (Some (ci_embed Scenario.nightly (PInt 1234) (Scenario.run_of 1234 "master")
                Scenario.jobs_all_passed Scenario.nightly_artifacts,
              (profile_field (Scenario.run_of 1234 "master") "head_sha",
               ci_first_line Scenario.nightly (Scenario.run_of 1234 "master")
                 Scenario.jobs_all_passed,
               ci_emote Scenario.nightly Scenario.jobs_all_passed,
               profile_field (Scenario.run_of 1234 "master") "html_url"))) /\
  0 <= run_duration Scenario.nightly (Scenario.run_of 1234 "master") < 86400.
Proof.
  apply (ci_result Scenario.nightly Scenario.check_suite_event Scenario.fresh
           (PInt 1234) (Scenario.run_of 1234 "master")
           (Scenario.after_runs Scenario.nightly) Scenario.jobs_all_passed
           (Scenario.after_jobs Scenario.nightly) Scenario.nightly_artifacts
           (Scenario.after_artifacts Scenario.nightly)).
  - split; [vm_compute; reflexivity|].
    exists (PDict [("total_count", PInt 2);
                   ("workflow_runs", PList [Scenario.run_of 999 "master";
                                            Scenario.run_of 1234 "master"])]),
           [Scenario.run_of 999 "master"; Scenario.run_of 1234 "master"].
    repeat split; vm_compute; reflexivity.
  - exists (PStr "https://api.github.com/runs/77/jobs"),
           (PDict [("total_count", PInt 3); ("jobs", PList Scenario.jobs_all_passed)]).
    repeat split; vm_compute; reflexivity.
  - exists (PStr "https://api.github.com/runs/77/artifacts"),
           (PDict [("total_count", PInt 3);
                   ("artifacts", PList Scenario.nightly_artifacts)]).
    repeat split; vm_compute; reflexivity.
Defined.

(** The macOS artifact of a successful run on [master]. *)
Lemma artifact_link_witness :
  let out := GitHubHelper.process_artifact (PInt 1234) true (PStr "master")
               (Scenario.artifact 1 "OBS-Studio-27.0.0-macOS.dmg") Scenario.fresh in
  fst out = Ok ("[" +:+ name_of (Scenario.artifact 1 "OBS-Studio-27.0.0-macOS.dmg")
                +:+ "]("
                +:+ artifact_url (PInt 1234)
                      (Scenario.artifact 1 "OBS-Studio-27.0.0-macOS.dmg") +:+ ")") /\
  (true = true -> PStr "master" = PStr "master" ->
   exists stored,
     state (snd out) !! "nightly_macos" = Some stored /\
     Py.getitem stored "archive_download_url"
     = Ok (PStr (artifact_url (PInt 1234)
                   (Scenario.artifact 1 "OBS-Studio-27.0.0-macOS.dmg"))) /\
     forall key : string,
       key <> "archive_download_url" ->
       Py.getitem stored key
       = Py.getitem (Scenario.artifact 1 "OBS-Studio-27.0.0-macOS.dmg") key).
Proof.
  apply (artifact_link (PInt 1234) true (PStr "master")
           (Scenario.artifact 1 "OBS-Studio-27.0.0-macOS.dmg") "nightly_macos"
           Scenario.fresh); vm_compute; reflexivity.
Defined.

(** Two macOS builds, and a Windows build after them. *)
Lemma last_artifact_wins_witness :
  state (snd (for_each (GitHubHelper.process_artifact (PInt 1234) true (PStr "master"))
                ([Scenario.artifact 1 "OBS-Studio-27.0.0-macOS.dmg"]
                 ++ Scenario2.arm_artifact
                 :: [Scenario.artifact 2 "OBS-Studio-27.0.0-win64.zip"])
                Scenario.fresh)) !! "nightly_macos"
  = Some (with_download_url (PInt 1234) Scenario2.arm_artifact).
Proof.
  apply (last_artifact_wins (PInt 1234)
           [Scenario.artifact 1 "OBS-Studio-27.0.0-macOS.dmg"] Scenario2.arm_artifact
           [Scenario.artifact 2 "OBS-Studio-27.0.0-win64.zip"] "nightly_macos"
           Scenario.fresh).
  - vm_compute; reflexivity.
  - vm_compute; reflexivity.
  - repeat constructor. vm_compute. discriminate.
Defined.

(** A successful run on [master] that built no macOS artifact. *)
Lemma missing_artifact_keeps_slot_witness :
  state (snd (for_each (GitHubHelper.process_artifact (PInt 1234) true (PStr "master"))
                [Scenario.artifact 2 "OBS-Studio-27.0.0-win64.zip";
                 Scenario.artifact 3 "OBS-Studio-27.0.0-linux.deb"]
                Scenario2.earlier_nightly)) !! "nightly_macos"
  = state Scenario2.earlier_nightly !! "nightly_macos".
Proof.
  apply (missing_artifact_keeps_slot (PInt 1234) true (PStr "master")
           [Scenario.artifact 2 "OBS-Studio-27.0.0-win64.zip";
            Scenario.artifact 3 "OBS-Studio-27.0.0-linux.deb"] "nightly_macos"
           Scenario2.earlier_nightly).
  - vm_compute; reflexivity.
  - repeat constructor; vm_compute; discriminate.
Defined.

(** The run of another check suite, the run looked for, and a later run
    of the same check suite. *)
Lemma find_run_first_match_witness :
  GitHubHelper.find_run (PInt 1234)
    ([Scenario.run_of 999 "master"]
     ++ Scenario.run_of 1234 "master" :: [Scenario.run_of 1234 "release"])
  = Ok (Some (Scenario.run_of 1234 "master")).
Proof.
  apply (find_run_first_match (PInt 1234) [Scenario.run_of 999 "master"]
           (Scenario.run_of 1234 "master") [Scenario.run_of 1234 "release"]).
  - repeat constructor.
  - reflexivity.
Defined.
